(** * Active-travel agents: a shallow embedding of the decision core

    The five rule-based agents of the repository (Health & Recovery, Golf
    Operations, Budget Control, Transport & Logistics and the Travel
    Experience orchestrator) are TypeScript classes over plain JavaScript
    data.  They are embedded here over a small model of the JavaScript
    values they manipulate:

    - a [number] is an exact rational, or NaN, or an infinity (the rounding
      of binary floating point, the exponent notation of the numbers that
      the runtime writes with one and the negative zero are left out);
    - a string is a [string] of bytes (UTF-8), and the case of a letter and
      the white space are those of ASCII;
    - an object is the list of its properties in the order in which they
      are enumerated; a context is such an object, read with the dynamic
      typing of the language: a field may be absent, [undefined], or hold a
      value of any kind;
    - a thrown exception is the [Throw] outcome of a computation; the
      conversion of an object to a primitive always succeeds (the runtime
      refuses it for an object with a property [toString] of its own), and
      a key is looked up among the properties of the object itself;
    - the wall clock read by the logger and the console it writes to are an
      explicit [World] threaded through every call;
    - an [async] method is the computation of its body: its promise is
      fulfilled with the value of [Ok], or rejected with the error of
      [Throw].  The fan-out of the orchestrator, the one place where several
      promises are pending together, keeps the order in which they are
      settled.

    The callers of the agents are embedded with them: the client of
    CarePeers, over a network that is a function from a request to what
    [fetch] comes back with, the route POST /api/analyze-day and the tools
    of the MCP server that run an agent; the standard error stream is the
    list of the lines written to it.

    The first part is the model: the runtime, then one module for each
    source file, with the names of the source.  The second part states and
    proves the properties. *)

From Stdlib Require Import List String Ascii Bool ZArith QArith Qround Qreduction Qabs.
From Stdlib Require Import DecimalString Lia Lqa.
From Stdlib Require Import Permutation Sorted.
Import ListNotations.

Local Open Scope list_scope.
Local Open Scope string_scope.
#[local] Set Warnings "-register-all".

(** ** Strings *)

Module JsString.

(** [String.prototype.toLowerCase], on the ASCII letters. *)
Definition lower_ascii (c : ascii) : ascii :=
  let n := nat_of_ascii c in
  if (65 <=? n)%nat && (n <=? 90)%nat then ascii_of_nat (n + 32) else c.

Fixpoint toLowerCase (s : string) : string :=
  match s with
  | EmptyString => EmptyString
  | String c t => String (lower_ascii c) (toLowerCase t)
  end.

(** [hay.includes(needle)]: [needle] occurs in [hay] at some position. *)
Fixpoint includes (hay needle : string) : bool :=
  String.prefix needle hay ||
  match hay with
  | EmptyString => false
  | String _ t => includes t needle
  end.

(** [xs.join(sep)] for an array of strings. *)
Definition join (sep : string) (xs : list string) : string :=
  String.concat sep xs.

(** [s.split(sep)[0]] for a one-character separator: the part of [s]
    before the first occurrence of [sep]. *)
Fixpoint split_head (sep : ascii) (s : string) : string :=
  match s with
  | EmptyString => EmptyString
  | String c t => if Ascii.eqb c sep then EmptyString else String c (split_head sep t)
  end.

Definition is_space (c : ascii) : bool :=
  let n := nat_of_ascii c in
  (n =? 32)%nat || ((9 <=? n)%nat && (n <=? 13)%nat).

Fixpoint trim_start (s : string) : string :=
  match s with
  | String c t => if is_space c then trim_start t else s
  | EmptyString => EmptyString
  end.

Fixpoint rev_string (s acc : string) : string :=
  match s with
  | EmptyString => acc
  | String c t => rev_string t (String c acc)
  end.

Definition trim (s : string) : string :=
  rev_string (trim_start (rev_string (trim_start s) "")) "".

(** The value of [c] as a digit in the given radix (at most 36). *)
Definition digit_of (radix : Z) (c : ascii) : option Z :=
  let n := nat_of_ascii (lower_ascii c) in
  let d :=
    if (48 <=? n)%nat && (n <=? 57)%nat then Some (Z.of_nat (n - 48))
    else if (97 <=? n)%nat && (n <=? 122)%nat then Some (Z.of_nat (n - 87))
    else None in
  match d with
  | Some v => if (v <? radix)%Z then Some v else None
  | None => None
  end.

(** The longest prefix of digits of [s] in the given radix, as a number,
    with the count of digits read and the rest of the string. *)
Fixpoint read_radix (radix : Z) (s : string) (acc : Z) (count : nat)
  : Z * nat * string :=
  match s with
  | String c t =>
      match digit_of radix c with
      | Some d => read_radix radix t (acc * radix + d)%Z (S count)
      | None => (acc, count, s)
      end
  | EmptyString => (acc, count, s)
  end.

Definition read_digits (s : string) : Z * nat * string := read_radix 10 s 0 0.

(** The radix announced by a prefix [0x], [0o] or [0b], and what follows. *)
Definition radix_prefix (s : string) : option (Z * string) :=
  match s with
  | String "0" (String c t) =>
      if Ascii.eqb (lower_ascii c) "x" then Some (16%Z, t)
      else if Ascii.eqb (lower_ascii c) "o" then Some (8%Z, t)
      else if Ascii.eqb (lower_ascii c) "b" then Some (2%Z, t)
      else None
  | _ => None
  end.

End JsString.

(** ** Numbers *)

Module JsNumber.

Inductive number : Type :=
| NaN
| PInf
| NInf
| Fin (q : Q).

Definition of_Z (z : Z) : number := Fin (inject_Z z).

Definition Qlt_bool (x y : Q) : bool := negb (Qle_bool y x).

Definition is_zero (q : Q) : bool := Qeq_bool q 0.
Definition is_neg (q : Q) : bool := Qlt_bool q 0.

Definition neg (a : number) : number :=
  match a with
  | NaN => NaN
  | PInf => NInf
  | NInf => PInf
  | Fin q => Fin (Qred (- q))
  end.

Definition add (a b : number) : number :=
  match a, b with
  | NaN, _ | _, NaN => NaN
  | PInf, NInf | NInf, PInf => NaN
  | PInf, _ | _, PInf => PInf
  | NInf, _ | _, NInf => NInf
  | Fin x, Fin y => Fin (Qred (x + y))
  end.

Definition sub (a b : number) : number := add a (neg b).

Definition mul (a b : number) : number :=
  match a, b with
  | NaN, _ | _, NaN => NaN
  | Fin x, Fin y => Fin (Qred (x * y))
  | Fin x, PInf | PInf, Fin x =>
      if is_zero x then NaN else if is_neg x then NInf else PInf
  | Fin x, NInf | NInf, Fin x =>
      if is_zero x then NaN else if is_neg x then PInf else NInf
  | PInf, PInf | NInf, NInf => PInf
  | PInf, NInf | NInf, PInf => NInf
  end.

Definition div (a b : number) : number :=
  match a, b with
  | NaN, _ | _, NaN => NaN
  | Fin x, Fin y =>
      if is_zero y then
        if is_zero x then NaN else if is_neg x then NInf else PInf
      else Fin (Qred (x / y))
  | Fin _, PInf | Fin _, NInf => Fin 0
  | PInf, Fin y => if is_neg y then NInf else PInf
  | NInf, Fin y => if is_neg y then PInf else NInf
  | _, _ => NaN
  end.

(** [a < b]; false as soon as one side is NaN. *)
Definition lt (a b : number) : bool :=
  match a, b with
  | NaN, _ | _, NaN => false
  | _, NInf => false
  | NInf, _ => true
  | PInf, _ => false
  | _, PInf => true
  | Fin x, Fin y => Qlt_bool x y
  end.

Definition is_nan (a : number) : bool :=
  match a with NaN => true | _ => false end.

(** [a <= b] is "not [b < a]", unless a NaN makes the comparison undefined. *)
Definition le (a b : number) : bool :=
  negb (is_nan a) && negb (is_nan b) && negb (lt b a).

Definition gt (a b : number) : bool := lt b a.
Definition ge (a b : number) : bool := le b a.

(** [a === b] on numbers. *)
Definition eqb (a b : number) : bool :=
  match a, b with
  | PInf, PInf | NInf, NInf => true
  | Fin x, Fin y => Qeq_bool x y
  | _, _ => false
  end.

(** [Math.abs]. *)
Definition abs (a : number) : number :=
  match a with
  | NaN => NaN
  | PInf | NInf => PInf
  | Fin q => Fin (Qred (Qabs q))
  end.

(** ToBoolean on a number: zero and NaN are falsy. *)
Definition truthy (a : number) : bool :=
  match a with
  | NaN => false
  | Fin q => negb (is_zero q)
  | _ => true
  end.

Definition Z_to_string (z : Z) : string :=
  NilZero.string_of_int (Z.to_int z).

Definition digit_char (d : Z) : ascii := ascii_of_nat (48 + Z.to_nat d).

(** Decimal digits of [r / d], for [0 <= r < d], until the expansion ends
    or [fuel] digits are written. *)
Fixpoint frac_digits (fuel : nat) (r d : Z) : string :=
  match fuel with
  | O => EmptyString
  | S k =>
      if (r =? 0)%Z then EmptyString
      else String (digit_char ((r * 10) / d)) (frac_digits k ((r * 10) mod d) d)
  end.

(** [String(n)] and [`${n}`], in plain decimal notation. *)
Definition to_string (a : number) : string :=
  match a with
  | NaN => "NaN"
  | PInf => "Infinity"
  | NInf => "-Infinity"
  | Fin q =>
      let q := Qred q in
      let n := Qnum q in
      let d := Zpos (Qden q) in
      if (d =? 1)%Z then Z_to_string n
      else
        (if (n <? 0)%Z then "-" else "") ++
        Z_to_string (Z.abs n / d) ++ "." ++ frac_digits 17 (Z.abs n mod d) d
  end.

(** The digits of a natural number [n] of tenths: ["12.3"] for 123. *)
Definition tenths_to_string (n : Z) : string :=
  Z_to_string (n / 10) ++ "." ++ String (digit_char (n mod 10)) EmptyString.

(** [x.toFixed(1)]: the closest number of tenths, the larger one on a tie,
    computed on the absolute value. *)
Definition toFixed1 (a : number) : string :=
  match a with
  | NaN => "NaN"
  | PInf => "Infinity"
  | NInf => "-Infinity"
  | Fin q =>
      let round (x : Q) := Qfloor (x * 10 + (1 # 2)) in
      if is_neg q then "-" ++ tenths_to_string (round (- q))
      else tenths_to_string (round q)
  end.

Definition signed_body (s : string) : bool * string :=
  match s with
  | String "-" t => (true, t)
  | String "+" t => (false, t)
  | _ => (false, s)
  end.

(** [parseInt(s)]: leading white space, an optional sign, an optional [0x],
    then the digits, in radix 16 after [0x] and 10 otherwise; NaN when there
    is no digit. *)
Definition parseInt (s : string) : number :=
  let '(negative, body) := signed_body (JsString.trim_start s) in
  let '(radix, digits) :=
    match JsString.radix_prefix body with
    | Some (16%Z, t) => (16%Z, t)
    | _ => (10%Z, body)
    end in
  match JsString.read_radix radix digits 0 0 with
  | (_, O, _) => NaN
  | (v, _, _) => of_Z (if negative then - v else v)
  end.

(** The exponent part of a decimal literal: nothing, or [e] and a signed
    integer that ends the string. *)
Definition exponent (s : string) : option Z :=
  match s with
  | EmptyString => Some 0%Z
  | String c t =>
      if Ascii.eqb (JsString.lower_ascii c) "e" then
        let '(negative, digits) := signed_body t in
        match JsString.read_digits digits with
        | (_, O, _) => None
        | (v, _, EmptyString) => Some (if negative then - v else v)%Z
        | _ => None
        end
      else None
  end.

(** An unsigned decimal literal: digits, an optional fraction, an optional
    exponent, with a digit before or after the point. *)
Definition decimal (s : string) : option Q :=
  let '(v, n, rest) := JsString.read_digits s in
  let '(f, m, rest) :=
    match rest with
    | String "." t => JsString.read_digits t
    | _ => (0%Z, O, rest)
    end in
  match (n + m)%nat, exponent rest with
  | O, _ | _, None => None
  | _, Some e =>
      Some (Qred ((inject_Z v + inject_Z f / inject_Z (10 ^ Z.of_nat m)) *
                  Qpower 10 e))
  end.

(** The value of a string used as a number ([Number(s)]): white space is
    trimmed; the empty string is 0; then a literal in radix 16, 8 or 2 after
    its prefix, a signed ["Infinity"], or a signed decimal literal;
    anything else is NaN. *)
Definition of_string (s : string) : number :=
  let s := JsString.trim s in
  if String.eqb s "" then of_Z 0 else
  match JsString.radix_prefix s with
  | Some (radix, digits) =>
      match JsString.read_radix radix digits 0 0 with
      | (_, O, _) => NaN
      | (v, _, EmptyString) => of_Z v
      | _ => NaN
      end
  | None =>
      let '(negative, body) := signed_body s in
      let signed (x : number) := if negative then neg x else x in
      if String.eqb body "Infinity" then signed PInf
      else match decimal body with
           | Some q => signed (Fin q)
           | None => NaN
           end
  end.

End JsNumber.

Export JsNumber(number, NaN, PInf, NInf, Fin).

(** ** Values *)

Module Js.

(** Plain data: the primitive values, arrays, and objects given by their
    own properties in enumeration order. *)
Inductive JsVal : Type :=
| JUndefined
| JNull
| JBool (b : bool)
| JNum (n : number)
| JStr (s : string)
| JArr (xs : list JsVal)
| JObj (ps : list (string * JsVal)).

Definition num (z : Z) : JsVal := JNum (JsNumber.of_Z z).

(** What a failing computation throws: an [Error] built by the program, or a
    [TypeError] raised by the runtime on a bad property access or call. *)
Inductive JsError : Type :=
| Error (message : string)
| TypeError (message : string).

Inductive Result (A : Type) : Type :=
| Ok (a : A)
| Throw (e : JsError).
Arguments Ok {A} a.
Arguments Throw {A} e.

Definition rbind {A B} (r : Result A) (f : A -> Result B) : Result B :=
  match r with
  | Ok a => f a
  | Throw e => Throw e
  end.

(** ToBoolean. *)
Definition truthy (v : JsVal) : bool :=
  match v with
  | JUndefined | JNull => false
  | JBool b => b
  | JNum n => JsNumber.truthy n
  | JStr s => negb (String.eqb s "")
  | JArr _ | JObj _ => true
  end.

(** [a || b], which returns one of its operands. *)
Definition or_ (a b : JsVal) : JsVal := if truthy a then a else b.

Definition is_nullish (v : JsVal) : bool :=
  match v with
  | JUndefined | JNull => true
  | _ => false
  end.

(** ToString: what a template literal writes for a value. *)
Fixpoint ToString (v : JsVal) : string :=
  match v with
  | JUndefined => "undefined"
  | JNull => "null"
  | JBool true => "true"
  | JBool false => "false"
  | JNum n => JsNumber.to_string n
  | JStr s => s
  | JArr xs =>
      (fix elements (l : list JsVal) : string :=
         match l with
         | [] => ""
         | x :: r =>
             (if is_nullish x then "" else ToString x) ++
             match r with
             | [] => ""
             | _ => "," ++ elements r
             end
         end) xs
  | JObj _ => "[object Object]"
  end.

(** ToPrimitive: arrays and plain objects become their string. *)
Definition ToPrimitive (v : JsVal) : JsVal :=
  match v with
  | JArr _ | JObj _ => JStr (ToString v)
  | _ => v
  end.

(** ToNumber. *)
Definition ToNumber (v : JsVal) : number :=
  match ToPrimitive v with
  | JUndefined => NaN
  | JNull => JsNumber.of_Z 0
  | JBool true => JsNumber.of_Z 1
  | JBool false => JsNumber.of_Z 0
  | JNum n => n
  | JStr s => JsNumber.of_string s
  | _ => NaN
  end.

(** The relational operators: two strings compare as strings, anything
    else as numbers. *)
Definition lt (a b : JsVal) : bool :=
  match ToPrimitive a, ToPrimitive b with
  | JStr s, JStr t => String.ltb s t
  | pa, pb => JsNumber.lt (ToNumber pa) (ToNumber pb)
  end.

Definition le (a b : JsVal) : bool :=
  match ToPrimitive a, ToPrimitive b with
  | JStr s, JStr t => negb (String.ltb t s)
  | pa, pb => JsNumber.le (ToNumber pa) (ToNumber pb)
  end.

Definition gt (a b : JsVal) : bool := lt b a.
Definition ge (a b : JsVal) : bool := le b a.

(** [a - b] and [a / b]: always on numbers. *)
Definition sub (a b : JsVal) : number := JsNumber.sub (ToNumber a) (ToNumber b).
Definition div (a b : JsVal) : number := JsNumber.div (ToNumber a) (ToNumber b).

(** [a + b]: concatenation as soon as one side is a string. *)
Definition add (a b : JsVal) : JsVal :=
  match ToPrimitive a, ToPrimitive b with
  | JStr s, pb => JStr (s ++ ToString pb)
  | pa, JStr t => JStr (ToString pa ++ t)
  | pa, pb => JNum (JsNumber.add (ToNumber pa) (ToNumber pb))
  end.

(** [v === 'literal']. *)
Definition is_str (v : JsVal) (literal : string) : bool :=
  match v with
  | JStr s => String.eqb s literal
  | _ => false
  end.

(** [v === n] for a number literal [n]. *)
Definition strict_eq_num (v : JsVal) (n : Z) : bool :=
  match v with
  | JNum x => JsNumber.eqb x (JsNumber.of_Z n)
  | _ => false
  end.

(** *** Objects *)

Fixpoint lookup (k : string) (ps : list (string * JsVal)) : option JsVal :=
  match ps with
  | [] => None
  | (k', v) :: r => if String.eqb k k' then Some v else lookup k r
  end.

(** Assignment to a property: an existing key keeps its place. *)
Fixpoint set (k : string) (v : JsVal) (ps : list (string * JsVal))
  : list (string * JsVal) :=
  match ps with
  | [] => [(k, v)]
  | (k', v') :: r => if String.eqb k k' then (k, v) :: r else (k', v') :: set k v r
  end.

Definition set_all (ps news : list (string * JsVal)) : list (string * JsVal) :=
  fold_left (fun acc kv => set (fst kv) (snd kv) acc) news ps.

Definition index_key (i : nat) : string := JsNumber.Z_to_string (Z.of_nat i).

Fixpoint indexed {A} (i : nat) (xs : list A) : list (string * A) :=
  match xs with
  | [] => []
  | x :: r => (index_key i, x) :: indexed (S i) r
  end.

Fixpoint chars (s : string) : list JsVal :=
  match s with
  | EmptyString => []
  | String c t => JStr (String c EmptyString) :: chars t
  end.

(** The own enumerable properties of a value that is not null or
    undefined, as [Object.entries] and the spread [{...v}] list them. *)
Definition own_props (v : JsVal) : list (string * JsVal) :=
  match v with
  | JObj ps => ps
  | JArr xs => indexed 0 xs
  | JStr s => indexed 0 (chars s)
  | _ => []
  end.

(** [{...v, k1: v1, ...}]. *)
Definition spread (v : JsVal) (news : list (string * JsVal)) : JsVal :=
  JObj (set_all (own_props v) news).

Definition length_val {A} (xs : list A) : JsVal := num (Z.of_nat (List.length xs)).

(** [v.k] for a [v] that is not null or undefined.  The property names the
    program reads are data fields and [length]; none of them is a method
    of a built-in prototype. *)
Definition prop (v : JsVal) (k : string) : JsVal :=
  match v with
  | JObj ps => match lookup k ps with Some x => x | None => JUndefined end
  | JArr xs =>
      if String.eqb k "length" then length_val xs
      else match lookup k (indexed 0 xs) with Some x => x | None => JUndefined end
  | JStr s =>
      if String.eqb k "length" then num (Z.of_nat (String.length s))
      else match lookup k (indexed 0 (chars s)) with Some x => x | None => JUndefined end
  | _ => JUndefined
  end.

Definition cannot_read (v : JsVal) (k : string) : JsError :=
  TypeError ("Cannot read properties of " ++ ToString v ++ " (reading '" ++ k ++ "')").

(** [v.k], which throws when [v] is null or undefined. *)
Definition get (v : JsVal) (k : string) : Result JsVal :=
  if is_nullish v then Throw (cannot_read v k) else Ok (prop v k).

(** [v?.k]. *)
Definition get_opt (v : JsVal) (k : string) : JsVal :=
  if is_nullish v then JUndefined else prop v k.

(** [k in v]: throws unless [v] is an object. *)
Definition has (k : string) (v : JsVal) : Result bool :=
  match v with
  | JObj ps => Ok (match lookup k ps with Some _ => true | None => false end)
  | JArr xs =>
      Ok (String.eqb k "length" ||
          match lookup k (indexed 0 xs) with Some _ => true | None => false end)%bool
  | _ =>
      Throw (TypeError ("Cannot use 'in' operator to search for '" ++ k ++
                        "' in " ++ ToString v))
  end.

(** [Object.entries(v)], [Object.keys(v)] and [Object.values(v)]. *)
Definition entries (v : JsVal) : Result (list (string * JsVal)) :=
  if is_nullish v
  then Throw (TypeError "Cannot convert undefined or null to object")
  else Ok (own_props v).

Definition not_a_function (what : string) : JsError :=
  TypeError (what ++ " is not a function").

(** The receiver of an array method ([find], [map], [reduce], [join], ...):
    the elements when [v] is an array; reading the method off null or
    undefined throws, and on any other value there is no such method. *)
Definition as_array (v : JsVal) (method : string) : Result (list JsVal) :=
  match v with
  | JArr xs => Ok xs
  | JUndefined | JNull => Throw (cannot_read v method)
  | _ => Throw (not_a_function method)
  end.

(** The receiver of a string method ([toLowerCase], [split]). *)
Definition as_string (v : JsVal) (method : string) : Result string :=
  match v with
  | JStr s => Ok s
  | JUndefined | JNull => Throw (cannot_read v method)
  | _ => Throw (not_a_function method)
  end.

(** [v.includes(literal)], defined on strings (substring) and on arrays
    (membership). *)
Definition includes (v : JsVal) (literal : string) : Result bool :=
  match v with
  | JStr s => Ok (JsString.includes s literal)
  | JArr xs => Ok (existsb (fun x => is_str x literal) xs)
  | JUndefined | JNull => Throw (cannot_read v "includes")
  | _ => Throw (not_a_function "includes")
  end.

(** [xs.find(p)] for a predicate that may throw. *)
Fixpoint find {A} (p : A -> Result bool) (xs : list A) : Result (option A) :=
  match xs with
  | [] => Ok None
  | x :: r =>
      rbind (p x) (fun b => if b then Ok (Some x) else find p r)
  end.

(** [xs.some(p)] for a predicate that may throw. *)
Fixpoint some {A} (p : A -> Result bool) (xs : list A) : Result bool :=
  match xs with
  | [] => Ok false
  | x :: r => rbind (p x) (fun b => if b then Ok true else some p r)
  end.

(** [xs.map(f)] for a function that may throw. *)
Fixpoint mapM {A B} (f : A -> Result B) (xs : list A) : Result (list B) :=
  match xs with
  | [] => Ok []
  | x :: r => rbind (f x) (fun y => rbind (mapM f r) (fun ys => Ok (y :: ys)))
  end.

(** [xs.reduce(f, init)] for a function that may throw. *)
Fixpoint reduce {A B} (f : B -> A -> Result B) (xs : list A) (init : B) : Result B :=
  match xs with
  | [] => Ok init
  | x :: r => rbind (f init x) (fun acc => reduce f r acc)
  end.

(** [xs.sort(cmp)]: stable; [before a b] holds when the comparator puts
    [a] strictly before [b]. *)
Fixpoint insert_sorted {A} (before : A -> A -> bool) (x : A) (sorted : list A) : list A :=
  match sorted with
  | [] => [x]
  | y :: r => if before x y then x :: sorted else y :: insert_sorted before x r
  end.

Definition sort {A} (before : A -> A -> bool) (xs : list A) : list A :=
  fold_left (fun sorted x => insert_sorted before x sorted) xs [].

(** [xs.join(sep)]: null and undefined elements are written as nothing. *)
Definition join (sep : string) (xs : list JsVal) : string :=
  JsString.join sep (map (fun x => if is_nullish x then "" else ToString x) xs).

(** [v.toFixed(1)]. *)
Definition toFixed1 (v : JsVal) : Result string :=
  match v with
  | JNum n => Ok (JsNumber.toFixed1 n)
  | JUndefined | JNull => Throw (cannot_read v "toFixed")
  | _ => Throw (not_a_function "toFixed")
  end.

End Js.

Export Js(JsVal, JUndefined, JNull, JBool, JNum, JStr, JArr, JObj,
          JsError, Error, TypeError, Result, Ok, Throw).

(** ** The world, and computations that log and throw *)

Module World.

(** [clock] gives the successive readings of [new Date().toISOString()],
    [reads] counts the readings made so far, [console] keeps the entries
    handed to [console.log], oldest first. *)
Record World : Type := mkWorld {
  clock : nat -> string;
  reads : nat;
  console : list JsVal;
}.

Definition M (A : Type) : Type := World -> Result A * World.

Definition ret {A} (a : A) : M A := fun w => (Ok a, w).

Definition bind {A B} (m : M A) (f : A -> M B) : M B :=
  fun w =>
    match m w with
    | (Ok a, w') => f a w'
    | (Throw e, w') => (Throw e, w')
    end.

Definition lift {A} (r : Result A) : M A := fun w => (r, w).

(** A call of an [async] function: its body runs to its end and the call
    returns a promise settled with the outcome; the call itself never
    throws. *)
Definition settled {A} (m : M A) : M (Result A) :=
  fun w => let '(r, w') := m w in (Ok r, w').

Definition now : M string :=
  fun w => (Ok (clock w (reads w)),
            {| clock := clock w; reads := S (reads w); console := console w |}).

Definition console_log (entry : JsVal) : M unit :=
  fun w => (Ok tt,
            {| clock := clock w; reads := reads w;
               console := (console w ++ [entry])%list |}).

(** The value a computation returns or the error it throws. *)
Definition result {A} (m : M A) (w : World) : Result A := fst (m w).

End World.

Export World(World, M).

Declare Scope js_scope.
Delimit Scope js_scope with js.
Notation "x <- m ;; k" := (World.bind m (fun x => k))
  (at level 61, m at next level, right associativity) : js_scope.
Notation "m ;; k" := (World.bind m (fun _ => k))
  (at level 61, right associativity) : js_scope.
Local Open Scope js_scope.

(** ** base-agent.ts *)

Module BaseAgent.

Inductive Priority : Type := low | medium | high | critical.

Definition priority_name (p : Priority) : string :=
  match p with
  | low => "low"
  | medium => "medium"
  | high => "high"
  | critical => "critical"
  end.

Record AgentRecommendation : Type := mkRecommendation {
  decision : string;
  rationale : string;
  inputSignals : JsVal;
  outputActions : list string;
  approvalRequired : bool;
  priority : Priority;
}.

(** A recommendation as the object it is, for the places where one is
    stored inside another's [inputSignals]. *)
Definition to_js (r : AgentRecommendation) : JsVal :=
  JObj [("decision", JStr (decision r));
        ("rationale", JStr (rationale r));
        ("inputSignals", inputSignals r);
        ("outputActions", JArr (map JStr (outputActions r)));
        ("approvalRequired", JBool (approvalRequired r));
        ("priority", JStr (priority_name (priority r)))].

(** The fields set by the constructor of an agent. *)
Record Agent : Type := mkAgent {
  agentType : string;
  name : string;
}.

(** The fields of [requiredFields] that are not keys of [context]. *)
Fixpoint missing_fields (context : JsVal) (requiredFields : list string)
  : Result (list string) :=
  match requiredFields with
  | [] => Ok []
  | field :: rest =>
      Js.rbind (Js.has field context) (fun present =>
      Js.rbind (missing_fields context rest) (fun others =>
      Ok (if present then others else field :: others)))
  end.

Definition validateContext (self : Agent) (context : JsVal)
           (requiredFields : list string) : Result unit :=
  Js.rbind (missing_fields context requiredFields) (fun missing =>
  if (0 <? List.length missing)%nat
  then Throw (Error (name self ++ " missing required context fields: " ++
                     JsString.join ", " missing))
  else Ok tt).

Record Options : Type := mkOptions {
  opt_approvalRequired : option bool;
  opt_priority : option Priority;
}.

Definition createRecommendation (decision rationale : string)
           (inputSignals : JsVal) (outputActions : list string)
           (options : Options) : AgentRecommendation :=
  {| decision := decision;
     rationale := rationale;
     inputSignals := inputSignals;
     outputActions := outputActions;
     approvalRequired :=
       match opt_approvalRequired options with Some b => b | None => false end;
     priority :=
       match opt_priority options with Some p => p | None => medium end |}.

(** The value logged for a caught error. *)
Definition error_data (e : JsError) : JsVal :=
  match e with
  | Error m => JObj [("name", JStr "Error"); ("message", JStr m)]
  | TypeError m => JObj [("name", JStr "TypeError"); ("message", JStr m)]
  end.

(** [log]: reads the clock, then writes one entry to the console; [data]
    is part of the entry when it is truthy.  The console keeps the entry
    that [JSON.stringify] serialises. *)
Definition log (self : Agent) (level message : string) (data : JsVal) : M unit :=
  timestamp <- World.now ;;
  World.console_log
    (JObj ([("timestamp", JStr timestamp);
            ("agent", JStr (name self));
            ("level", JStr level);
            ("message", JStr message)] ++
           (if Js.truthy data then [("data", data)] else []))%list).

End BaseAgent.

Export BaseAgent(Priority, low, medium, high, critical, AgentRecommendation,
                 decision, rationale, inputSignals, outputActions,
                 approvalRequired, priority).

(** ** health-recovery-agent.ts *)

Module HealthRecoveryAgent.
Import BaseAgent.

Definition self : Agent :=
  {| agentType := "health_recovery"; name := "Health & Recovery Agent" |}.

Definition collectSignals (context : JsVal) : JsVal :=
  JObj [("sleepQuality", Js.prop context "sleepQuality");
        ("energyRating", Js.prop context "energyRating");
        ("consecutiveActiveDays", Js.prop context "consecutiveActiveDays");
        ("environmentalStress", Js.prop context "environmentalStress");
        ("mobilityLevel", Js.get_opt (Js.prop context "wellnessProfile") "mobilityLevel");
        ("stepsTarget",
          Js.or_ (Js.get_opt (Js.prop context "wellnessProfile") "stepsTarget")
                 (Js.num 8000));
        ("plannedSteps", Js.get_opt (Js.prop context "plannedActivity") "estimatedSteps");
        ("physicalLoad", Js.get_opt (Js.prop context "plannedActivity") "physicalLoad")].

Definition assessRiskLevel (signals : JsVal) : string :=
  let sleepQuality := Js.prop signals "sleepQuality" in
  let energyRating := Js.prop signals "energyRating" in
  let consecutiveActiveDays := Js.prop signals "consecutiveActiveDays" in
  let environmentalStress := Js.prop signals "environmentalStress" in
  let plannedSteps := Js.prop signals "plannedSteps" in
  let stepsTarget := Js.prop signals "stepsTarget" in
  let riskScore :=
    ((if Js.truthy sleepQuality && Js.lt sleepQuality (Js.num 3) then 2 else 0) +
     (if Js.truthy energyRating && Js.lt energyRating (Js.num 3) then 2 else 0) +
     (if Js.ge consecutiveActiveDays (Js.num 3) then 1 else 0) +
     (if Js.ge consecutiveActiveDays (Js.num 5) then 2 else 0) +
     (if Js.truthy environmentalStress
      then List.length (filter Js.truthy (map snd (Js.own_props environmentalStress)))
      else 0) +
     (if Js.is_str (Js.prop signals "physicalLoad") "high" then 1 else 0) +
     (if Js.truthy plannedSteps && Js.truthy stepsTarget && Js.gt plannedSteps stepsTarget
      then 1 else 0))%nat in
  if (6 <=? riskScore)%nat then "critical"
  else if (4 <=? riskScore)%nat then "high"
  else if (2 <=? riskScore)%nat then "medium"
  else "low".

(** Rule: If sleep quality < 3/5 for two consecutive nights, recommend
    full rest day (a single day is used as the threshold). *)
Definition requiresFullRestDay (signals : JsVal) : bool :=
  let sleepQuality := Js.prop signals "sleepQuality" in
  let energyRating := Js.prop signals "energyRating" in
  (Js.truthy sleepQuality && Js.lt sleepQuality (Js.num 3)) ||
  (Js.truthy energyRating && Js.lt energyRating (Js.num 2)) ||
  Js.ge (Js.prop signals "consecutiveActiveDays") (Js.num 5).

Definition recommendFullRestDay (signals : JsVal) : AgentRecommendation :=
  let sleepQuality := Js.prop signals "sleepQuality" in
  let energyRating := Js.prop signals "energyRating" in
  let consecutiveActiveDays := Js.prop signals "consecutiveActiveDays" in
  let reasons :=
    List.concat
      [if Js.truthy sleepQuality && Js.lt sleepQuality (Js.num 3)
       then ["poor sleep quality (" ++ Js.ToString sleepQuality ++ "/5)"] else [];
       if Js.truthy energyRating && Js.lt energyRating (Js.num 2)
       then ["critically low energy (" ++ Js.ToString energyRating ++ "/5)"] else [];
       if Js.ge consecutiveActiveDays (Js.num 5)
       then [Js.ToString consecutiveActiveDays ++ " consecutive active days"] else []] in
  createRecommendation
    "Cancel all planned activities - full rest day required"
    ("Recovery day needed due to: " ++ JsString.join ", " reasons ++ ". " ++
     "Traveler well-being requires complete rest to prevent burnout and maintain trip enjoyment.")
    signals
    ["Cancel all scheduled activities for the day";
     "Schedule spa or massage treatment";
     "Allow sleeping in without alarm";
     "Light pool or lounge time only";
     "Early dinner and bedtime"]
    {| opt_approvalRequired := Some true; opt_priority := Some critical |}.

(** Rule: Cap walking-heavy days to <8,000 steps. *)
Definition requiresActivityModeration (signals context : JsVal) : bool :=
  if negb (Js.truthy (Js.prop context "plannedActivity")) then false
  else
    let plannedSteps := Js.prop signals "plannedSteps" in
    let energyRating := Js.prop signals "energyRating" in
    let physicalLoad := Js.prop signals "physicalLoad" in
    (Js.truthy plannedSteps && Js.gt plannedSteps (Js.prop signals "stepsTarget")) ||
    (Js.is_str physicalLoad "high" && Js.truthy energyRating &&
     Js.lt energyRating (Js.num 4)) ||
    (Js.ge (Js.prop signals "consecutiveActiveDays") (Js.num 3) &&
     Js.is_str physicalLoad "high").

Definition recommendActivityModeration (signals context : JsVal)
  : AgentRecommendation :=
  let plannedSteps := Js.prop signals "plannedSteps" in
  let stepsTarget := Js.prop signals "stepsTarget" in
  let substitutions :=
    List.concat
      [if Js.truthy plannedSteps && Js.gt plannedSteps stepsTarget
       then ["Reduce walking to <" ++ Js.ToString stepsTarget ++ " steps";
             "Consider private car for longer distances";
             "Schedule midday rest break"]
       else [];
       if Js.is_str (Js.get_opt (Js.prop context "plannedActivity") "type") "cultural"
       then ["Select seated cultural experience (theater, tea ceremony)";
             "Avoid walking tours";
             "Choose venue with climate control"]
       else []] in
  createRecommendation
    "Moderate planned activity to reduce physical load"
    ("Current activity plan exceeds recommended load for energy level " ++
     Js.ToString (Js.prop signals "energyRating") ++ "/5 " ++
     "after " ++ Js.ToString (Js.prop signals "consecutiveActiveDays") ++
     " consecutive active days.")
    signals
    substitutions
    {| opt_approvalRequired := Some true; opt_priority := Some high |}.

(** Rule: Insert spa, massage, or pool time proactively. *)
Definition shouldInsertWellnessActivity (signals : JsVal) : bool :=
  let energyRating := Js.prop signals "energyRating" in
  let sleepQuality := Js.prop signals "sleepQuality" in
  Js.ge (Js.prop signals "consecutiveActiveDays") (Js.num 3) ||
  (Js.truthy energyRating && Js.strict_eq_num energyRating 3) ||
  (Js.truthy sleepQuality && Js.strict_eq_num sleepQuality 3).

Definition recommendWellnessActivity (signals : JsVal) : AgentRecommendation :=
  createRecommendation
    "Insert wellness activity into schedule"
    "Proactive recovery recommended to maintain energy levels and prevent fatigue accumulation."
    signals
    ["Schedule 60-90 minute spa treatment";
     "Afternoon pool or relaxation time";
     "Early evening with no commitments";
     "Light, digestible dinner";
     "Ensure 8+ hours sleep opportunity"]
    {| opt_approvalRequired := Some false; opt_priority := Some medium |}.

Definition analyze (context : JsVal) : M AgentRecommendation :=
  World.lift (validateContext self context
                ["tripId"; "userId"; "date"; "consecutiveActiveDays"]) ;;
  let signals := collectSignals context in
  let riskLevel := assessRiskLevel signals in
  log self "info" "Analyzing health & recovery needs"
      (JObj [("signals", signals); ("riskLevel", JStr riskLevel)]) ;;
  if requiresFullRestDay signals then
    World.ret (recommendFullRestDay signals)
  else if requiresActivityModeration signals context then
    World.ret (recommendActivityModeration signals context)
  else if shouldInsertWellnessActivity signals then
    World.ret (recommendWellnessActivity signals)
  else
    World.ret (createRecommendation
                 "Proceed with planned activities"
                 "Health indicators are within acceptable ranges. No intervention required."
                 signals
                 []
                 {| opt_approvalRequired := None; opt_priority := Some low |}).

End HealthRecoveryAgent.

(** ** golf-operations-agent.ts *)

Module GolfOperationsAgent.
Import BaseAgent.

Definition self : Agent :=
  {| agentType := "golf_operations"; name := "Vietnam Golf Operations Agent" |}.

(** Course preferences for repeat play. *)
Definition PREFERRED_REPEAT_COURSES : list string :=
  ["Ba Na Hills Golf Club"; "Montgomerie Links Vietnam"].

Definition vietnamCities : list string :=
  ["hanoi"; "da nang"; "hoi an"; "ho chi minh"; "saigon"].

Definition isVietnamLocation (location : JsVal) : Result bool :=
  Js.some
    (fun city =>
       Js.rbind (Js.as_string location "toLowerCase") (fun s =>
       Ok (JsString.includes (JsString.toLowerCase s) city)))
    vietnamCities.

Definition collectSignals (context : JsVal) : JsVal :=
  JObj [("consecutiveGolfDays", Js.prop context "consecutiveGolfDays");
        ("energyLevel", Js.prop context "energyLevel");
        ("weather", Js.prop context "weatherForecast");
        ("recentRounds",
          Js.or_ (Js.get_opt (Js.prop context "recentRounds") "length") (Js.num 0));
        ("location", Js.prop context "location")].

(** Rule: Never schedule more than 3 rounds in a 7-day period unless
    explicitly requested.
    Rule: Avoid back-to-back rounds if prior-day energy < 4/5. *)
Definition shouldSkipGolf (signals : JsVal) : bool :=
  let consecutiveGolfDays := Js.prop signals "consecutiveGolfDays" in
  let energyLevel := Js.prop signals "energyLevel" in
  if Js.ge consecutiveGolfDays (Js.num 1) && Js.truthy energyLevel &&
     Js.lt energyLevel (Js.num 4)
  then true
  else if Js.ge consecutiveGolfDays (Js.num 2) then true
  else false.

Definition recommendSkipGolf (signals : JsVal) : AgentRecommendation :=
  let consecutiveGolfDays := Js.prop signals "consecutiveGolfDays" in
  let energyLevel := Js.prop signals "energyLevel" in
  let actions := ["Cancel planned golf round"; "Insert recovery day"] in
  let '(rationale, actions) :=
    if Js.ge consecutiveGolfDays (Js.num 2) then
      (Js.ToString consecutiveGolfDays ++
         " consecutive golf days exceeds safe physical load. " ++
         "Recovery day needed to prevent joint strain and fatigue.",
       List.app actions ["Schedule spa or massage treatment"])
    else if Js.truthy energyLevel && Js.lt energyLevel (Js.num 4) then
      ("Energy level " ++ Js.ToString energyLevel ++
         "/5 is too low for golf after playing yesterday. " ++
         "Risk of poor performance and reduced enjoyment.",
       List.app actions ["Consider practice range or short game only (optional)"])
    else ("", actions) in
  createRecommendation
    "Skip golf - force recovery day"
    rationale
    signals
    actions
    {| opt_approvalRequired := Some true; opt_priority := Some high |}.

(** Weather-based course substitution. *)
Definition shouldSubstituteCourse (signals context : JsVal) : bool :=
  let weather := Js.prop signals "weather" in
  if negb (Js.truthy weather) then false
  else
    let rainfall := Js.prop weather "rainfall" in
    let temperature := Js.prop weather "temperature" in
    let humidity := Js.prop weather "humidity" in
    if Js.truthy rainfall && Js.gt rainfall (Js.num 10) then true
    else if Js.gt temperature (Js.num 35) ||
            (Js.gt temperature (Js.num 32) && Js.gt humidity (Js.num 80))
    then true
    else false.

Definition name_includes (pattern : string) (c : JsVal) : Result bool :=
  Js.rbind (Js.get c "name") (fun name => Js.includes name pattern).

Definition recommendCourseSubstitution (signals context : JsVal)
  : Result AgentRecommendation :=
  let weather := Js.prop signals "weather" in
  let rainfall := Js.prop weather "rainfall" in
  let temperature := Js.prop weather "temperature" in
  Js.rbind
    (if Js.truthy rainfall && Js.gt rainfall (Js.num 10) then
       Ok ("Heavy rain forecast - course conditions will be poor",
           ["Convert to spa day or cultural activity";
            "Reschedule golf to later in week"])
     else if Js.gt temperature (Js.num 35) then
       (* Prefer cooler mountain course *)
       Js.rbind (Js.as_array (Js.prop context "availableCourses") "find") (fun courses =>
       Js.rbind (Js.find (name_includes "Ba Na Hills") courses) (fun baNaHills =>
       match baNaHills with
       | Some course =>
           Ok ("High heat forecast (" ++ Js.ToString temperature ++
                 "°C) - mountain course preferred",
               ["Substitute to " ++ Js.ToString (Js.prop course "name") ++
                  " (cooler mountain climate)";
                "Earlier tee time (before 8am)"])
       | None =>
           Ok ("High heat forecast (" ++ Js.ToString temperature ++
                 "°C) - adjust timing",
               ["Very early tee time (before 7am)";
                "Extended midpoint break for hydration"])
       end))
     else Ok ("", []))
    (fun '(substitution, actions) =>
       Ok (createRecommendation
             "Substitute golf course due to weather"
             substitution
             signals
             actions
             {| opt_approvalRequired := Some true; opt_priority := Some high |})).

(** [courses.reduce((closest, course) => ...)] without an initial value,
    on the first course and the others. *)
Definition closest_course (first : JsVal) (others : list JsVal) : Result JsVal :=
  Js.reduce
    (fun closest course =>
       Js.rbind (Js.get course "travelTime") (fun t =>
       Js.rbind (Js.get closest "travelTime") (fun t' =>
       Ok (if Js.lt t t' then course else closest))))
    others first.

Definition selectByTravelTime (courses : list JsVal) (energyLevel : JsVal)
  : Result JsVal :=
  (* Low energy = prefer shorter travel *)
  if Js.truthy energyLevel && Js.lt energyLevel (Js.num 4) then
    match courses with
    | first :: others => closest_course first others
    | [] => Throw (TypeError "Reduce of empty array with no initial value")
    end
  else
    (* Otherwise balance travel time and quality *)
    Ok (match courses with first :: _ => first | [] => JUndefined end).

Definition is_preferred (course : JsVal) : Result bool :=
  Js.some (fun pref => name_includes pref course) PREFERRED_REPEAT_COURSES.

Definition buildCourseRationale (course signals : JsVal) : Result string :=
  let energyLevel := Js.prop signals "energyLevel" in
  Js.rbind (is_preferred course) (fun preferred =>
  let climate := Js.prop course "climate" in
  let reasons :=
    List.concat
      [if preferred then ["preferred course for repeat play"] else [];
       if Js.is_str climate "cool" || Js.is_str climate "mountain"
       then ["cooler climate reduces physical stress"] else [];
       if Js.lt (Js.prop course "travelTime") (Js.num 30)
       then ["minimal travel time preserves energy"] else [];
       if Js.truthy energyLevel && Js.ge energyLevel (Js.num 4)
       then ["energy level " ++ Js.ToString energyLevel ++ "/5 supports full round"]
       else []] in
  Ok (if (0 <? List.length reasons)%nat
      then "Selected based on: " ++ JsString.join ", " reasons ++ "."
      else "Course selected based on availability and schedule.")).

(** Recommend optimal course based on conditions. *)
Definition recommendOptimalCourse (signals context : JsVal)
  : Result AgentRecommendation :=
  let availableCourses := Js.or_ (Js.prop context "availableCourses") (JArr []) in
  if Js.strict_eq_num (Js.prop availableCourses "length") 0 then
    Ok (createRecommendation
          "No course recommendation - insufficient data"
          "No available courses provided in context."
          signals
          []
          {| opt_approvalRequired := None; opt_priority := Some low |})
  else
    Js.rbind (Js.as_array availableCourses "find") (fun courses =>
    (* Prefer Ba Na Hills or Montgomerie Links for repeat play *)
    Js.rbind (Js.find is_preferred courses) (fun preferred =>
    (* If none available, choose based on travel time and energy *)
    Js.rbind
      (match preferred with
       | Some course => Ok course
       | None => selectByTravelTime courses (Js.prop signals "energyLevel")
       end) (fun recommendedCourse =>
    Js.rbind (Js.get recommendedCourse "name") (fun name =>
    Js.rbind (Js.get recommendedCourse "travelTime") (fun travelTime =>
    let actions :=
      ["Book tee time at " ++ Js.ToString name;
       "Morning tee time only (before 10am)";
       "Confirm caddie and cart included";
       "Travel time: " ++ Js.ToString travelTime ++ " minutes"] in
    Js.rbind (buildCourseRationale recommendedCourse signals) (fun rationale =>
    Ok (createRecommendation
          ("Proceed with golf at " ++ Js.ToString name)
          rationale
          signals
          actions
          {| opt_approvalRequired := Some false; opt_priority := Some medium |}))))))).

Definition analyze (context : JsVal) : M AgentRecommendation :=
  World.lift (validateContext self context ["tripId"; "userId"; "date"; "location"]) ;;
  (* Golf is only played in Vietnam *)
  inVietnam <- World.lift (isVietnamLocation (Js.prop context "location")) ;;
  if negb inVietnam then
    World.ret (createRecommendation
                 "No golf operations - outside Vietnam"
                 "Golf activities are only scheduled in Da Nang / Hoi An, Vietnam."
                 (JObj [("location", Js.prop context "location")])
                 []
                 {| opt_approvalRequired := None; opt_priority := Some low |})
  else
    let signals := collectSignals context in
    log self "info" "Analyzing golf operations" signals ;;
    if shouldSkipGolf signals then
      World.ret (recommendSkipGolf signals)
    else if shouldSubstituteCourse signals context then
      World.lift (recommendCourseSubstitution signals context)
    else
      World.lift (recommendOptimalCourse signals context).

End GolfOperationsAgent.

(** ** budget-control-agent.ts *)

Module BudgetControlAgent.
Import BaseAgent.

Definition self : Agent :=
  {| agentType := "budget_control"; name := "Budget & Spend Control Agent" |}.

Definition ALERT_THRESHOLD : number := Fin 0.10.     (* 10% variance *)
Definition CRITICAL_THRESHOLD : number := Fin 0.20.  (* 20% variance *)

Definition collectSignals (context : JsVal) : Result JsVal :=
  let trip := Js.prop context "trip" in
  Js.rbind (Js.get trip "budget") (fun budget =>
  Js.rbind (Js.get budget "total") (fun total =>
  let spent := Js.prop budget "spent" in
  Js.rbind (Js.entries (Js.prop context "categorySpend")) (fun categories =>
  Ok (JObj
        [("totalBudget", total);
         ("totalSpent", spent);
         ("remainingBudget", JNum (Js.sub total spent));
         ("percentSpent", JNum (JsNumber.mul (Js.div spent total) (JsNumber.of_Z 100)));
         ("categoryCount", Js.length_val categories);
         ("upcomingExpensesCount",
           Js.or_ (Js.get_opt (Js.prop context "upcomingExpenses") "length") (Js.num 0));
         ("unusedPrepaidCount",
           Js.or_ (Js.get_opt (Js.prop context "unusedPrepaid") "length") (Js.num 0))])))).

Record Variance : Type := mkVariance {
  category : string;
  planned : JsVal;
  actual : JsVal;
  variance : number;
  variancePercent : number;
}.

Definition variance_to_js (v : Variance) : JsVal :=
  JObj [("category", JStr (category v));
        ("planned", planned v);
        ("actual", actual v);
        ("variance", JNum (variance v));
        ("variancePercent", JNum (variancePercent v))].

Definition category_variance (entry : string * JsVal) : Result Variance :=
  let '(category, spend) := entry in
  Js.rbind (Js.get spend "actual") (fun actual =>
  let planned := Js.prop spend "planned" in
  let variance := Js.sub actual planned in
  let variancePercent :=
    if Js.gt planned (Js.num 0) then JsNumber.div variance (Js.ToNumber planned)
    else JsNumber.of_Z 0 in
  Ok {| category := category;
        planned := planned;
        actual := actual;
        variance := variance;
        variancePercent := variancePercent |}).

Definition calculateVariances (context : JsVal) : Result (list Variance) :=
  Js.rbind (Js.entries (Js.prop context "categorySpend")) (fun categories =>
  Js.mapM category_variance categories).

Definition findOverruns (variances : list Variance) : list Variance :=
  filter (fun v => JsNumber.gt (variancePercent v) ALERT_THRESHOLD) variances.

Definition findCriticalOverruns (variances : list Variance) : list Variance :=
  filter (fun v => JsNumber.gt (variancePercent v) CRITICAL_THRESHOLD) variances.

Record Underbudget : Type := mkUnderbudget {
  u_category : string;
  available : number;
}.

Definition findUnderbudgetCategories (context : JsVal) : Result (list Underbudget) :=
  Js.rbind (Js.entries (Js.prop context "categorySpend")) (fun categories =>
  Js.rbind
    (Js.mapM
       (fun '(category, spend) =>
          Js.rbind (Js.get spend "actual") (fun actual =>
          Ok (category, actual, Js.prop spend "planned")))
       categories) (fun spends =>
  let under := filter (fun '(_, actual, planned) => Js.lt actual planned) spends in
  let sources :=
    map (fun '(category, actual, planned) =>
           {| u_category := category; available := Js.sub planned actual |}) under in
  Ok (Js.sort
        (fun a b =>
           JsNumber.lt (JsNumber.sub (available b) (available a)) (JsNumber.of_Z 0))
        sources))).

Definition percent_text (p : number) : string :=
  JsNumber.toFixed1 (JsNumber.mul p (JsNumber.of_Z 100)).

Definition recommendCriticalAction (criticalOverruns : list Variance)
           (signals context : JsVal) : Result AgentRecommendation :=
  let details :=
    JsString.join "; "
      (map (fun c => category c ++ ": " ++ percent_text (variancePercent c) ++
                     "% over budget") criticalOverruns) in
  let actions :=
    List.concat
      [["URGENT: Review and approve continued spending"];
       map (fun c =>
              category c ++ ": planned " ++ Js.ToString (planned c) ++
              ", actual " ++ Js.ToString (actual c) ++ " (" ++
              (if JsNumber.gt (variance c) (JsNumber.of_Z 0) then "+" else "") ++
              JsNumber.to_string (variance c) ++ ")") criticalOverruns;
       ["Consider reallocating from other categories";
        "Evaluate whether to adjust remaining trip plans"]] in
  (* Suggest specific reallocations *)
  Js.rbind (findUnderbudgetCategories context) (fun underbudget =>
  let actions :=
    if (0 <? List.length underbudget)%nat then
      List.concat
        [actions;
         [""; "Potential reallocation sources:"];
         map (fun cat => "- " ++ u_category cat ++ ": " ++
                         JsNumber.to_string (available cat) ++ " available")
             underbudget]
    else actions in
  Js.rbind (Js.toFixed1 (Js.prop signals "percentSpent")) (fun percentSpent =>
  Ok (createRecommendation
        "CRITICAL: Budget overrun detected"
        ("Critical variance detected: " ++ details ++ ". Total budget at " ++
         percentSpent ++ "% utilized.")
        signals
        actions
        {| opt_approvalRequired := Some true; opt_priority := Some critical |}))).

Definition reallocation (underbudget : list Underbudget) (over : Variance)
  : list string :=
  let needed := JsNumber.abs (variance over) in
  match List.find (fun u => JsNumber.ge (available u) needed) underbudget with
  | Some source =>
      ["- Reallocate " ++ JsNumber.to_string needed ++ " from " ++
       u_category source ++ " to " ++ category over]
  | None => []
  end.

Definition recommendBudgetAdjustment (overruns : list Variance)
           (signals context : JsVal) : Result AgentRecommendation :=
  let details :=
    JsString.join "; "
      (map (fun c => category c ++ ": " ++ percent_text (variancePercent c) ++ "% over")
           overruns) in
  let actions :=
    "Review category spending patterns" ::
    map (fun c =>
           category c ++ ": variance of " ++ JsNumber.to_string (variance c) ++
           " (" ++ percent_text (variancePercent c) ++ "%)") overruns in
  (* Recommend reallocations *)
  Js.rbind (findUnderbudgetCategories context) (fun underbudget =>
  let actions :=
    if (0 <? List.length underbudget)%nat then
      List.concat
        [actions;
         [""; "Recommended reallocations:"];
         (* Match overruns with underbudget categories *)
         List.concat (map (reallocation underbudget) overruns)]
    else
      List.concat
        [actions;
         [""; "No underbudget categories available for reallocation"];
         ["Consider reducing upcoming discretionary expenses"]] in
  Ok (createRecommendation
        "Budget variance detected - adjustment recommended"
        ("Category overruns detected: " ++ details ++
         ". Reallocation recommended to maintain overall budget.")
        signals
        actions
        {| opt_approvalRequired := Some true; opt_priority := Some high |})).

Definition recommendPrepaidUtilization (unusedPrepaid signals : JsVal)
  : Result AgentRecommendation :=
  Js.rbind (Js.as_array unusedPrepaid "reduce") (fun items =>
  Js.rbind
    (Js.reduce
       (fun sum item =>
          Js.rbind (Js.get item "amount") (fun amount => Ok (Js.add sum amount)))
       items (Js.num 0)) (fun totalUnused =>
  let actions :=
    List.concat
      [["Total unused prepaid value: " ++ Js.ToString totalUnused;
        "";
        "Unutilized items:"];
       map (fun item =>
              "- " ++ Js.ToString (Js.prop item "item") ++ " (" ++
              Js.ToString (Js.prop item "category") ++ "): " ++
              Js.ToString (Js.prop item "amount")) items;
       [""; 
        "Recommended actions:";
        "Review whether these items can still be used";
        "Consider booking alternative experiences of equal value";
        "Document items that cannot be recovered"]] in
  Ok (createRecommendation
        "Unused prepaid value detected"
        (Js.ToString totalUnused ++ " in prepaid expenses not yet utilized. " ++
         "Review opportunities to use or reallocate this value.")
        signals
        actions
        {| opt_approvalRequired := Some false; opt_priority := Some medium |}))).

Definition buildSummary (signals : JsVal) (variances : list Variance)
  : Result string :=
  Js.rbind (Js.toFixed1 (Js.prop signals "percentSpent")) (fun percentSpent =>
  let lines :=
    ["Total budget: " ++ Js.ToString (Js.prop signals "totalBudget") ++
       ", Spent: " ++ Js.ToString (Js.prop signals "totalSpent") ++
       " (" ++ percentSpent ++ "%)";
     "Remaining: " ++ Js.ToString (Js.prop signals "remainingBudget")] in
  let onTrack :=
    filter (fun v => JsNumber.le (JsNumber.abs (variancePercent v)) ALERT_THRESHOLD)
           variances in
  let lines :=
    if (0 <? List.length onTrack)%nat
    then List.app lines
           [JsNumber.Z_to_string (Z.of_nat (List.length onTrack)) ++ " categories on track"]
    else lines in
  Ok (JsString.join ". " lines)).

Definition analyze (context : JsVal) : M AgentRecommendation :=
  World.lift (validateContext self context
                ["tripId"; "userId"; "date"; "trip"; "categorySpend"]) ;;
  signals <- World.lift (collectSignals context) ;;
  variances <- World.lift (calculateVariances context) ;;
  log self "info" "Analyzing budget control"
      (JObj [("signals", signals);
             ("variances", JArr (map variance_to_js variances))]) ;;
  (* Check for critical overruns *)
  let criticalOverruns := findCriticalOverruns variances in
  if (0 <? List.length criticalOverruns)%nat then
    World.lift (recommendCriticalAction criticalOverruns signals context)
  else
    (* Check for category overruns *)
    let overruns := findOverruns variances in
    if (0 <? List.length overruns)%nat then
      World.lift (recommendBudgetAdjustment overruns signals context)
    else
      (* Check for unused prepaid value *)
      let unusedPrepaid := Js.prop context "unusedPrepaid" in
      if Js.truthy unusedPrepaid &&
         Js.gt (Js.prop unusedPrepaid "length") (Js.num 0)
      then World.lift (recommendPrepaidUtilization unusedPrepaid signals)
      else
        (* Budget tracking looks good *)
        summary <- World.lift (buildSummary signals variances) ;;
        World.ret (createRecommendation
                     "Budget on track - no adjustments needed"
                     summary
                     signals
                     []
                     {| opt_approvalRequired := None; opt_priority := Some low |}).

End BudgetControlAgent.

(** ** transport-logistics-agent.ts *)

Module TransportLogisticsAgent.
Import BaseAgent.

Definition self : Agent :=
  {| agentType := "transport_logistics"; name := "Transport & Logistics Agent" |}.

(** Buffer requirements (in minutes). *)
Definition AIRPORT_BUFFER : Z := 120.           (* 2 hours for international *)
Definition DOMESTIC_AIRPORT_BUFFER : Z := 90.   (* 1.5 hours *)
Definition COURSE_TRANSFER_BUFFER : Z := 45.    (* 45 minutes *)
Definition HOTEL_CHECKIN_BUFFER : Z := 30.      (* 30 minutes *)
Definition STANDARD_BUFFER : Z := 15.           (* General buffer *)

Definition collectSignals (context : JsVal) : JsVal :=
  JObj [("currentLocation", Js.prop context "currentLocation");
        ("nextDestination", Js.prop context "nextDestination");
        ("transportType", Js.prop context "transportType");
        ("departureTime", Js.prop context "departureTime");
        ("arrivalTime", Js.prop context "arrivalTime");
        ("luggageCount", Js.prop context "luggageCount");
        ("mobilityConsiderations", Js.prop context "mobilityConsiderations");
        ("plannedSegmentsCount",
          Js.or_ (Js.get_opt (Js.prop context "plannedSegments") "length") (Js.num 0))].

Record BufferAssessment : Type := mkAssessment {
  insufficient : bool;
  requiredBuffer : Z;
  currentBuffer : option Z;
  details : string;
}.

(** [v?.toLowerCase()]. *)
Definition lower_opt (v : JsVal) : Result (option string) :=
  if Js.is_nullish v then Ok None
  else Js.rbind (Js.as_string v "toLowerCase") (fun s =>
       Ok (Some (JsString.toLowerCase s))).

Definition isInternationalFlight (context : JsVal) : Result bool :=
  (* Simple heuristic - different countries *)
  let international := ["vietnam"; "japan"; "korea"] in
  Js.rbind (Js.as_string (Js.prop context "currentLocation") "toLowerCase") (fun s =>
  let current := JsString.toLowerCase s in
  Js.rbind (lower_opt (Js.prop context "nextDestination")) (fun lowered =>
  let next := match lowered with Some t => t | None => "" end in
  let currentCountry := List.find (fun c => JsString.includes current c) international in
  let nextCountry := List.find (fun c => JsString.includes next c) international in
  Ok (negb (match currentCountry, nextCountry with
            | Some a, Some b => String.eqb a b
            | None, None => true
            | _, _ => false
            end)))).

(** [context.nextDestination?.toLowerCase().includes(word)]. *)
Definition destination_includes (context : JsVal) (word : string) : Result bool :=
  Js.rbind (lower_opt (Js.prop context "nextDestination")) (fun lowered =>
  Ok (match lowered with
      | Some t => JsString.includes t word
      | None => false
      end)).

Definition isGolfCourseTransfer (context : JsVal) : Result bool :=
  Js.rbind (destination_includes context "golf") (fun golf =>
  if golf then Ok true
  else Js.rbind (destination_includes context "course") (fun course =>
       Ok (course || false))).

Definition assessBuffers (context : JsVal) : Result BufferAssessment :=
  let transportType := Js.prop context "transportType" in
  if negb (Js.truthy transportType) || negb (Js.truthy (Js.prop context "departureTime"))
  then Ok {| insufficient := false; requiredBuffer := 0; currentBuffer := None;
             details := "No transport scheduled" |}
  else
    Js.rbind
      (if Js.is_str transportType "flight" then
         Js.rbind (isInternationalFlight context) (fun international =>
         Ok (if international then AIRPORT_BUFFER else DOMESTIC_AIRPORT_BUFFER))
       else if Js.is_str transportType "private_car" then
         Js.rbind (isGolfCourseTransfer context) (fun golf =>
         Ok (if golf then COURSE_TRANSFER_BUFFER else STANDARD_BUFFER))
       else Ok STANDARD_BUFFER) (fun requiredBuffer =>
    (* Would calculate the actual buffer from the schedule - needs the
       previous activity end time *)
    Ok {| insufficient := false;  (* Would check actual timing here *)
          requiredBuffer := requiredBuffer;
          currentBuffer := None;
          details := "Requires " ++ JsNumber.Z_to_string requiredBuffer ++
                     " minute buffer for " ++ Js.ToString transportType |}).

Definition recommendBufferIncrease (assessment : BufferAssessment) (signals : JsVal)
  : AgentRecommendation :=
  let luggageCount := Js.prop signals "luggageCount" in
  let mobilityConsiderations := Js.prop signals "mobilityConsiderations" in
  let actions :=
    List.concat
      [["Increase buffer to " ++ JsNumber.Z_to_string (requiredBuffer assessment) ++
          " minutes";
        "Adjust preceding activities if needed";
        "Confirm departure time allows for buffer"];
       if Js.truthy luggageCount && Js.gt luggageCount (Js.num 2)
       then ["Consider porter assistance due to luggage count"] else [];
       if Js.truthy mobilityConsiderations &&
          Js.gt (Js.prop mobilityConsiderations "length") (Js.num 0)
       then ["Request wheelchair or mobility assistance in advance"] else []] in
  createRecommendation
    "Insufficient transport buffer"
    (details assessment ++ ". Reliability requires adequate buffer time.")
    signals
    actions
    {| opt_approvalRequired := Some true; opt_priority := Some high |}.

Definition isEarlyDeparture (departureTime : JsVal) : Result bool :=
  Js.rbind (Js.as_string departureTime "split") (fun s =>
  let hour := JsNumber.parseInt (JsString.split_head ":" s) in
  Ok (JsNumber.lt hour (JsNumber.of_Z 7))).

Definition identifyRisks (context : JsVal) : Result (list string) :=
  let luggageCount := Js.prop context "luggageCount" in
  let mobilityConsiderations := Js.prop context "mobilityConsiderations" in
  let plannedSegments := Js.prop context "plannedSegments" in
  let departureTime := Js.prop context "departureTime" in
  (* Heavy luggage *)
  let luggage :=
    if Js.truthy luggageCount && Js.gt luggageCount (Js.num 3)
    then ["Heavy luggage count may slow movement"] else [] in
  (* Mobility considerations *)
  Js.rbind
    (if Js.truthy mobilityConsiderations &&
        Js.gt (Js.prop mobilityConsiderations "length") (Js.num 0)
     then Js.rbind (Js.as_array mobilityConsiderations "join") (fun items =>
          Ok ["Mobility considerations: " ++ Js.join ", " items])
     else Ok []) (fun mobility =>
  (* Multiple transport segments in one day *)
  let segments :=
    if Js.truthy plannedSegments && Js.gt (Js.prop plannedSegments "length") (Js.num 2)
    then ["Multiple transport segments increase fatigue and delay risk"] else [] in
  (* Early morning departure *)
  Js.rbind
    (if Js.truthy departureTime
     then Js.rbind (isEarlyDeparture departureTime) (fun early =>
          Ok (if early then ["Early departure may impact sleep quality"] else []))
     else Ok []) (fun early =>
  Ok (List.concat [luggage; mobility; segments; early]))).

Definition mentions (risks : list string) (word : string) : bool :=
  existsb (fun r => JsString.includes r word) risks.

Definition recommendRiskMitigation (risks : list string) (signals context : JsVal)
  : AgentRecommendation :=
  let actions :=
    List.concat
      [["Risk factors identified:"];
       map (fun r => "- " ++ r) risks;
       [""; "Recommended mitigations:"];
       if mentions risks "luggage"
       then ["- Arrange porter or luggage assistance";
             "- Consider shipping some items ahead"] else [];
       if mentions risks "mobility"
       then ["- Pre-book wheelchair or mobility assistance";
             "- Request priority boarding";
             "- Allocate extra time for boarding"] else [];
       if mentions risks "segments"
       then ["- Build in rest periods between segments";
             "- Consider overnight stay to break up journey"] else [];
       if mentions risks "Early departure"
       then ["- Ensure 8-hour sleep window before departure";
             "- Prepare luggage night before";
             "- Arrange express checkout"] else []] in
  createRecommendation
    "Transport risk factors detected"
    (JsNumber.Z_to_string (Z.of_nat (List.length risks)) ++
     " risk factors identified for transport on " ++
     Js.ToString (Js.prop context "date") ++ ". " ++
     "Proactive mitigation recommended.")
    signals
    actions
    {| opt_approvalRequired := Some false; opt_priority := Some medium |}.

Definition confirmTransportPlan (signals context : JsVal) : AgentRecommendation :=
  let departureTime := Js.prop context "departureTime" in
  let arrivalTime := Js.prop context "arrivalTime" in
  let actions :=
    List.concat
      [["Transport: " ++ Js.ToString (Js.prop context "currentLocation") ++ " â†’ " ++
          Js.ToString (Js.prop context "nextDestination");
        "Type: " ++ Js.ToString (Js.prop context "transportType")];
       if Js.truthy departureTime
       then ["Departure: " ++ Js.ToString departureTime] else [];
       if Js.truthy arrivalTime
       then ["Arrival: " ++ Js.ToString arrivalTime] else [];
       [""; "Transport plan approved - adequate buffers and low risk"]] in
  createRecommendation
    "Transport plan confirmed"
    "All transport logistics reviewed. Plan is reliable and low-stress."
    signals
    actions
    {| opt_approvalRequired := Some false; opt_priority := Some low |}.

Definition analyze (context : JsVal) : M AgentRecommendation :=
  World.lift (validateContext self context
                ["tripId"; "userId"; "date"; "currentLocation"]) ;;
  let signals := collectSignals context in
  log self "info" "Analyzing transport logistics" signals ;;
  (* Check if transport plan exists *)
  if negb (Js.truthy (Js.prop context "nextDestination")) then
    World.ret (createRecommendation
                 "No transport scheduled"
                 "No transport requirements for this day."
                 signals
                 []
                 {| opt_approvalRequired := None; opt_priority := Some low |})
  else
    (* Assess buffer adequacy *)
    bufferAssessment <- World.lift (assessBuffers context) ;;
    if insufficient bufferAssessment then
      World.ret (recommendBufferIncrease bufferAssessment signals)
    else
      (* Check for risk factors *)
      risks <- World.lift (identifyRisks context) ;;
      if (0 <? List.length risks)%nat then
        World.ret (recommendRiskMitigation risks signals context)
      else
        (* All looks good *)
        World.ret (confirmTransportPlan signals context).

End TransportLogisticsAgent.

(** ** travel-experience-agent.ts *)

Module TravelExperienceAgent.
Import BaseAgent.

Definition self : Agent :=
  {| agentType := "travel_experience"; name := "Travel Experience Agent (TXA)" |}.

(** *** Helper methods *)

Definition calculateConsecutiveActiveDays (context : JsVal) : Result JsVal :=
  (* Would query database for recent days; estimated from current intent *)
  Js.rbind (Js.get (Js.prop context "currentItinerary") "primaryIntent") (fun intent =>
  Ok (if Js.is_str intent "recovery" then Js.num 0 else Js.num 1)).

Definition calculateConsecutiveGolfDays (context : JsVal) : JsVal :=
  (* Would query database for recent golf activities *)
  Js.num 0.

Definition extractPlannedActivity (itinerary : JsVal) : Result JsVal :=
  Js.rbind (Js.get itinerary "schedule") (fun schedule =>
  Js.rbind (Js.get schedule "morning") (fun morning =>
  let afternoon := Js.prop schedule "afternoon" in
  let activities :=
    filter Js.truthy [Js.get_opt morning "activity"; Js.get_opt afternoon "activity"] in
  if (List.length activities =? 0)%nat then Ok JUndefined
  else
    (* Simple heuristic for physical load *)
    let primaryIntent := Js.prop itinerary "primaryIntent" in
    let hasGolf := Js.is_str primaryIntent "golf" in
    let hasCulture := Js.is_str primaryIntent "culture" in
    Ok (JObj [("type", primaryIntent);
              ("physicalLoad",
                JStr (if hasGolf then "high" else if hasCulture then "medium" else "low"));
              ("estimatedSteps",
                Js.num (if hasGolf then 10000 else if hasCulture then 6000 else 3000))]))).

Definition buildCategorySpend (trip : JsVal) : Result JsVal :=
  Js.rbind (Js.get trip "budget") (fun budget =>
  Js.rbind (Js.get budget "categories") (fun categories =>
  Js.rbind (Js.entries categories) (fun planned_by_category =>
  Ok (JObj
        (fold_left
           (fun acc '(category, planned) =>
              Js.set category
                     (JObj [("planned", Js.or_ planned (Js.num 0));
                            (* Would query from actual spend records *)
                            ("actual", Js.num 0)])
                     acc)
           planned_by_category []))))).

Definition buildNominalSummary (context : JsVal) : Result string :=
  Js.rbind (Js.get (Js.prop context "currentItinerary") "location") (fun location =>
  let primaryIntent := Js.prop (Js.prop context "currentItinerary") "primaryIntent" in
  let energyRating := Js.get_opt (Js.prop context "travelerFeedback") "energyRating" in
  let parts :=
    List.concat
      [["Day proceeding as planned in " ++ Js.ToString location ++ ".";
        "Primary focus: " ++ Js.ToString primaryIntent ++ "."];
       if Js.truthy energyRating
       then ["Energy level: " ++ Js.ToString energyRating ++ "/5."] else [];
       ["All systems green."]] in
  Ok (JsString.join " " parts)).

(** *** Coordination rules

    - Sub-agents provide recommendations only
    - TXA makes all final decisions
    - If recommendations conflict, prioritize: health > logistics > novelty *)

Record Recommendations : Type := mkRecommendations {
  health : AgentRecommendation;
  golf : AgentRecommendation;
  budget : AgentRecommendation;
  transport : AgentRecommendation;
}.

Definition recommendations_to_js (r : Recommendations) : JsVal :=
  JObj [("health", to_js (health r));
        ("golf", to_js (golf r));
        ("budget", to_js (budget r));
        ("transport", to_js (transport r))].

Definition is_critical_or_high (p : Priority) : bool :=
  match p with
  | critical | high => true
  | _ => false
  end.

Definition is_critical (p : Priority) : bool :=
  match p with
  | critical => true
  | _ => false
  end.

Definition applyCoordinationRules (recommendations : Recommendations)
           (context : JsVal) : Result AgentRecommendation :=
  let health := health recommendations in
  let golf := golf recommendations in
  let budget := budget recommendations in
  let transport := transport recommendations in
  (* PRIORITY 1: Health & Safety (highest priority) *)
  if is_critical_or_high (priority health) then
    Ok (createRecommendation
          "Health priority override"
          ("Health & recovery agent recommends intervention. " ++
           "Health rationale: " ++ rationale health)
          (JObj [("healthRecommendation", to_js health);
                 ("otherRecommendations",
                   JObj [("golf", to_js golf);
                         ("budget", to_js budget);
                         ("transport", to_js transport)])])
          (List.app (outputActions health)
             [""; "Other agent recommendations deferred to prioritize well-being."])
          {| opt_approvalRequired := Some (approvalRequired health);
             opt_priority := Some (priority health) |})
  (* PRIORITY 2: Logistics & Transport (must be reliable) *)
  else if is_critical_or_high (priority transport) then
    Ok (createRecommendation
          "Logistics priority override"
          ("Transport logistics require adjustment. " ++
           "Transport rationale: " ++ rationale transport)
          (JObj [("transportRecommendation", to_js transport);
                 ("healthRecommendation", to_js health)])
          (List.app (outputActions transport)
             [""; "Schedule adjusted to ensure reliable transport."])
          {| opt_approvalRequired := Some (approvalRequired transport);
             opt_priority := Some (priority transport) |})
  (* PRIORITY 3: Budget Control (important but not urgent) *)
  else if is_critical (priority budget) then
    Ok (createRecommendation
          "Budget control intervention"
          ("Critical budget variance detected. " ++
           "Budget rationale: " ++ rationale budget)
          (JObj [("budgetRecommendation", to_js budget);
                 ("healthStatus", to_js health)])
          (List.app (outputActions budget)
             [""; "Spending adjustments required before proceeding."])
          {| opt_approvalRequired := Some true; opt_priority := Some critical |})
  (* PRIORITY 4: Activity optimization (golf, culture, etc.)
     Only matters if health and logistics are OK *)
  else if approvalRequired golf then
    Ok (createRecommendation
          "Golf activity adjustment recommended"
          (rationale golf)
          (JObj [("golfRecommendation", to_js golf);
                 ("healthStatus", to_js health)])
          (outputActions golf)
          {| opt_approvalRequired := Some true; opt_priority := Some (priority golf) |})
  (* All systems nominal - proceed with plan *)
  else
    Js.rbind (buildNominalSummary context) (fun summary =>
    Ok (createRecommendation
          "Proceed with planned itinerary"
          summary
          (JObj [("allRecommendations", recommendations_to_js recommendations)])
          ["All agent assessments favorable";
           "Health: " ++ decision health;
           "Transport: " ++ decision transport;
           "Budget: " ++ decision budget;
           "Golf: " ++ decision golf]
          {| opt_approvalRequired := Some false; opt_priority := Some low |})).

(** *** The fan-out

    Each [get...Recommendation] is an [async] method whose body is
    [try { build the sub-context; return await agent.analyze(it) }
     catch (error) { log; throw error }].
    When the method returns, its promise is either already rejected (the
    sub-context could not be built: the [catch] block has run), or the
    method is suspended at its [await] on the settled promise of the
    specialist. *)
Inductive Promise : Type :=
| Rejected (e : JsError)
| Awaiting (specialist : Result AgentRecommendation).

Definition call (failed : string) (subContext : Result JsVal)
           (specialist : JsVal -> M AgentRecommendation) : M Promise :=
  match subContext with
  | Ok subContext =>
      outcome <- World.settled (specialist subContext) ;;
      World.ret (Awaiting outcome)
  | Throw error =>
      log self "error" failed (error_data error) ;;
      World.ret (Rejected error)
  end.

(** The rest of the method, run as a microtask once the awaited promise
    has settled: the value is returned, or the [catch] block logs the
    error and throws it again. *)
Definition resume (failed : string) (p : Promise) : M (Result AgentRecommendation) :=
  match p with
  | Rejected error => World.ret (Throw error)
  | Awaiting (Ok recommendation) => World.ret (Ok recommendation)
  | Awaiting (Throw error) =>
      log self "error" failed (error_data error) ;;
      World.ret (Throw error)
  end.

Definition healthContext (context : JsVal) : Result JsVal :=
  let travelerFeedback := Js.prop context "travelerFeedback" in
  Js.rbind (calculateConsecutiveActiveDays context) (fun consecutiveActiveDays =>
  Js.rbind (extractPlannedActivity (Js.prop context "currentItinerary")) (fun plannedActivity =>
  Ok (Js.spread context
        [("sleepQuality", Js.get_opt travelerFeedback "sleepQuality");
         ("energyRating", Js.get_opt travelerFeedback "energyRating");
         ("consecutiveActiveDays", consecutiveActiveDays);
         ("wellnessProfile", Js.prop context "wellnessProfile");
         ("plannedActivity", plannedActivity)]))).

Definition golfContext (context : JsVal) : Result JsVal :=
  Js.rbind (Js.get (Js.prop context "currentItinerary") "location") (fun location =>
  Ok (Js.spread context
        [("location", location);
         ("energyLevel", Js.get_opt (Js.prop context "travelerFeedback") "energyRating");
         ("weatherForecast", Js.prop context "weather");
         ("consecutiveGolfDays", calculateConsecutiveGolfDays context);
         (* Would be populated from database/API *)
         ("availableCourses", JArr [])])).

Definition budgetContext (context : JsVal) : Result JsVal :=
  Js.rbind (buildCategorySpend (Js.prop context "trip")) (fun categorySpend =>
  Ok (Js.spread context
        [("trip", Js.prop context "trip");
         ("categorySpend", categorySpend)])).

Definition transportContext (context : JsVal) : Result JsVal :=
  Js.rbind (Js.get (Js.prop context "currentItinerary") "location") (fun location =>
  (* Would extract next destination from itinerary *)
  Ok (Js.spread context [("currentLocation", location)])).

Definition getHealthRecommendation (context : JsVal) : M Promise :=
  call "Health agent analysis failed" (healthContext context)
       HealthRecoveryAgent.analyze.

Definition getGolfRecommendation (context : JsVal) : M Promise :=
  call "Golf agent analysis failed" (golfContext context)
       GolfOperationsAgent.analyze.

Definition getBudgetRecommendation (context : JsVal) : M Promise :=
  call "Budget agent analysis failed" (budgetContext context)
       BudgetControlAgent.analyze.

Definition getTransportRecommendation (context : JsVal) : M Promise :=
  call "Transport agent analysis failed" (transportContext context)
       TransportLogisticsAgent.analyze.

Definition rejected_at_call (p : Promise) : option JsError :=
  match p with
  | Rejected e => Some e
  | Awaiting _ => None
  end.

Definition first_some {A} (xs : list (option A)) : option A :=
  List.fold_right (fun x rest => match x with Some a => Some a | None => rest end)
                  None xs.

(** [Promise.all] on the four promises: the four values when every
    promise is fulfilled; otherwise the reason of the promise that is
    rejected first -- one rejected at its call, before one rejected by its
    microtask; in the order of the array among those. *)
Definition promise_all (healthP golfP budgetP transportP : Promise)
           (healthRec golfRec budgetRec transportRec : Result AgentRecommendation)
  : Result Recommendations :=
  match first_some (map rejected_at_call [healthP; golfP; budgetP; transportP]) with
  | Some e => Throw e
  | None =>
      Js.rbind healthRec (fun healthRec =>
      Js.rbind golfRec (fun golfRec =>
      Js.rbind budgetRec (fun budgetRec =>
      Js.rbind transportRec (fun transportRec =>
      Ok {| health := healthRec; golf := golfRec;
            budget := budgetRec; transport := transportRec |}))))
  end.

(** Main orchestration method: coordinates all sub-agents and makes final
    decisions based on their recommendations. *)
Definition analyze (context : JsVal) : M AgentRecommendation :=
  World.lift (validateContext self context
                ["tripId"; "userId"; "date"; "trip"; "currentItinerary"]) ;;
  location <- World.lift (Js.get (Js.prop context "currentItinerary") "location") ;;
  log self "info" "TXA beginning daily analysis"
      (JObj [("date", Js.prop context "date");
             ("location", location);
             ("primaryIntent",
               Js.prop (Js.prop context "currentItinerary") "primaryIntent")]) ;;
  (* Collect recommendations from all sub-agents in parallel *)
  healthP <- getHealthRecommendation context ;;
  golfP <- getGolfRecommendation context ;;
  budgetP <- getBudgetRecommendation context ;;
  transportP <- getTransportRecommendation context ;;
  healthRec <- resume "Health agent analysis failed" healthP ;;
  golfRec <- resume "Golf agent analysis failed" golfP ;;
  budgetRec <- resume "Budget agent analysis failed" budgetP ;;
  transportRec <- resume "Transport agent analysis failed" transportP ;;
  recommendations <-
    World.lift (promise_all healthP golfP budgetP transportP
                            healthRec golfRec budgetRec transportRec) ;;
  (* Apply priority rules and make final decision *)
  finalDecision <- World.lift (applyCoordinationRules recommendations context) ;;
  log self "info" "TXA final decision"
      (JObj [("decision", JStr (decision finalDecision));
             ("priority", JStr (priority_name (priority finalDecision)))]) ;;
  World.ret finalDecision.

End TravelExperienceAgent.

(** ** The callers of the agents *)

(** [Math.round], [Math.min] and [Math.max]. *)
Module JsMath.

(** The closest integer, the larger one on a tie. *)
Definition round (a : number) : number :=
  match a with
  | Fin q => Fin (inject_Z (Qfloor (q + (1 # 2))))
  | _ => a
  end.

Definition min (a b : number) : number :=
  match a, b with
  | NaN, _ | _, NaN => NaN
  | _, _ => if JsNumber.lt b a then b else a
  end.

Definition max (a b : number) : number :=
  match a, b with
  | NaN, _ | _, NaN => NaN
  | _, _ => if JsNumber.lt a b then b else a
  end.

End JsMath.

(** What [`${error}`] and [error.message] give for a caught error. *)
Module JsErrors.

Definition message (e : JsError) : string :=
  match e with
  | Error m | TypeError m => m
  end.

Definition to_string (e : JsError) : string :=
  match e with
  | Error m => "Error: " ++ m
  | TypeError m => "TypeError: " ++ m
  end.

End JsErrors.

(** *** integrations/carepeers-mcp-client.ts *)

Module CarePeersMCPClient.

Record Client : Type := mkClient {
  baseUrl : string;
  apiKey : string;
}.

(** What [fetch] comes back with: it fails, or a response arrives, with its
    [ok] flag, its status text and the outcome of reading its body as JSON. *)
Inductive Fetched : Type :=
| Unreachable (e : JsError)
| Reply (ok : bool) (statusText : string) (json : Result JsVal).

(** The network, as seen from the client: what a POST of [params] to a URL
    with the API key as bearer token comes back with. *)
Definition Network : Type := string -> string -> JsVal -> Fetched.

(** Internal MCP request handler: a simple HTTP REST endpoint. *)
Definition mcpRequest (self : Client) (network : Network) (method : string)
           (params : JsVal) : Result JsVal :=
  match network (baseUrl self ++ "/mcp/" ++ method) (apiKey self) params with
  | Unreachable e => Throw e
  | Reply ok statusText json =>
      if negb ok then Throw (Error ("MCP request failed: " ++ statusText))
      else json
  end.

(** CarePeers uses 0-100, we use 1-5. *)
Definition mapSleepQuality (quality : JsVal) : number :=
  JsMath.max (JsNumber.of_Z 1)
    (JsMath.min (JsNumber.of_Z 5) (JsMath.round (Js.div quality (Js.num 20)))).

Definition mapEnergyLevel (who5Score : JsVal) : string :=
  if Js.lt who5Score (Js.num 35) then "low"
  else if Js.lt who5Score (Js.num 70) then "medium"
  else "high".

(** Adjust steps target based on activity level and mobility. *)
Definition calculateStepsTarget (movement : JsVal) : Result number :=
  let baseSteps := JsNumber.of_Z 8000 in
  Js.rbind (Js.get movement "activityLevel") (fun activityLevel =>
  let activityMultiplier := Js.div activityLevel (Js.num 100) in  (* 0-1 scale *)
  let mobility := Js.prop movement "mobility" in
  if Js.is_str mobility "limited" then Ok (JsNumber.of_Z 5000)
  else if Js.is_str mobility "moderate" then Ok (JsNumber.of_Z 6500)
  else
    Ok (JsMath.round
          (JsNumber.mul baseSteps
             (JsNumber.add (Fin 0.7) (JsNumber.mul (Fin 0.3) activityMultiplier))))).

Definition extractDietaryRestrictions (nutrition : JsVal) : Result (list string) :=
  (* Would extract from diet pattern *)
  Js.rbind (Js.get nutrition "dietPattern") (fun dietPattern =>
  Js.rbind (Js.includes dietPattern "vegetarian") (fun vegetarian =>
  Js.rbind (Js.includes dietPattern "vegan") (fun vegan =>
  Js.rbind (Js.includes dietPattern "gluten") (fun gluten =>
  Ok (List.concat
        [if vegetarian then ["vegetarian"] else [];
         if vegan then ["vegan"] else [];
         if gluten then ["gluten-free"] else []]))))).

Definition mapMobilityLevel (mobility : JsVal) : Result string :=
  Js.rbind (Js.as_string mobility "toLowerCase") (fun s =>
  let lower := JsString.toLowerCase s in
  Ok (if JsString.includes lower "limited" || JsString.includes lower "restricted"
      then "limited"
      else if JsString.includes lower "moderate" || JsString.includes lower "some"
      then "moderate"
      else "full")).

Definition extractMedicationSchedule (substanceUse : JsVal) : Result (list JsVal) :=
  (* Simple extraction - would need more detailed endpoint *)
  Js.rbind (Js.get substanceUse "medications") (fun medications =>
  Js.rbind (Js.as_array medications "map") (fun meds =>
  Ok (map (fun med =>
             JObj [("name", med);
                   ("frequency", JStr "daily");   (* Would need more data *)
                   ("timing", JStr "morning")])   (* Would need more data *)
          meds))).

(** Transform CarePeers wellness data to our schema. *)
Definition transformToWellnessProfile (data : JsVal) : Result JsVal :=
  Js.rbind (Js.get data "userId") (fun userId =>
  let who5Score := Js.prop data "who5Score" in
  Js.rbind (Js.get (Js.prop data "lifestylePillars") "sleep") (fun sleep =>
  Js.rbind (Js.get sleep "quality") (fun quality =>
  let lifestylePillars := Js.prop data "lifestylePillars" in
  Js.rbind (calculateStepsTarget (Js.prop lifestylePillars "movement")) (fun stepsTarget =>
  Js.rbind (extractDietaryRestrictions (Js.prop lifestylePillars "nutrition"))
    (fun dietaryRestrictions =>
  Js.rbind (mapMobilityLevel (Js.prop (Js.prop lifestylePillars "movement") "mobility"))
    (fun mobilityLevel =>
  Js.rbind (extractMedicationSchedule (Js.prop lifestylePillars "substanceUse"))
    (fun medicationSchedule =>
  Ok (JObj [("userId", userId);
            ("who5Score", who5Score);
            ("sleepQuality", JNum (mapSleepQuality quality));
            ("energyLevel", JStr (mapEnergyLevel who5Score));
            ("stepsTarget", JNum stepsTarget);
            ("dietaryRestrictions", JArr (map JStr dietaryRestrictions));
            ("medicalConditions", JArr []);  (* Would need additional endpoint *)
            ("mobilityLevel", JStr mobilityLevel);
            ("medicationSchedule", JArr medicationSchedule)])))))))).

(** The standard error stream: the arguments of each call of
    [console.error] and [console.warn], oldest first. *)
Definition Stderr : Type := list (list JsVal).

(** Fetch wellness profile from CarePeers. *)
Definition getWellnessProfile (self : Client) (network : Network) (userId : JsVal)
           (stderr : Stderr) : Result JsVal * Stderr :=
  match Js.rbind (mcpRequest self network "wellness.getProfile"
                             (JObj [("userId", userId)]))
                 transformToWellnessProfile with
  | Ok profile => (Ok profile, stderr)
  | Throw error =>
      (Throw (Error ("CarePeers MCP Error: " ++ JsErrors.to_string error)),
       stderr ++ [[JStr "Failed to fetch wellness profile from CarePeers:";
                   BaseAgent.error_data error]])%list
  end.

End CarePeersMCPClient.

(** *** index.ts: the route POST /api/analyze-day *)

Module Server.
Import BaseAgent.

(** What a handler answers: the HTTP status and the JSON body. *)
Record Response : Type := mkResponse {
  status : Z;
  body : JsVal;
}.

(** The process: the world of the agents and the standard error stream. *)
Record Process : Type := mkProcess {
  world : World;
  stderr : CarePeersMCPClient.Stderr;
}.

(** [console.error(...args)] and [console.warn(...args)]. *)
Definition console_error (args : list JsVal) (p : Process) : Process :=
  {| world := world p; stderr := (stderr p ++ [args])%list |}.

(** [context.wellnessProfile = profile], on the object that [context] is:
    the route gets here with a body that has a [tripId], and only an object
    has one. *)
Definition assign (context : JsVal) (k : string) (v : JsVal) : JsVal :=
  match context with
  | JObj ps => JObj (Js.set k v ps)
  | _ => context
  end.

(** The body of the [try] block up to the call of the agent: the answer, if
    the request is refused, or the context to analyze. *)
Definition prepare (client : CarePeersMCPClient.Client)
           (network : CarePeersMCPClient.Network) (context : JsVal) (p : Process)
  : Result (Response + JsVal) * Process :=
  match Js.get context "tripId" with
  | Throw e => (Throw e, p)
  | Ok tripId =>
      (* Validate required fields *)
      if negb (Js.truthy tripId) ||
         negb (Js.truthy (Js.prop context "userId")) ||
         negb (Js.truthy (Js.prop context "date")) ||
         negb (Js.truthy (Js.prop context "currentItinerary"))
      then
        (Ok (inl {| status := 400;
                    body := JObj [("success", JBool false);
                                  ("error",
                                    JStr "Missing required fields: tripId, userId, date, currentItinerary")] |}),
         p)
      else if negb (Js.truthy (Js.prop context "wellnessProfile")) then
        (* Optionally fetch wellness profile if not provided *)
        match CarePeersMCPClient.getWellnessProfile
                client network (Js.prop context "userId") (stderr p) with
        | (Ok profile, stderr') =>
            (Ok (inr (assign context "wellnessProfile" profile)),
             {| world := world p; stderr := stderr' |})
        | (Throw _, stderr') =>
            (Ok (inr context),
             console_error
               [JStr "Could not fetch wellness profile, proceeding without it"]
               {| world := world p; stderr := stderr' |})
        end
      else (Ok (inr context), p)
  end.

(** Analyze daily itinerary with Travel Experience Agent. *)
Definition analyzeDay (client : CarePeersMCPClient.Client)
           (network : CarePeersMCPClient.Network) (context : JsVal) (p : Process)
  : Response * Process :=
  let failed (error : JsError) (p : Process) :=
    ({| status := 500;
        body := JObj [("success", JBool false);
                      ("error", JStr (JsErrors.message error))] |},
     console_error [JStr "TXA analysis failed:"; error_data error] p) in
  match prepare client network context p with
  | (Throw error, p') => failed error p'
  | (Ok (inl refused), p') => (refused, p')
  | (Ok (inr context), p') =>
      (* Run Travel Experience Agent analysis *)
      match TravelExperienceAgent.analyze context (world p') with
      | (Ok recommendation, w') =>
          ({| status := 200;
              body := JObj [("success", JBool true);
                            ("data", to_js recommendation)] |},
           {| world := w'; stderr := stderr p' |})
      | (Throw error, w') => failed error {| world := w'; stderr := stderr p' |}
      end
  end.

End Server.

(** *** mcp/server.ts: the tools that run the agents *)

Module McpServer.
Import BaseAgent.

(** The text of a tool result: the JSON serialisation of a value, with an
    indentation of 2, or a plain text. *)
Inductive Text : Type :=
| Json (value : JsVal)
| Plain (text : string).

(** [{ content: [{ type: 'text', text }], isError }]. *)
Record ToolResult : Type := mkToolResult {
  text : Text;
  isError : bool;
}.

Definition answer (recommendation : AgentRecommendation) : ToolResult :=
  {| text := Json (to_js recommendation); isError := false |}.

Definition handleAnalyzeDailyItinerary (args : JsVal) : M ToolResult :=
  tripId <- World.lift (Js.get args "tripId") ;;
  recommendation <-
    TravelExperienceAgent.analyze
      (JObj [("tripId", tripId);
             ("userId", Js.prop args "userId");
             ("date", Js.prop args "date");
             ("trip", Js.prop args "trip");
             ("currentItinerary", Js.prop args "currentItinerary");
             ("travelerFeedback", Js.prop args "travelerFeedback");
             ("weather", Js.prop args "weather");
             ("wellnessProfile", Js.prop args "wellnessProfile");
             ("budgetStatus", Js.prop args "budgetStatus")]) ;;
  World.ret (answer recommendation).

Definition handleHealthRecoveryAnalysis (args : JsVal) : M ToolResult :=
  tripId <- World.lift (Js.get args "tripId") ;;
  recommendation <-
    HealthRecoveryAgent.analyze
      (JObj [("tripId", Js.or_ tripId (JStr "temp"));
             ("userId", Js.prop args "userId");
             ("date", Js.prop args "date");
             ("sleepQuality", Js.prop args "sleepQuality");
             ("energyRating", Js.prop args "energyRating");
             ("consecutiveActiveDays", Js.prop args "consecutiveActiveDays");
             ("plannedActivity", Js.prop args "plannedActivity");
             ("wellnessProfile", Js.prop args "wellnessProfile");
             ("environmentalStress", Js.prop args "environmentalStress")]) ;;
  World.ret (answer recommendation).

Definition handleGolfOperationsPlanning (args : JsVal) : M ToolResult :=
  tripId <- World.lift (Js.get args "tripId") ;;
  recommendation <-
    GolfOperationsAgent.analyze
      (JObj [("tripId", Js.or_ tripId (JStr "temp"));
             ("userId", Js.prop args "userId");
             ("date", Js.prop args "date");
             ("location", Js.prop args "location");
             ("energyLevel", Js.prop args "energyLevel");
             ("consecutiveGolfDays", Js.prop args "consecutiveGolfDays");
             ("weatherForecast", Js.prop args "weatherForecast");
             ("availableCourses", Js.or_ (Js.prop args "availableCourses") (JArr []));
             ("recentRounds", Js.prop args "recentRounds")]) ;;
  World.ret (answer recommendation).

Definition handleBudgetControlCheck (args : JsVal) : M ToolResult :=
  tripId <- World.lift (Js.get args "tripId") ;;
  recommendation <-
    BudgetControlAgent.analyze
      (JObj [("tripId", tripId);
             ("userId", Js.prop args "userId");
             ("date", Js.prop args "date");
             ("trip", Js.prop args "trip");
             ("categorySpend", Js.prop args "categorySpend");
             ("upcomingExpenses", Js.prop args "upcomingExpenses");
             ("unusedPrepaid", Js.prop args "unusedPrepaid")]) ;;
  World.ret (answer recommendation).

Definition handleTransportLogisticsReview (args : JsVal) : M ToolResult :=
  tripId <- World.lift (Js.get args "tripId") ;;
  recommendation <-
    TransportLogisticsAgent.analyze
      (JObj [("tripId", Js.or_ tripId (JStr "temp"));
             ("userId", Js.prop args "userId");
             ("date", Js.prop args "date");
             ("currentLocation", Js.prop args "currentLocation");
             ("nextDestination", Js.prop args "nextDestination");
             ("transportType", Js.prop args "transportType");
             ("departureTime", Js.prop args "departureTime");
             ("arrivalTime", Js.prop args "arrivalTime");
             ("luggageCount", Js.prop args "luggageCount");
             ("mobilityConsiderations", Js.prop args "mobilityConsiderations")]) ;;
  World.ret (answer recommendation).

(** The [try ... catch] around the handlers in the handler of tool calls:
    an error becomes a result, with the flag [isError]. *)
Definition guarded (handler : M ToolResult) : M ToolResult :=
  fun w =>
    match handler w with
    | (Ok result, w') => (Ok result, w')
    | (Throw error, w') =>
        (Ok {| text := Plain ("Error: " ++ JsErrors.message error); isError := true |},
         w')
    end.

End McpServer.

(** * What the agents return

    The logger is the only part of an agent that touches the world, and it
    returns nothing.  [Outcome] gives, for each agent, the recommendation or
    the error of [analyze] as a function of the context alone; the lemmas
    [*_analyze_result] below prove that [analyze] returns it in every
    world. *)

Module Outcome.
Import BaseAgent.

(** The ladder of the Health agent, once the context is validated. *)
Definition health_advice (context : JsVal) : AgentRecommendation :=
  let signals := HealthRecoveryAgent.collectSignals context in
  if HealthRecoveryAgent.requiresFullRestDay signals then
    HealthRecoveryAgent.recommendFullRestDay signals
  else if HealthRecoveryAgent.requiresActivityModeration signals context then
    HealthRecoveryAgent.recommendActivityModeration signals context
  else if HealthRecoveryAgent.shouldInsertWellnessActivity signals then
    HealthRecoveryAgent.recommendWellnessActivity signals
  else
    createRecommendation
      "Proceed with planned activities"
      "Health indicators are within acceptable ranges. No intervention required."
      signals
      []
      {| opt_approvalRequired := None; opt_priority := Some low |}.

Definition health (context : JsVal) : Result AgentRecommendation :=
  Js.rbind (validateContext HealthRecoveryAgent.self context
              ["tripId"; "userId"; "date"; "consecutiveActiveDays"]) (fun _ =>
  Ok (health_advice context)).

Definition outside_vietnam (context : JsVal) : AgentRecommendation :=
  createRecommendation
    "No golf operations - outside Vietnam"
    "Golf activities are only scheduled in Da Nang / Hoi An, Vietnam."
    (JObj [("location", Js.prop context "location")])
    []
    {| opt_approvalRequired := None; opt_priority := Some low |}.

(** The ladder of the Golf agent inside Vietnam. *)
Definition golf_advice (context : JsVal) : Result AgentRecommendation :=
  let signals := GolfOperationsAgent.collectSignals context in
  if GolfOperationsAgent.shouldSkipGolf signals then
    Ok (GolfOperationsAgent.recommendSkipGolf signals)
  else if GolfOperationsAgent.shouldSubstituteCourse signals context then
    GolfOperationsAgent.recommendCourseSubstitution signals context
  else
    GolfOperationsAgent.recommendOptimalCourse signals context.

Definition golf (context : JsVal) : Result AgentRecommendation :=
  Js.rbind (validateContext GolfOperationsAgent.self context
              ["tripId"; "userId"; "date"; "location"]) (fun _ =>
  Js.rbind (GolfOperationsAgent.isVietnamLocation (Js.prop context "location"))
    (fun inVietnam =>
  if negb inVietnam then Ok (outside_vietnam context) else golf_advice context)).

Definition budget_advice (context signals : JsVal)
           (variances : list BudgetControlAgent.Variance)
  : Result AgentRecommendation :=
  let criticalOverruns := BudgetControlAgent.findCriticalOverruns variances in
  if (0 <? List.length criticalOverruns)%nat then
    BudgetControlAgent.recommendCriticalAction criticalOverruns signals context
  else
    let overruns := BudgetControlAgent.findOverruns variances in
    if (0 <? List.length overruns)%nat then
      BudgetControlAgent.recommendBudgetAdjustment overruns signals context
    else
      let unusedPrepaid := Js.prop context "unusedPrepaid" in
      if Js.truthy unusedPrepaid &&
         Js.gt (Js.prop unusedPrepaid "length") (Js.num 0)
      then BudgetControlAgent.recommendPrepaidUtilization unusedPrepaid signals
      else
        Js.rbind (BudgetControlAgent.buildSummary signals variances) (fun summary =>
        Ok (createRecommendation
              "Budget on track - no adjustments needed"
              summary
              signals
              []
              {| opt_approvalRequired := None; opt_priority := Some low |})).

Definition budget (context : JsVal) : Result AgentRecommendation :=
  Js.rbind (validateContext BudgetControlAgent.self context
              ["tripId"; "userId"; "date"; "trip"; "categorySpend"]) (fun _ =>
  Js.rbind (BudgetControlAgent.collectSignals context) (fun signals =>
  Js.rbind (BudgetControlAgent.calculateVariances context) (fun variances =>
  budget_advice context signals variances))).

Definition no_transport (signals : JsVal) : AgentRecommendation :=
  createRecommendation
    "No transport scheduled"
    "No transport requirements for this day."
    signals
    []
    {| opt_approvalRequired := None; opt_priority := Some low |}.

Definition transport_advice (context : JsVal) : Result AgentRecommendation :=
  let signals := TransportLogisticsAgent.collectSignals context in
  if negb (Js.truthy (Js.prop context "nextDestination")) then
    Ok (no_transport signals)
  else
    Js.rbind (TransportLogisticsAgent.assessBuffers context) (fun bufferAssessment =>
    if TransportLogisticsAgent.insufficient bufferAssessment then
      Ok (TransportLogisticsAgent.recommendBufferIncrease bufferAssessment signals)
    else
      Js.rbind (TransportLogisticsAgent.identifyRisks context) (fun risks =>
      if (0 <? List.length risks)%nat then
        Ok (TransportLogisticsAgent.recommendRiskMitigation risks signals context)
      else
        Ok (TransportLogisticsAgent.confirmTransportPlan signals context))).

Definition transport (context : JsVal) : Result AgentRecommendation :=
  Js.rbind (validateContext TransportLogisticsAgent.self context
              ["tripId"; "userId"; "date"; "currentLocation"]) (fun _ =>
  transport_advice context).

(** The promise a [get...Recommendation] method returns, and what it is
    settled with in the end. *)
Definition promise (subContext : Result JsVal)
           (specialist : JsVal -> Result AgentRecommendation)
  : TravelExperienceAgent.Promise :=
  match subContext with
  | Ok subContext => TravelExperienceAgent.Awaiting (specialist subContext)
  | Throw error => TravelExperienceAgent.Rejected error
  end.

Definition settle (p : TravelExperienceAgent.Promise) : Result AgentRecommendation :=
  match p with
  | TravelExperienceAgent.Rejected error => Throw error
  | TravelExperienceAgent.Awaiting outcome => outcome
  end.

Definition healthP (context : JsVal) :=
  promise (TravelExperienceAgent.healthContext context) health.
Definition golfP (context : JsVal) :=
  promise (TravelExperienceAgent.golfContext context) golf.
Definition budgetP (context : JsVal) :=
  promise (TravelExperienceAgent.budgetContext context) budget.
Definition transportP (context : JsVal) :=
  promise (TravelExperienceAgent.transportContext context) transport.

(** What [Promise.all] yields at the end of the fan-out. *)
Definition fan_out (context : JsVal) : Result TravelExperienceAgent.Recommendations :=
  TravelExperienceAgent.promise_all
    (healthP context) (golfP context) (budgetP context) (transportP context)
    (settle (healthP context)) (settle (golfP context))
    (settle (budgetP context)) (settle (transportP context)).

(** The orchestrator reaches its fan-out when its own context is valid and
    the itinerary it logs can be read. *)
Definition reaches_fan_out (context : JsVal) : Result unit :=
  Js.rbind (validateContext TravelExperienceAgent.self context
              ["tripId"; "userId"; "date"; "trip"; "currentItinerary"]) (fun _ =>
  Js.rbind (Js.get (Js.prop context "currentItinerary") "location") (fun _ =>
  Ok tt)).

Definition orchestrator (context : JsVal) : Result AgentRecommendation :=
  Js.rbind (reaches_fan_out context) (fun _ =>
  Js.rbind (fan_out context) (fun recommendations =>
  TravelExperienceAgent.applyCoordinationRules recommendations context)).

End Outcome.

(** * Properties *)

(** ** Computations and the world *)

Lemma result_bind_lift {A B} (r : Result A) (f : A -> M B) (w : World) :
  World.result (World.bind (World.lift r) f) w =
  match r with
  | Ok a => World.result (f a) w
  | Throw e => Throw e
  end.
Proof. destruct r; reflexivity. Qed.

(** [m] returns [r] in every world. *)
Definition returns {A} (m : M A) (r : Result A) : Prop :=
  forall w, World.result m w = r.

Section Returns.

Context {A B : Type}.

Lemma returns_ret (a : A) : returns (World.ret a) (Ok a).
Proof. intro w. reflexivity. Qed.

Lemma returns_lift (r : Result A) : returns (World.lift r) r.
Proof. intro w. reflexivity. Qed.

Lemma returns_log self level message data :
  returns (BaseAgent.log self level message data) (Ok tt).
Proof. intro w. reflexivity. Qed.

Lemma returns_bind (m : M A) (f : A -> M B) (r : Result A) (g : A -> Result B) :
  returns m r ->
  (forall a, r = Ok a -> returns (f a) (g a)) ->
  returns (World.bind m f) (Js.rbind r g).
Proof.
  intros Hm Hf w. unfold World.result, World.bind.
  specialize (Hm w). unfold World.result in Hm.
  destruct (m w) as [[a | e] w']; simpl in Hm; subst r; simpl.
  - apply (Hf a eq_refl).
  - reflexivity.
Qed.

Lemma returns_settled (m : M A) (r : Result A) :
  returns m r -> returns (World.settled m) (Ok r).
Proof.
  intros Hm w. unfold World.result, World.settled.
  specialize (Hm w). unfold World.result in Hm.
  destruct (m w) as [r' w']. simpl in *. now subst.
Qed.

Lemma returns_if (b : bool) (m1 m2 : M A) (r1 r2 : Result A) :
  returns m1 r1 -> returns m2 r2 ->
  returns (if b then m1 else m2) (if b then r1 else r2).
Proof. destruct b; auto. Qed.

End Returns.

(** After a [log], whose result is [Ok tt]. *)
Lemma returns_after_log {B} self level message data (k : M B) (r : Result B) :
  returns k r ->
  returns (World.bind (BaseAgent.log self level message data) (fun _ => k)) r.
Proof.
  intro Hk.
  change r with (Js.rbind (Ok tt) (fun _ : unit => r)).
  apply returns_bind; [apply returns_log | intros; assumption].
Qed.

Lemma health_analyze_result (context : JsVal) :
  returns (HealthRecoveryAgent.analyze context) (Outcome.health context).
Proof.
  unfold HealthRecoveryAgent.analyze, Outcome.health.
  apply returns_bind; [apply returns_lift | intros _ _].
  apply returns_after_log.
  unfold Outcome.health_advice. intro w.
  repeat match goal with
         | |- context [if ?b then _ else _] => destruct b
         end; reflexivity.
Qed.

Lemma golf_analyze_result (context : JsVal) :
  returns (GolfOperationsAgent.analyze context) (Outcome.golf context).
Proof.
  unfold GolfOperationsAgent.analyze, Outcome.golf.
  apply returns_bind; [apply returns_lift | intros _ _].
  apply returns_bind; [apply returns_lift | intros inVietnam _].
  apply returns_if; [apply returns_ret | ].
  apply returns_after_log.
  unfold Outcome.golf_advice.
  apply returns_if; [apply returns_ret | ].
  apply returns_if; apply returns_lift.
Qed.

Lemma budget_analyze_result (context : JsVal) :
  returns (BudgetControlAgent.analyze context) (Outcome.budget context).
Proof.
  unfold BudgetControlAgent.analyze, Outcome.budget.
  apply returns_bind; [apply returns_lift | intros _ _].
  apply returns_bind; [apply returns_lift | intros signals _].
  apply returns_bind; [apply returns_lift | intros variances _].
  apply returns_after_log.
  unfold Outcome.budget_advice.
  apply returns_if; [apply returns_lift | ].
  apply returns_if; [apply returns_lift | ].
  apply returns_if; [apply returns_lift | ].
  apply returns_bind; [apply returns_lift | intros summary _].
  apply returns_ret.
Qed.

Lemma transport_analyze_result (context : JsVal) :
  returns (TransportLogisticsAgent.analyze context) (Outcome.transport context).
Proof.
  unfold TransportLogisticsAgent.analyze, Outcome.transport.
  apply returns_bind; [apply returns_lift | intros _ _].
  apply returns_after_log.
  unfold Outcome.transport_advice.
  apply returns_if; [apply returns_ret | ].
  apply returns_bind; [apply returns_lift | intros assessment _].
  apply returns_if; [apply returns_ret | ].
  apply returns_bind; [apply returns_lift | intros risks _].
  apply returns_if; apply returns_ret.
Qed.

Lemma call_result (failed : string) (subContext : Result JsVal)
      (specialist : JsVal -> M AgentRecommendation)
      (outcome : JsVal -> Result AgentRecommendation) :
  (forall c, returns (specialist c) (outcome c)) ->
  returns (TravelExperienceAgent.call failed subContext specialist)
          (Ok (Outcome.promise subContext outcome)).
Proof.
  intros Hs. unfold TravelExperienceAgent.call.
  destruct subContext as [c | e]; simpl.
  - change (Ok (TravelExperienceAgent.Awaiting (outcome c)))
      with (Js.rbind (Ok (outcome c))
              (fun o => Ok (TravelExperienceAgent.Awaiting o))).
    apply returns_bind; [apply returns_settled, Hs | intros; apply returns_ret].
  - apply returns_after_log, returns_ret.
Qed.

Lemma resume_result (failed : string) (p : TravelExperienceAgent.Promise) :
  returns (TravelExperienceAgent.resume failed p) (Ok (Outcome.settle p)).
Proof.
  destruct p as [e | [r | e]]; simpl.
  - apply returns_ret.
  - apply returns_ret.
  - apply returns_after_log, returns_ret.
Qed.

Lemma rbind_ok {A} (r : Result A) : Js.rbind r (fun a => Ok a) = r.
Proof. destruct r; reflexivity. Qed.

(** [analyze] of the orchestrator, step by step. *)
Definition orchestrator_steps (context : JsVal) : Result AgentRecommendation :=
  Js.rbind (BaseAgent.validateContext TravelExperienceAgent.self context
              ["tripId"; "userId"; "date"; "trip"; "currentItinerary"]) (fun _ =>
  Js.rbind (Js.get (Js.prop context "currentItinerary") "location") (fun _ =>
  Js.rbind (Ok (Outcome.healthP context)) (fun healthP =>
  Js.rbind (Ok (Outcome.golfP context)) (fun golfP =>
  Js.rbind (Ok (Outcome.budgetP context)) (fun budgetP =>
  Js.rbind (Ok (Outcome.transportP context)) (fun transportP =>
  Js.rbind (Ok (Outcome.settle healthP)) (fun healthRec =>
  Js.rbind (Ok (Outcome.settle golfP)) (fun golfRec =>
  Js.rbind (Ok (Outcome.settle budgetP)) (fun budgetRec =>
  Js.rbind (Ok (Outcome.settle transportP)) (fun transportRec =>
  Js.rbind (TravelExperienceAgent.promise_all healthP golfP budgetP transportP
              healthRec golfRec budgetRec transportRec) (fun recommendations =>
  Js.rbind (TravelExperienceAgent.applyCoordinationRules recommendations context)
    (fun finalDecision => Ok finalDecision)))))))))))).

Lemma orchestrator_analyze_steps (context : JsVal) :
  returns (TravelExperienceAgent.analyze context) (orchestrator_steps context).
Proof.
  unfold TravelExperienceAgent.analyze, orchestrator_steps.
  apply returns_bind; [apply returns_lift | intros _ _].
  apply returns_bind; [apply returns_lift | intros location _].
  apply returns_after_log.
  apply returns_bind;
    [apply call_result, health_analyze_result | intros healthP _].
  apply returns_bind;
    [apply call_result, golf_analyze_result | intros golfP _].
  apply returns_bind;
    [apply call_result, budget_analyze_result | intros budgetP _].
  apply returns_bind;
    [apply call_result, transport_analyze_result | intros transportP _].
  do 4 (apply returns_bind; [apply resume_result | intros ? _]).
  apply returns_bind; [apply returns_lift | intros recommendations _].
  apply returns_bind; [apply returns_lift | intros finalDecision _].
  apply returns_after_log, returns_ret.
Qed.

Lemma orchestrator_analyze_result (context : JsVal) :
  returns (TravelExperienceAgent.analyze context) (Outcome.orchestrator context).
Proof.
  intro w. rewrite (orchestrator_analyze_steps context w).
  unfold orchestrator_steps, Outcome.orchestrator, Outcome.reaches_fan_out,
    Outcome.fan_out.
  destruct (BaseAgent.validateContext _ _ _); [ | reflexivity].
  destruct (Js.get _ _); [ | reflexivity].
  cbn [Js.rbind].
  destruct (TravelExperienceAgent.promise_all _ _ _ _ _ _ _ _); [ | reflexivity].
  cbn [Js.rbind]. apply rbind_ok.
Qed.

(** ** Determinism *)

(** C2.  For a fixed context, [analyze] of each of the five agents returns the
    same recommendation (or throws the same error) whatever the world it runs
    in: the readings of the clock and the state of the console, the only
    things outside the context that an agent touches, have no influence on
    any field of what is returned.  Two calls on the same context therefore
    yield identical recommendations. *)
Theorem analyze_is_deterministic :
  forall (context : JsVal) (w1 w2 : World),
    World.result (TravelExperienceAgent.analyze context) w1
      = World.result (TravelExperienceAgent.analyze context) w2 /\
    World.result (HealthRecoveryAgent.analyze context) w1
      = World.result (HealthRecoveryAgent.analyze context) w2 /\
    World.result (GolfOperationsAgent.analyze context) w1
      = World.result (GolfOperationsAgent.analyze context) w2 /\
    World.result (BudgetControlAgent.analyze context) w1
      = World.result (BudgetControlAgent.analyze context) w2 /\
    World.result (TransportLogisticsAgent.analyze context) w1
      = World.result (TransportLogisticsAgent.analyze context) w2.
Proof.
  intros context w1 w2.
  rewrite !(orchestrator_analyze_result context w1),
          !(health_analyze_result context w1),
          !(golf_analyze_result context w1),
          !(budget_analyze_result context w1),
          !(transport_analyze_result context w1).
  rewrite (orchestrator_analyze_result context w2),
          (health_analyze_result context w2),
          (golf_analyze_result context w2),
          (budget_analyze_result context w2),
          (transport_analyze_result context w2).
  repeat split.
Qed.

(** ** Priority and approval *)

(** [P] holds of the recommendation, when one is produced. *)
Definition produced {A} (r : Result A) (P : A -> Prop) : Prop :=
  match r with
  | Ok a => P a
  | Throw _ => True
  end.

Lemma produced_rbind {A B} (r : Result A) (f : A -> Result B) (P : B -> Prop) :
  (forall a, produced (f a) P) -> produced (Js.rbind r f) P.
Proof. intros Hf. destruct r; simpl; [apply Hf | exact I]. Qed.

Lemma produced_ok {A} (r : Result A) (P : A -> Prop) (a : A) :
  produced r P -> r = Ok a -> P a.
Proof. intros H E. rewrite E in H. exact H. Qed.

(** A recommendation of priority high or critical requires approval. *)
Definition approval_consistent (r : AgentRecommendation) : bool :=
  implb (TravelExperienceAgent.is_critical_or_high (priority r)) (approvalRequired r).

Definition consistent (r : AgentRecommendation) : Prop :=
  approval_consistent r = true.

Ltac consistent_cases :=
  repeat first
    [ apply produced_rbind; intros
    | match goal with
      | |- produced (if ?b then _ else _) _ => destruct b
      | |- produced (match ?x with _ => _ end) _ => destruct x
      | |- produced (let '(_, _) := ?x in _) _ => destruct x
      end ];
  try reflexivity.

Lemma golf_substitution_consistent signals context :
  produced (GolfOperationsAgent.recommendCourseSubstitution signals context) consistent.
Proof.
  unfold GolfOperationsAgent.recommendCourseSubstitution.
  apply produced_rbind. intros [substitution actions]. reflexivity.
Qed.

Lemma golf_optimal_consistent signals context :
  produced (GolfOperationsAgent.recommendOptimalCourse signals context) consistent.
Proof.
  unfold GolfOperationsAgent.recommendOptimalCourse. consistent_cases.
Qed.

Lemma budget_critical_consistent overruns signals context :
  produced (BudgetControlAgent.recommendCriticalAction overruns signals context)
           consistent.
Proof.
  unfold BudgetControlAgent.recommendCriticalAction. consistent_cases.
Qed.

Lemma budget_adjustment_consistent overruns signals context :
  produced (BudgetControlAgent.recommendBudgetAdjustment overruns signals context)
           consistent.
Proof.
  unfold BudgetControlAgent.recommendBudgetAdjustment. consistent_cases.
Qed.

Lemma budget_prepaid_consistent unusedPrepaid signals :
  produced (BudgetControlAgent.recommendPrepaidUtilization unusedPrepaid signals)
           consistent.
Proof.
  unfold BudgetControlAgent.recommendPrepaidUtilization. consistent_cases.
Qed.

Lemma golf_skip_consistent signals :
  consistent (GolfOperationsAgent.recommendSkipGolf signals).
Proof.
  unfold GolfOperationsAgent.recommendSkipGolf.
  repeat match goal with
         | |- context [if ?b then _ else _] => destruct b
         end; reflexivity.
Qed.

Lemma health_outcome_consistent context :
  produced (Outcome.health context) consistent.
Proof.
  unfold Outcome.health, Outcome.health_advice.
  apply produced_rbind; intros _. simpl.
  repeat match goal with
         | |- context [if ?b then _ else _] => destruct b
         end; reflexivity.
Qed.

Lemma golf_outcome_consistent context :
  produced (Outcome.golf context) consistent.
Proof.
  unfold Outcome.golf, Outcome.golf_advice.
  do 2 (apply produced_rbind; intros).
  destruct (negb _); [reflexivity | ].
  destruct (GolfOperationsAgent.shouldSkipGolf _); [apply golf_skip_consistent | ].
  destruct (GolfOperationsAgent.shouldSubstituteCourse _ _).
  - apply golf_substitution_consistent.
  - apply golf_optimal_consistent.
Qed.

Lemma budget_outcome_consistent context :
  produced (Outcome.budget context) consistent.
Proof.
  unfold Outcome.budget, Outcome.budget_advice.
  do 3 (apply produced_rbind; intros).
  destruct (0 <? _)%nat; [apply budget_critical_consistent | ].
  destruct (0 <? _)%nat; [apply budget_adjustment_consistent | ].
  destruct (_ && _); [apply budget_prepaid_consistent | ].
  apply produced_rbind; intros. reflexivity.
Qed.

Lemma transport_outcome_consistent context :
  produced (Outcome.transport context) consistent.
Proof.
  unfold Outcome.transport, Outcome.transport_advice.
  apply produced_rbind; intros _.
  destruct (negb _); [reflexivity | ].
  apply produced_rbind; intros assessment.
  destruct (TransportLogisticsAgent.insufficient assessment); [reflexivity | ].
  apply produced_rbind; intros risks.
  destruct (0 <? _)%nat; reflexivity.
Qed.

(** C3.  The priority of a recommendation is one of low, medium, high and
    critical, and every recommendation a specialist agent produces, with
    priority high or critical, requires approval.  This holds of what
    [analyze] of each of the four specialists returns in any world, and of
    each branch taken alone: the value built by each [recommend...] method,
    on any signals and context, and the low-priority recommendations built in
    [analyze] itself. *)
Theorem priority_approval_invariant :
  (forall p : Priority, p = low \/ p = medium \/ p = high \/ p = critical) /\
  (forall context w,
      produced (World.result (HealthRecoveryAgent.analyze context) w) consistent /\
      produced (World.result (GolfOperationsAgent.analyze context) w) consistent /\
      produced (World.result (BudgetControlAgent.analyze context) w) consistent /\
      produced (World.result (TransportLogisticsAgent.analyze context) w) consistent) /\
  (forall signals context,
      consistent (HealthRecoveryAgent.recommendFullRestDay signals) /\
      consistent (HealthRecoveryAgent.recommendActivityModeration signals context) /\
      consistent (HealthRecoveryAgent.recommendWellnessActivity signals) /\
      consistent (Outcome.outside_vietnam context) /\
      consistent (GolfOperationsAgent.recommendSkipGolf signals) /\
      produced (GolfOperationsAgent.recommendCourseSubstitution signals context)
               consistent /\
      produced (GolfOperationsAgent.recommendOptimalCourse signals context)
               consistent /\
      consistent (Outcome.no_transport signals) /\
      consistent (TransportLogisticsAgent.confirmTransportPlan signals context)) /\
  (forall overruns signals context,
      produced (BudgetControlAgent.recommendCriticalAction overruns signals context)
               consistent /\
      produced (BudgetControlAgent.recommendBudgetAdjustment overruns signals context)
               consistent /\
      produced (BudgetControlAgent.recommendPrepaidUtilization context signals)
               consistent) /\
  (forall assessment risks signals context,
      consistent (TransportLogisticsAgent.recommendBufferIncrease assessment signals) /\
      consistent (TransportLogisticsAgent.recommendRiskMitigation risks signals context)).
Proof.
  split; [intros []; auto | ].
  split.
  { intros context w.
    rewrite (health_analyze_result context w), (golf_analyze_result context w),
      (budget_analyze_result context w), (transport_analyze_result context w).
    auto using health_outcome_consistent, golf_outcome_consistent,
      budget_outcome_consistent, transport_outcome_consistent. }
  split.
  { intros signals context.
    repeat split; try reflexivity.
    - apply golf_skip_consistent.
    - apply golf_substitution_consistent.
    - apply golf_optimal_consistent. }
  split.
  { intros overruns signals context.
    auto using budget_critical_consistent, budget_adjustment_consistent,
      budget_prepaid_consistent. }
  intros assessment risks signals context. split; reflexivity.
Qed.

(** ** Sample data *)

Module Sample.

(** A world whose clock always shows the same instant. *)
Definition still : World :=
  {| World.clock := fun _ => "2026-02-21T06:00:00.000Z";
     World.reads := 0;
     World.console := [] |}.

Definition envelope : list (string * JsVal) :=
  [("tripId", JStr "trip_123"); ("userId", JStr "user_123"); ("date", JStr "2026-02-21")].

Definition trip : JsVal :=
  JObj [("id", JStr "trip_123");
        ("budget",
          JObj [("total", Js.num 50000);
                ("spent", Js.num 12000);
                ("categories",
                  JObj [("golf", Js.num 5000); ("dining", Js.num 3000)])])].

Definition golf_day : JsVal :=
  JObj [("date", JStr "2026-02-21");
        ("location", JStr "Da Nang, Vietnam");
        ("primaryIntent", JStr "golf");
        ("schedule",
          JObj [("morning", JObj [("activity", JStr "Golf round")]);
                ("afternoon", JObj [("activity", JStr "Spa")])])].

(** A golf day after a night of poor sleep. *)
Definition poor_sleep_day : JsVal :=
  JObj (envelope ++
        [("trip", trip);
         ("currentItinerary", golf_day);
         ("travelerFeedback",
           JObj [("energyRating", Js.num 3); ("sleepQuality", Js.num 2)])])%list.

End Sample.

(** ** Coordination: the health override *)

Lemma fan_out_of_outcomes context hc gc bc tc h g b t :
  TravelExperienceAgent.healthContext context = Ok hc ->
  TravelExperienceAgent.golfContext context = Ok gc ->
  TravelExperienceAgent.budgetContext context = Ok bc ->
  TravelExperienceAgent.transportContext context = Ok tc ->
  Outcome.health hc = Ok h ->
  Outcome.golf gc = Ok g ->
  Outcome.budget bc = Ok b ->
  Outcome.transport tc = Ok t ->
  Outcome.fan_out context =
  Ok {| TravelExperienceAgent.health := h; TravelExperienceAgent.golf := g;
        TravelExperienceAgent.budget := b; TravelExperienceAgent.transport := t |}.
Proof.
  intros Hhc Hgc Hbc Htc Hh Hg Hb Ht.
  unfold Outcome.fan_out, Outcome.healthP, Outcome.golfP, Outcome.budgetP,
    Outcome.transportP.
  rewrite Hhc, Hgc, Hbc, Htc. simpl. rewrite Hh, Hg, Hb, Ht. reflexivity.
Qed.

Lemma golf_context_reads_location context gc :
  TravelExperienceAgent.golfContext context = Ok gc ->
  exists location, Js.get (Js.prop context "currentItinerary") "location" = Ok location.
Proof.
  unfold TravelExperienceAgent.golfContext. intro H.
  destruct (Js.get _ _) as [location | e]; [eauto | discriminate].
Qed.

(** The first coordination rule, on any four recommendations. *)
Lemma health_rule (recommendations : TravelExperienceAgent.Recommendations)
      (context : JsVal) :
  let health := TravelExperienceAgent.health recommendations in
  priority health = critical \/ priority health = high ->
  exists final,
    TravelExperienceAgent.applyCoordinationRules recommendations context = Ok final /\
    decision final = "Health priority override" /\
    rationale final =
      "Health & recovery agent recommends intervention. Health rationale: " ++
      rationale health /\
    outputActions final =
      (outputActions health ++
       [""; "Other agent recommendations deferred to prioritize well-being."])%list /\
    approvalRequired final = approvalRequired health /\
    priority final = priority health.
Proof.
  intros health Hp. unfold TravelExperienceAgent.applyCoordinationRules.
  fold health.
  assert (E : TravelExperienceAgent.is_critical_or_high (priority health) = true)
    by (destruct Hp as [-> | ->]; reflexivity).
  rewrite E. eexists. split; [reflexivity | ]. repeat split.
Qed.

(** C1, as the code has it.  Whenever the orchestrator's fan-out succeeds and
    the Health agent's recommendation has priority critical or high, the
    final recommendation is the health override, whatever the three other
    agents returned: its decision is the fixed text "Health priority
    override"; its rationale quotes the rationale of the Health agent; its
    actions are those of the Health agent followed by an empty line and
    the note that the other recommendations were deferred; and it keeps the
    approval flag and the priority of the Health agent. *)
Theorem health_priority_override :
  forall (context hc gc bc tc : JsVal) (h g b t : AgentRecommendation)
         (w wh wg wb wt : World),
    BaseAgent.validateContext TravelExperienceAgent.self context
      ["tripId"; "userId"; "date"; "trip"; "currentItinerary"] = Ok tt ->
    TravelExperienceAgent.healthContext context = Ok hc ->
    TravelExperienceAgent.golfContext context = Ok gc ->
    TravelExperienceAgent.budgetContext context = Ok bc ->
    TravelExperienceAgent.transportContext context = Ok tc ->
    World.result (HealthRecoveryAgent.analyze hc) wh = Ok h ->
    World.result (GolfOperationsAgent.analyze gc) wg = Ok g ->
    World.result (BudgetControlAgent.analyze bc) wb = Ok b ->
    World.result (TransportLogisticsAgent.analyze tc) wt = Ok t ->
    priority h = critical \/ priority h = high ->
    exists final,
      World.result (TravelExperienceAgent.analyze context) w = Ok final /\
      decision final = "Health priority override" /\
      rationale final =
        "Health & recovery agent recommends intervention. Health rationale: " ++
        rationale h /\
      outputActions final =
        (outputActions h ++
         [""; "Other agent recommendations deferred to prioritize well-being."])%list /\
      approvalRequired final = approvalRequired h /\
      priority final = priority h.
Proof.
  intros context hc gc bc tc h g b t w wh wg wb wt
         Hvalid Hhc Hgc Hbc Htc Hh Hg Hb Ht Hp.
  rewrite health_analyze_result in Hh. rewrite golf_analyze_result in Hg.
  rewrite budget_analyze_result in Hb. rewrite transport_analyze_result in Ht.
  rewrite (orchestrator_analyze_result context w).
  unfold Outcome.orchestrator, Outcome.reaches_fan_out.
  destruct (golf_context_reads_location _ _ Hgc) as [location Hloc].
  rewrite Hvalid, Hloc. cbn [Js.rbind].
  rewrite (fan_out_of_outcomes _ _ _ _ _ _ _ _ _ Hhc Hgc Hbc Htc Hh Hg Hb Ht).
  cbn [Js.rbind].
  apply (health_rule
           {| TravelExperienceAgent.health := h; TravelExperienceAgent.golf := g;
              TravelExperienceAgent.budget := b;
              TravelExperienceAgent.transport := t |} context Hp).
Qed.

(** On the day of poor sleep the Health agent returns its critical rest-day
    recommendation and the orchestrator's decision text is the fixed label,
    not that recommendation's decision. *)
Lemma health_decision_not_adopted_verbatim :
  exists hc h final,
    TravelExperienceAgent.healthContext Sample.poor_sleep_day = Ok hc /\
    World.result (HealthRecoveryAgent.analyze hc) Sample.still = Ok h /\
    priority h = critical /\
    decision h = "Cancel all planned activities - full rest day required" /\
    World.result (TravelExperienceAgent.analyze Sample.poor_sleep_day) Sample.still
      = Ok final /\
    decision final = "Health priority override" /\
    decision final <> decision h.
Proof.
  eexists. eexists. eexists.
  split; [vm_compute; reflexivity | ].
  split; [vm_compute; reflexivity | ].
  split; [reflexivity | ].
  split; [reflexivity | ].
  split; [vm_compute; reflexivity | ].
  split; [reflexivity | ].
  cbn. discriminate.
Qed.

Lemma health_priority_override_witness :
  exists final,
    World.result (TravelExperienceAgent.analyze Sample.poor_sleep_day) Sample.still
      = Ok final /\
    decision final = "Health priority override" /\
    approvalRequired final = true /\
    priority final = critical.
Proof.
  edestruct (health_priority_override Sample.poor_sleep_day) with
    (w := Sample.still) (wh := Sample.still) (wg := Sample.still)
    (wb := Sample.still) (wt := Sample.still)
    as [final (Hr & Hd & _ & _ & Ha & Hp)].
  - vm_compute; reflexivity.
  - vm_compute; reflexivity.
  - vm_compute; reflexivity.
  - vm_compute; reflexivity.
  - vm_compute; reflexivity.
  - vm_compute; reflexivity.
  - vm_compute; reflexivity.
  - vm_compute; reflexivity.
  - vm_compute; reflexivity.
  - left; reflexivity.
  - exists final. repeat split; assumption.
Defined.

(** ** Comparisons of numbers *)

Lemma Qlt_bool_iff (x y : Q) : JsNumber.Qlt_bool x y = true <-> (x < y)%Q.
Proof.
  unfold JsNumber.Qlt_bool. rewrite negb_true_iff.
  split; intro H.
  - apply Qnot_le_lt. intro Hle. apply Qle_bool_iff in Hle. congruence.
  - destruct (Qle_bool y x) eqn:E; [ | reflexivity].
    apply Qle_bool_iff in E. exfalso. exact (Qlt_not_le _ _ H E).
Qed.

Lemma Qlt_bool_false_iff (x y : Q) : JsNumber.Qlt_bool x y = false <-> (y <= x)%Q.
Proof.
  unfold JsNumber.Qlt_bool. rewrite negb_false_iff. apply Qle_bool_iff.
Qed.

Lemma js_lt_num (a b : Q) : Js.lt (JNum (Fin a)) (JNum (Fin b)) = true <-> (a < b)%Q.
Proof. apply Qlt_bool_iff. Qed.

Lemma js_gt_num (a b : Q) : Js.gt (JNum (Fin a)) (JNum (Fin b)) = true <-> (b < a)%Q.
Proof. apply Qlt_bool_iff. Qed.

Lemma js_ge_num (a b : Q) : Js.ge (JNum (Fin a)) (JNum (Fin b)) = true <-> (b <= a)%Q.
Proof.
  unfold Js.ge, Js.le. cbn. rewrite negb_true_iff. apply Qlt_bool_false_iff.
Qed.

Lemma js_truthy_num (a : Q) : Js.truthy (JNum (Fin a)) = true <-> ~ (a == 0)%Q.
Proof.
  cbn. unfold JsNumber.is_zero. rewrite negb_true_iff.
  split; intro H.
  - intro E. apply Qeq_bool_iff in E. congruence.
  - destruct (Qeq_bool a 0) eqn:E; [ | reflexivity].
    apply Qeq_bool_iff in E. contradiction.
Qed.

(** ** The inputs the model reads as the runtime does

    The model leaves out the rounding of binary floating point, the
    exponent notation of very large and very small numbers, the letters and
    the white space outside ASCII, and the failure of the conversion of an
    object to a primitive (the runtime refuses to convert an object that has
    a property [toString] of its own).  A property that depends on one of
    them is stated for the inputs below, on which the runtime computes what
    the model computes. *)

(** Absent, or a finite number: what a comparison reads without
    conversion of a string or of an object. *)
Definition measured (v : JsVal) : Prop :=
  v = JUndefined \/ v = JNull \/ exists q : Q, v = JNum (Fin q).

(** A whole number that a double holds exactly, at most 2^53 in absolute
    value: the runtime writes it with all its digits. *)
Definition whole (v : JsVal) : Prop :=
  exists z : Z, v = Js.num z /\ (Z.abs z <= 2 ^ 53)%Z.

(** Neither an object nor an array: the conversion to a number or to a
    string cannot fail. *)
Definition primitive (v : JsVal) : Prop :=
  match v with
  | JArr _ | JObj _ => False
  | _ => True
  end.

(** The two capital letters outside ASCII that the runtime lowers to an
    ASCII letter: U+0130, the capital I with a dot above, and U+212A, the
    Kelvin sign, in UTF-8. *)
Definition capital_i_with_dot : string :=
  String (ascii_of_nat 196) (String (ascii_of_nat 176) "").

Definition kelvin_sign : string :=
  String (ascii_of_nat 226) (String (ascii_of_nat 132) (String (ascii_of_nat 170) "")).

(** A string that holds neither of them: an ASCII word occurs in what the
    runtime lowers it to exactly when it occurs in what
    [JsString.toLowerCase] lowers it to. *)
Definition ascii_case (s : string) : Prop :=
  JsString.includes s capital_i_with_dot = false /\
  JsString.includes s kelvin_sign = false.

(** ** The full-rest-day rule of the Health agent *)

(** A rating that is absent, or a number from 1 to 5. *)
Definition rating (v : JsVal) : Prop :=
  v = JUndefined \/ exists q, v = JNum (Fin q) /\ (1 <= q <= 5)%Q.

Definition full_rest_actions : list string :=
  ["Cancel all scheduled activities for the day";
   "Schedule spa or massage treatment";
   "Allow sleeping in without alarm";
   "Light pool or lounge time only";
   "Early dinner and bedtime"].

Lemma low_rating_triggers (v : JsVal) (q : Q) (bound : Z) :
  rating v -> v = JNum (Fin q) -> (q < inject_Z bound)%Q ->
  Js.truthy v && Js.lt v (Js.num bound) = true.
Proof.
  intros [-> | (q' & -> & Hlo & Hhi)] E Hlt; [discriminate | ].
  injection E as ->.
  apply andb_true_intro. split.
  - apply js_truthy_num. intro Hz. rewrite Hz in Hlo. now apply Hlo.
  - now apply (js_lt_num _ (inject_Z bound)).
Qed.

(** C8.  On a valid context where the ratings of sleep quality and energy
    are absent or numbers from 1 to 5, and where the count of consecutive
    active days, the estimated steps of the planned activity and the steps
    target of the wellness profile are absent or numbers, as soon as the
    sleep quality is below 3, or the energy rating is below 2, or the count
    of consecutive active days is at least 5, the Health agent returns its
    full-rest-day recommendation: the decision to cancel all planned
    activities, the five rest-day actions, priority critical and approval
    required. *)
Theorem full_rest_day_rule :
  forall (context : JsVal) (w : World),
    BaseAgent.validateContext HealthRecoveryAgent.self context
      ["tripId"; "userId"; "date"; "consecutiveActiveDays"] = Ok tt ->
    rating (Js.prop context "sleepQuality") ->
    rating (Js.prop context "energyRating") ->
    measured (Js.prop context "consecutiveActiveDays") ->
    measured (Js.get_opt (Js.prop context "plannedActivity") "estimatedSteps") ->
    measured (Js.get_opt (Js.prop context "wellnessProfile") "stepsTarget") ->
    ((exists q, Js.prop context "sleepQuality" = JNum (Fin q) /\ (q < 3)%Q) \/
     (exists q, Js.prop context "energyRating" = JNum (Fin q) /\ (q < 2)%Q) \/
     (exists q, Js.prop context "consecutiveActiveDays" = JNum (Fin q) /\ (5 <= q)%Q)) ->
    exists r,
      World.result (HealthRecoveryAgent.analyze context) w = Ok r /\
      decision r = "Cancel all planned activities - full rest day required" /\
      outputActions r = full_rest_actions /\
      priority r = critical /\
      approvalRequired r = true.
Proof.
  intros context w Hvalid Hsleep Henergy _ _ _ Htrigger.
  rewrite (health_analyze_result context w).
  unfold Outcome.health. rewrite Hvalid. cbn [Js.rbind].
  unfold Outcome.health_advice.
  assert (E : HealthRecoveryAgent.requiresFullRestDay
                (HealthRecoveryAgent.collectSignals context) = true).
  { unfold HealthRecoveryAgent.requiresFullRestDay.
    change (Js.prop (HealthRecoveryAgent.collectSignals context) "sleepQuality")
      with (Js.prop context "sleepQuality").
    change (Js.prop (HealthRecoveryAgent.collectSignals context) "energyRating")
      with (Js.prop context "energyRating").
    change (Js.prop (HealthRecoveryAgent.collectSignals context) "consecutiveActiveDays")
      with (Js.prop context "consecutiveActiveDays").
    destruct Htrigger as [(q & E & Hq) | [(q & E & Hq) | (q & E & Hq)]].
    - rewrite (low_rating_triggers _ q 3 Hsleep E Hq). reflexivity.
    - rewrite (low_rating_triggers _ q 2 Henergy E Hq).
      rewrite orb_true_r. reflexivity.
    - rewrite E.
      replace (Js.ge (JNum (Fin q)) (Js.num 5)) with true
        by (symmetry; now apply (js_ge_num q (inject_Z 5))).
      apply orb_true_r. }
  rewrite E. eexists. split; [reflexivity | ]. repeat split.
Qed.

Module Scenario1.

(** Scenario 1: sleepQuality = 2, energyRating = 3, consecutiveActiveDays = 4. *)
Definition context : JsVal :=
  JObj (Sample.envelope ++
        [("sleepQuality", Js.num 2);
         ("energyRating", Js.num 3);
         ("consecutiveActiveDays", Js.num 4)])%list.

End Scenario1.

(** The clock shows in what is logged, not in what is returned. *)
Example the_console_follows_the_clock :
  let later :=
    {| World.clock := fun _ => "2026-02-22T06:00:00.000Z";
       World.reads := 0;
       World.console := [] |} in
  let run := HealthRecoveryAgent.analyze Scenario1.context in
  fst (run Sample.still) = fst (run later) /\
  World.console (snd (run Sample.still)) <> World.console (snd (run later)) /\
  World.reads (snd (run later)) = 1%nat.
Proof. cbv zeta. repeat split; vm_compute; discriminate. Qed.

Lemma full_rest_day_rule_witness :
  exists r,
    World.result (HealthRecoveryAgent.analyze Scenario1.context) Sample.still = Ok r /\
    decision r = "Cancel all planned activities - full rest day required" /\
    priority r = critical /\
    approvalRequired r = true.
Proof.
  destruct (full_rest_day_rule Scenario1.context Sample.still)
    as (r & Hr & Hd & _ & Hp & Ha).
  - reflexivity.
  - right. exists 2%Q. split; [reflexivity | split; discriminate].
  - right. exists 3%Q. split; [reflexivity | split; discriminate].
  - right. right. exists 4%Q. reflexivity.
  - left. reflexivity.
  - left. reflexivity.
  - left. exists 2%Q. split; reflexivity.
  - exists r. repeat split; assumption.
Defined.

(** ** The location gate of the Golf agent *)

Section Substrings.

Lemma prefix_split (a b : string) :
  String.prefix a b = true <-> exists rest, b = a ++ rest.
Proof.
  revert b. induction a as [ | c a IH]; intros b.
  - split; [intros _; exists b; reflexivity | intros _; destruct b; reflexivity].
  - destruct b as [ | d b]; simpl.
    + split; [discriminate | intros [rest H]; discriminate].
    + destruct (Ascii.ascii_dec c d) as [-> | Hneq].
      * rewrite IH. split; intros [rest H]; exists rest.
        -- now rewrite H.
        -- now injection H.
      * split; [discriminate | intros [rest H]; injection H; congruence].
Qed.

(** [includes] finds exactly the substrings. *)
Lemma includes_split (hay needle : string) :
  JsString.includes hay needle = true <->
  exists before after, hay = before ++ needle ++ after.
Proof.
  induction hay as [ | c hay IH].
  - change (JsString.includes "" needle) with (String.prefix needle "" || false).
    rewrite orb_false_r, prefix_split. split.
    + intros [rest H]. exists "", rest. exact H.
    + intros (before & after & H). destruct before; [ | discriminate].
      exists after. exact H.
  - change (JsString.includes (String c hay) needle)
      with (String.prefix needle (String c hay) || JsString.includes hay needle).
    rewrite orb_true_iff, IH, prefix_split. split.
    + intros [[rest H] | (before & after & H)].
      * exists "", rest. exact H.
      * exists (String c before), after. simpl. now rewrite H.
    + intros (before & after & H). destruct before as [ | d before]; simpl in H.
      * left. exists after. exact H.
      * right. injection H as _ H. exists before, after. exact H.
Qed.

Lemma toLowerCase_app (a b : string) :
  JsString.toLowerCase (a ++ b) = JsString.toLowerCase a ++ JsString.toLowerCase b.
Proof. induction a as [ | c a IH]; simpl; [reflexivity | now rewrite IH]. Qed.

(** A split of the lowered string comes from a split of the string. *)
Lemma toLowerCase_split (s a b : string) :
  JsString.toLowerCase s = a ++ b ->
  exists s1 s2,
    s = s1 ++ s2 /\ JsString.toLowerCase s1 = a /\ JsString.toLowerCase s2 = b.
Proof.
  revert s. induction a as [ | c a IH]; intros s H.
  - exists "", s. auto.
  - destruct s as [ | d s]; [discriminate | ].
    simpl in H. injection H as Hc H.
    destruct (IH s H) as (s1 & s2 & -> & H1 & H2).
    exists (String d s1), s2. simpl. rewrite H1, Hc. auto.
Qed.

End Substrings.

(** The cities the gate is meant to recognise. *)
Definition recognized_cities : list string :=
  ["Hanoi"; "Da Nang"; "Hoi An"; "Ho Chi Minh"; "Saigon"].

(** [city] is a part of [location], the case of the letters apart. *)
Definition occurs_ignoring_case (city location : string) : Prop :=
  exists before middle after,
    location = before ++ middle ++ after /\
    JsString.toLowerCase middle = JsString.toLowerCase city.

Lemma occurs_ignoring_case_iff (city location : string) :
  occurs_ignoring_case city location <->
  JsString.includes (JsString.toLowerCase location) (JsString.toLowerCase city) = true.
Proof.
  rewrite includes_split. split.
  - intros (before & middle & after & -> & H).
    exists (JsString.toLowerCase before), (JsString.toLowerCase after).
    now rewrite !toLowerCase_app, H.
  - intros (b & a & H).
    destruct (toLowerCase_split _ _ _ H) as (before & rest & -> & _ & Hrest).
    destruct (toLowerCase_split _ _ _ Hrest) as (middle & after & -> & Hm & _).
    exists before, middle, after. auto.
Qed.

(** The gate is open exactly on the locations that name a recognised city. *)
Lemma isVietnamLocation_spec (location : string) :
  GolfOperationsAgent.isVietnamLocation (JStr location) =
  Ok (existsb (fun city =>
                 JsString.includes (JsString.toLowerCase location)
                                   (JsString.toLowerCase city))
              recognized_cities).
Proof.
  unfold GolfOperationsAgent.isVietnamLocation, GolfOperationsAgent.vietnamCities,
    recognized_cities.
  cbn [Js.some Js.rbind Js.as_string existsb].
  change (JsString.toLowerCase "Hanoi") with "hanoi".
  change (JsString.toLowerCase "Da Nang") with "da nang".
  change (JsString.toLowerCase "Hoi An") with "hoi an".
  change (JsString.toLowerCase "Ho Chi Minh") with "ho chi minh".
  change (JsString.toLowerCase "Saigon") with "saigon".
  repeat match goal with
         | |- context [JsString.includes ?h ?n] =>
             destruct (JsString.includes h n); try reflexivity
         end.
Qed.

Lemma in_vietnam (location : string) :
  (exists city, In city recognized_cities /\ occurs_ignoring_case city location) ->
  GolfOperationsAgent.isVietnamLocation (JStr location) = Ok true.
Proof.
  intros (city & Hin & Hocc). rewrite isVietnamLocation_spec. f_equal.
  apply existsb_exists. exists city. split; [exact Hin | ].
  now apply occurs_ignoring_case_iff.
Qed.

(** C6.  On a valid context whose location is a string in which none of
    Hanoi, Da Nang, Hoi An, Ho Chi Minh and Saigon occurs, the case of the
    letters apart, the Golf agent returns its out-of-region recommendation,
    of priority low and with no action, whatever the energy level, the
    weather, the count of consecutive golf days and the courses are.  The
    location holds neither the capital I with a dot above nor the Kelvin
    sign, the two letters outside ASCII that the runtime lowers to the
    letters i and k. *)
Theorem golf_location_gate :
  forall (context : JsVal) (location : string) (w : World),
    BaseAgent.validateContext GolfOperationsAgent.self context
      ["tripId"; "userId"; "date"; "location"] = Ok tt ->
    Js.prop context "location" = JStr location ->
    ascii_case location ->
    (forall city, In city recognized_cities -> ~ occurs_ignoring_case city location) ->
    exists r,
      World.result (GolfOperationsAgent.analyze context) w = Ok r /\
      decision r = "No golf operations - outside Vietnam" /\
      priority r = low /\
      outputActions r = [] /\
      approvalRequired r = false.
Proof.
  intros context location w Hvalid Hloc _ Hnone.
  rewrite (golf_analyze_result context w).
  unfold Outcome.golf. rewrite Hvalid, Hloc, isVietnamLocation_spec.
  cbn [Js.rbind].
  replace (existsb _ recognized_cities) with false.
  - eexists. split; [reflexivity | ]. repeat split.
  - symmetry. apply not_true_is_false. intro H.
    apply existsb_exists in H. destruct H as (city & Hin & Hinc).
    apply (Hnone city Hin). now apply occurs_ignoring_case_iff.
Qed.

Module OutsideVietnam.

(** A hot golf day in Kyoto, after two days of golf, with courses listed. *)
Definition context : JsVal :=
  JObj (Sample.envelope ++
        [("location", JStr "Kyoto, Japan");
         ("energyLevel", Js.num 2);
         ("consecutiveGolfDays", Js.num 2);
         ("weatherForecast",
           JObj [("condition", JStr "sunny");
                 ("temperature", Js.num 38);
                 ("humidity", Js.num 85)]);
         ("availableCourses",
           JArr [JObj [("name", JStr "Ba Na Hills Golf Club");
                       ("travelTime", Js.num 60);
                       ("difficulty", JStr "challenging");
                       ("climate", JStr "mountain")]])])%list.

End OutsideVietnam.

Lemma golf_location_gate_witness :
  exists r,
    World.result (GolfOperationsAgent.analyze OutsideVietnam.context) Sample.still
      = Ok r /\
    priority r = low /\
    outputActions r = [].
Proof.
  destruct (golf_location_gate OutsideVietnam.context "Kyoto, Japan" Sample.still)
    as (r & Hr & _ & Hp & Ha & _).
  - reflexivity.
  - reflexivity.
  - split; reflexivity.
  - intros city Hin Hocc. apply occurs_ignoring_case_iff in Hocc.
    simpl in Hin.
    destruct Hin as [<- | [<- | [<- | [<- | [<- | []]]]]]; vm_compute in Hocc;
      discriminate.
  - exists r. repeat split; assumption.
Defined.

(** ** Weather and the choice of a course *)

Module Scenario2.

Definition ba_na_hills : JsVal :=
  JObj [("name", JStr "Ba Na Hills Golf Club");
        ("travelTime", Js.num 60);
        ("difficulty", JStr "challenging");
        ("climate", JStr "mountain")].

Definition forecast (temperature humidity : Z) : JsVal :=
  JObj [("condition", JStr "sunny");
        ("temperature", Js.num temperature);
        ("humidity", Js.num humidity)].

Definition day (temperature humidity : Z) : JsVal :=
  JObj (Sample.envelope ++
        [("location", JStr "Da Nang, Vietnam");
         ("consecutiveGolfDays", Js.num 0);
         ("weatherForecast", forecast temperature humidity);
         ("availableCourses", JArr [ba_na_hills])])%list.

(** Scenario 2: Da Nang, no golf the day before, 34 degrees and 78% of
    humidity, Ba Na Hills Golf Club among the courses. *)
Definition context : JsVal := day 34 78.

Definition montgomerie_links : JsVal :=
  JObj [("name", JStr "Montgomerie Links Vietnam");
        ("travelTime", Js.num 20);
        ("difficulty", JStr "moderate");
        ("climate", JStr "hot")].

Definition laguna_lang_co : JsVal :=
  JObj [("name", JStr "Laguna Lang Co Golf Club");
        ("travelTime", Js.num 45);
        ("difficulty", JStr "moderate");
        ("climate", JStr "hot")].

(** The context that the golf planning example of the repository hands to
    the agent through the planning tool: the day of scenario 2 with an
    energy level of 4, no rain, and Montgomerie Links listed before Ba Na
    Hills. *)
Definition example : JsVal :=
  JObj [("tripId", JStr "temp");
        ("userId", JStr "user_demo_001");
        ("date", JStr "2026-02-21");
        ("location", JStr "Da Nang, Vietnam");
        ("energyLevel", Js.num 4);
        ("consecutiveGolfDays", Js.num 0);
        ("weatherForecast",
          JObj [("condition", JStr "sunny");
                ("temperature", Js.num 34);
                ("humidity", Js.num 78);
                ("rainfall", Js.num 0)]);
        ("availableCourses", JArr [montgomerie_links; ba_na_hills; laguna_lang_co]);
        ("recentRounds", JUndefined)].

End Scenario2.

(** The forecast [weather] gives the temperature [t], the humidity [h] and,
    when [rain] is given, that rainfall. *)
Definition forecast_of (weather : JsVal) (rain : option Q) (t h : Q) : Prop :=
  Js.truthy weather = true /\
  Js.prop weather "temperature" = JNum (Fin t) /\
  Js.prop weather "humidity" = JNum (Fin h) /\
  Js.prop weather "rainfall" =
    match rain with
    | Some r => JNum (Fin r)
    | None => JUndefined
    end.

Definition heavy_rain (rain : option Q) : Prop :=
  match rain with
  | Some r => (10 < r)%Q
  | None => False
  end.

(** Heavy rain, or high heat. *)
Definition bad_weather (rain : option Q) (t h : Q) : Prop :=
  heavy_rain rain \/ (35 < t)%Q \/ ((32 < t)%Q /\ (80 < h)%Q).

(** A course that has a name. *)
Definition named (course : JsVal) : Prop :=
  exists name, Js.get course "name" = Ok (JStr name).

Definition weather_substitution (r : AgentRecommendation) : Prop :=
  decision r = "Substitute golf course due to weather" /\
  priority r = high /\
  approvalRequired r = true.

Lemma rain_test (weather : JsVal) (rain : option Q) :
  Js.prop weather "rainfall" =
    match rain with Some r => JNum (Fin r) | None => JUndefined end ->
  Js.truthy (Js.prop weather "rainfall") &&
  Js.gt (Js.prop weather "rainfall") (Js.num 10) = true <-> heavy_rain rain.
Proof.
  intros ->. destruct rain as [r | ]; simpl heavy_rain.
  - rewrite andb_true_iff, js_truthy_num.
    change (Js.num 10) with (JNum (Fin 10)). rewrite js_gt_num.
    split; [tauto | ]. intro H. split; [ | exact H].
    intro E. rewrite E in H. discriminate H.
  - split; [discriminate | tauto].
Qed.

Lemma shouldSubstituteCourse_iff (signals context : JsVal) rain t h :
  forecast_of (Js.prop signals "weather") rain t h ->
  GolfOperationsAgent.shouldSubstituteCourse signals context = true <->
  bad_weather rain t h.
Proof.
  intros (Hw & Ht & Hh & Hr).
  unfold GolfOperationsAgent.shouldSubstituteCourse, bad_weather.
  rewrite Hw. cbn [negb].
  pose proof (rain_test _ _ Hr) as Hrain.
  destruct (Js.truthy _ && Js.gt _ _).
  - split; [intros _; left; now apply Hrain | reflexivity].
  - rewrite Ht, Hh.
    change (Js.num 35) with (JNum (Fin 35)).
    change (Js.num 32) with (JNum (Fin 32)).
    change (Js.num 80) with (JNum (Fin 80)).
    destruct (Js.gt (JNum (Fin t)) (JNum (Fin 35)) ||
              Js.gt (JNum (Fin t)) (JNum (Fin 32)) &&
              Js.gt (JNum (Fin h)) (JNum (Fin 80))) eqn:E.
    + split; [intros _ | reflexivity]. right.
      apply orb_true_iff in E. rewrite andb_true_iff, !js_gt_num in E. exact E.
    + split; [discriminate | ]. intros [Hheavy | Hheat].
      * apply Hrain in Hheavy. discriminate.
      * rewrite <- !js_gt_num, <- andb_true_iff, <- orb_true_iff in Hheat. congruence.
Qed.

Lemma find_named_ok (pattern : string) (courses : list JsVal) :
  Forall named courses ->
  exists found, Js.find (GolfOperationsAgent.name_includes pattern) courses = Ok found.
Proof.
  induction 1 as [ | course rest (name & Hname) _ IH]; simpl.
  - eauto.
  - unfold GolfOperationsAgent.name_includes at 1. rewrite Hname. cbn [Js.rbind Js.includes].
    destruct (JsString.includes name pattern); [eauto | exact IH].
Qed.

Lemma substitution_is_high signals context :
  produced (GolfOperationsAgent.recommendCourseSubstitution signals context)
           weather_substitution.
Proof.
  unfold GolfOperationsAgent.recommendCourseSubstitution.
  apply produced_rbind. intros [substitution actions]. repeat split.
Qed.

Lemma substitution_ok signals context rain t h courses :
  forecast_of (Js.prop signals "weather") rain t h ->
  Js.prop context "availableCourses" = JArr courses ->
  Forall named courses ->
  exists r, GolfOperationsAgent.recommendCourseSubstitution signals context = Ok r.
Proof.
  intros (_ & Ht & _ & _) Hcourses Hnamed.
  unfold GolfOperationsAgent.recommendCourseSubstitution.
  destruct (Js.truthy _ && Js.gt _ _); [cbn; eauto | ].
  destruct (Js.gt _ _); [ | cbn; eauto].
  rewrite Hcourses. cbn [Js.as_array Js.rbind].
  destruct (find_named_ok "Ba Na Hills" courses Hnamed) as [[course | ] ->];
    cbn; eauto.
Qed.

(** In high heat without heavy rain, the first course whose name contains
    "Ba Na Hills" is the substitute, with a tee time before 8am. *)
Lemma substitution_to_ba_na_hills signals context rain t h courses course :
  forecast_of (Js.prop signals "weather") rain t h ->
  ~ heavy_rain rain -> (35 < t)%Q ->
  Js.prop context "availableCourses" = JArr courses ->
  Js.find (GolfOperationsAgent.name_includes "Ba Na Hills") courses = Ok (Some course) ->
  exists r,
    GolfOperationsAgent.recommendCourseSubstitution signals context = Ok r /\
    outputActions r =
      ["Substitute to " ++ Js.ToString (Js.prop course "name") ++
         " (cooler mountain climate)";
       "Earlier tee time (before 8am)"].
Proof.
  intros (_ & Ht & _ & Hr) Hdry Hhot Hcourses Hfind.
  unfold GolfOperationsAgent.recommendCourseSubstitution.
  pose proof (rain_test _ _ Hr) as Hrain.
  destruct (Js.truthy _ && Js.gt _ _); [exfalso; apply Hdry; now apply Hrain | ].
  rewrite Ht. change (Js.num 35) with (JNum (Fin 35)).
  replace (Js.gt (JNum (Fin t)) (JNum (Fin 35))) with true
    by (symmetry; now apply js_gt_num).
  rewrite Hcourses. cbn [Js.as_array Js.rbind]. rewrite Hfind.
  cbn [Js.rbind]. eexists. split; reflexivity.
Qed.

Lemma optimal_is_not_high signals context :
  produced (GolfOperationsAgent.recommendOptimalCourse signals context)
           (fun r => decision r <> "Substitute golf course due to weather" /\
                     priority r <> high /\
                     approvalRequired r = false).
Proof.
  unfold GolfOperationsAgent.recommendOptimalCourse.
  destruct (Js.strict_eq_num _ _).
  - cbn. repeat split; discriminate.
  - repeat (apply produced_rbind; intros).
    cbn. repeat split; discriminate.
Qed.

(** A course whose name contains the name of a course preferred for repeat
    play. *)
Definition preferred (course : JsVal) : Prop :=
  exists name,
    Js.get course "name" = Ok (JStr name) /\
    (JsString.includes name "Ba Na Hills Golf Club" = true \/
     JsString.includes name "Montgomerie Links Vietnam" = true).

Lemma is_preferred_iff (course : JsVal) :
  named course ->
  exists b, GolfOperationsAgent.is_preferred course = Ok b /\
            (b = true <-> preferred course).
Proof.
  intros (name & Hname).
  unfold GolfOperationsAgent.is_preferred, GolfOperationsAgent.PREFERRED_REPEAT_COURSES,
    GolfOperationsAgent.name_includes, preferred.
  cbn [Js.some]. rewrite Hname. cbn [Js.rbind Js.includes].
  destruct (JsString.includes name "Ba Na Hills Golf Club") eqn:E1.
  { exists true. split; [reflexivity | ]. split; [ | reflexivity].
    intros _. exists name. auto. }
  destruct (JsString.includes name "Montgomerie Links Vietnam") eqn:E2.
  { exists true. split; [reflexivity | ]. split; [ | reflexivity].
    intros _. exists name. auto. }
  exists false. split; [reflexivity | ]. split; [discriminate | ].
  intros (name' & E & [H | H]); injection E as <-; congruence.
Qed.

Lemma find_preferred (before : list JsVal) (course : JsVal) (after : list JsVal) :
  Forall named before -> named course ->
  (forall c, In c before -> ~ preferred c) -> preferred course ->
  Js.find GolfOperationsAgent.is_preferred (before ++ course :: after)%list
  = Ok (Some course).
Proof.
  intros Hnamed Hcourse Hnone Hpref.
  induction Hnamed as [ | c rest Hc _ IH]; cbn [List.app Js.find].
  - destruct (is_preferred_iff course Hcourse) as (b & -> & Hb).
    replace b with true by (symmetry; now apply Hb). reflexivity.
  - destruct (is_preferred_iff c Hc) as (b & -> & Hb). cbn [Js.rbind].
    destruct b; [exfalso; apply (Hnone c); [now left | now apply Hb] | ].
    apply IH. intros c' Hin. apply Hnone. now right.
Qed.

Lemma length_of_courses (courses : list JsVal) :
  courses <> [] ->
  Js.strict_eq_num (Js.prop (Js.or_ (JArr courses) (JArr [])) "length") 0 = false.
Proof.
  intro H. destruct courses as [ | c rest]; [contradiction | ].
  unfold Js.or_. cbn [Js.truthy Js.prop String.eqb Ascii.eqb Bool.eqb].
  unfold Js.length_val, Js.num, Js.strict_eq_num, JsNumber.eqb, JsNumber.of_Z.
  cbn [List.length]. unfold Qeq_bool, inject_Z. cbn [Qnum Qden].
  apply Z.eqb_neq. lia.
Qed.

(** A listed course: it has a name, and its travel time is a whole number
    of minutes. *)
Definition listed (course : JsVal) : Prop :=
  named course /\ whole (Js.prop course "travelTime").

(** [course] is the first of [courses] that is preferred. *)
Definition first_preferred (courses : list JsVal) (course : JsVal) : Prop :=
  exists before after,
    courses = (before ++ course :: after)%list /\
    (forall c, In c before -> ~ preferred c) /\
    preferred course.

Lemma first_preferred_exists (courses : list JsVal) :
  Forall named courses -> Exists preferred courses ->
  exists course, first_preferred courses course.
Proof.
  intros Hnamed Hex. induction Hnamed as [ | c rest Hc Hrest IH].
  - inversion Hex.
  - destruct (is_preferred_iff c Hc) as ([ | ] & _ & Hb).
    + exists c, [], rest. split; [reflexivity | ].
      split; [intros ? [] | now apply Hb].
    + assert (Hnot : ~ preferred c) by (intro H; apply Hb in H; discriminate).
      inversion Hex as [? ? H | ? ? H]; subst; [contradiction | ].
      destruct (IH H) as (course & before & after & -> & Hnone & Hpref).
      exists course, (c :: before)%list, after. split; [reflexivity | ].
      split; [ | exact Hpref].
      intros c' [<- | Hin]; [exact Hnot | now apply Hnone].
Qed.

(** A day of scenario 2: a valid context in Da Nang with no golf the day
    before, 34 degrees and 78% of humidity, no heavy rain, and an energy
    level that is absent, [null] or a number. *)
Definition scenario2_day (context : JsVal) : Prop :=
  BaseAgent.validateContext GolfOperationsAgent.self context
    ["tripId"; "userId"; "date"; "location"] = Ok tt /\
  Js.prop context "location" = JStr "Da Nang, Vietnam" /\
  Js.prop context "consecutiveGolfDays" = Js.num 0 /\
  measured (Js.prop context "energyLevel") /\
  exists rain,
    forecast_of (Js.prop context "weatherForecast") rain 34 78 /\
    ~ heavy_rain rain.

(** A day of scenario 2 calls for no substitution, whatever courses are
    listed. *)
Lemma scenario2_is_ordinary (context : JsVal) :
  scenario2_day context ->
  Outcome.golf context =
  GolfOperationsAgent.recommendOptimalCourse
    (GolfOperationsAgent.collectSignals context) context.
Proof.
  intros (Hvalid & Hloc & Hdays & _ & rain & Hforecast & Hdry).
  unfold Outcome.golf. rewrite Hvalid, Hloc.
  rewrite in_vietnam.
  2:{ exists "Da Nang". split; [right; left; reflexivity | ].
      exists "", "Da Nang", ", Vietnam". split; reflexivity. }
  cbn [Js.rbind negb]. unfold Outcome.golf_advice.
  set (signals := GolfOperationsAgent.collectSignals context).
  assert (Hskip : GolfOperationsAgent.shouldSkipGolf signals = false).
  { unfold GolfOperationsAgent.shouldSkipGolf.
    change (Js.prop signals "consecutiveGolfDays")
      with (Js.prop context "consecutiveGolfDays").
    rewrite Hdays. reflexivity. }
  rewrite Hskip.
  assert (Hsig : forecast_of (Js.prop signals "weather") rain 34 78) by exact Hforecast.
  pose proof (shouldSubstituteCourse_iff signals context rain 34 78 Hsig) as Hiff.
  destruct (GolfOperationsAgent.shouldSubstituteCourse signals context);
    [ | reflexivity].
  exfalso. destruct Hiff as [Hbad _].
  destruct (Hbad eq_refl) as [H | [H | [_ H]]].
  - exact (Hdry H).
  - unfold Qlt in H. cbn in H. lia.
  - unfold Qlt in H. cbn in H. lia.
Qed.

(** C4, as the code has it.  (1) In scenario 2 the weather (34 degrees, 78%
    of humidity) does not call for a substitution.  With Ba Na Hills Golf
    Club as the one course listed, the Golf agent recommends to proceed with
    golf at Ba Na Hills Golf Club, with a morning tee time before 10am,
    priority medium and no approval.  On every valid context of the
    scenario (Da Nang, no golf the day before, 34 degrees and 78% of
    humidity, a rainfall that is absent or at most 10, an energy level that
    is absent or a number) with Ba Na Hills Golf Club among the courses
    listed, each with a name and a whole number of minutes as its travel
    time, the agent recommends in the same way to proceed with golf at the
    first course listed whose name contains "Ba Na Hills Golf Club" or
    "Montgomerie Links Vietnam", never a substitution.  (2) On a valid
    context whose location names a recognised city, when golf is not
    skipped, a forecast is given and the courses listed have names, the
    agent answers with the weather substitution, of priority high and
    requiring approval, when rainfall > 10 or temperature > 35 or
    (temperature > 32 and humidity > 80), and with its ordinary course
    recommendation otherwise.  (3) The substitution goes to the first course
    named after Ba Na Hills, with a tee time before 8am, when the
    temperature is above 35 and the rain is not heavy. *)
Theorem golf_weather_substitution :
  (exists r,
      World.result (GolfOperationsAgent.analyze Scenario2.context) Sample.still = Ok r /\
      decision r = "Proceed with golf at Ba Na Hills Golf Club" /\
      outputActions r =
        ["Book tee time at Ba Na Hills Golf Club";
         "Morning tee time only (before 10am)";
         "Confirm caddie and cart included";
         "Travel time: 60 minutes"] /\
      priority r = medium /\
      approvalRequired r = false) /\
  (forall (context : JsVal) (w : World) (courses : list JsVal),
      scenario2_day context ->
      Js.prop context "availableCourses" = JArr courses ->
      Forall listed courses ->
      Exists (fun c => Js.prop c "name" = JStr "Ba Na Hills Golf Club") courses ->
      exists r course name,
        World.result (GolfOperationsAgent.analyze context) w = Ok r /\
        first_preferred courses course /\
        Js.prop course "name" = JStr name /\
        decision r = "Proceed with golf at " ++ name /\
        outputActions r =
          ["Book tee time at " ++ name;
           "Morning tee time only (before 10am)";
           "Confirm caddie and cart included";
           "Travel time: " ++ Js.ToString (Js.prop course "travelTime") ++ " minutes"] /\
        priority r = medium /\
        approvalRequired r = false /\
        ~ weather_substitution r) /\
  (forall (context : JsVal) (w : World) (location : string)
          (rain : option Q) (t h : Q) (courses : list JsVal),
      BaseAgent.validateContext GolfOperationsAgent.self context
        ["tripId"; "userId"; "date"; "location"] = Ok tt ->
      Js.prop context "location" = JStr location ->
      (exists city, In city recognized_cities /\ occurs_ignoring_case city location) ->
      GolfOperationsAgent.shouldSkipGolf
        (GolfOperationsAgent.collectSignals context) = false ->
      forecast_of (Js.prop context "weatherForecast") rain t h ->
      Js.prop context "availableCourses" = JArr courses ->
      Forall named courses ->
      (bad_weather rain t h ->
       exists r,
         World.result (GolfOperationsAgent.analyze context) w = Ok r /\
         weather_substitution r) /\
      (~ bad_weather rain t h ->
       World.result (GolfOperationsAgent.analyze context) w =
         GolfOperationsAgent.recommendOptimalCourse
           (GolfOperationsAgent.collectSignals context) context /\
       produced (World.result (GolfOperationsAgent.analyze context) w)
                (fun r => ~ weather_substitution r /\ priority r <> high)) /\
      (forall course,
          ~ heavy_rain rain -> (35 < t)%Q ->
          Js.find (GolfOperationsAgent.name_includes "Ba Na Hills") courses
            = Ok (Some course) ->
          exists r,
            World.result (GolfOperationsAgent.analyze context) w = Ok r /\
            weather_substitution r /\
            outputActions r =
              ["Substitute to " ++ Js.ToString (Js.prop course "name") ++
                 " (cooler mountain climate)";
               "Earlier tee time (before 8am)"])).
Proof.
  split.
  { eexists. split; [vm_compute; reflexivity | ]. repeat split. }
  split.
  { intros context w courses Hday Hcourses Hlisted Hbana.
    assert (Hnamed : Forall named courses).
    { apply Forall_forall. intros c Hc. rewrite Forall_forall in Hlisted.
      now apply Hlisted. }
    assert (Hex : Exists preferred courses).
    { apply Exists_exists. apply Exists_exists in Hbana.
      destruct Hbana as (c & Hin & Hc). exists c. split; [exact Hin | ].
      rewrite Forall_forall in Hnamed. destruct (Hnamed c Hin) as (name & Hname).
      exists name. split; [exact Hname | left].
      assert (E : name = "Ba Na Hills Golf Club").
      { unfold Js.get in Hname. destruct (Js.is_nullish c); [discriminate | ].
        congruence. }
      rewrite E. reflexivity. }
    destruct (first_preferred_exists courses Hnamed Hex) as (course & Hfirst).
    pose proof Hfirst as (before & after & -> & Hnone & Hpref).
    pose proof Hpref as (name & Hname & _).
    assert (Hc : named course) by (exists name; exact Hname).
    assert (Hbefore : Forall named before).
    { apply Forall_forall. intros c Hin. rewrite Forall_forall in Hnamed.
      apply Hnamed. apply in_or_app. now left. }
    assert (Hprop : Js.prop course "name" = JStr name).
    { unfold Js.get in Hname. destruct (Js.is_nullish course); [discriminate | ].
      congruence. }
    rewrite (golf_analyze_result _ w), (scenario2_is_ordinary _ Hday).
    unfold GolfOperationsAgent.recommendOptimalCourse.
    rewrite Hcourses.
    rewrite length_of_courses by (destruct before; discriminate).
    unfold Js.or_ at 1. cbn [Js.truthy Js.as_array Js.rbind].
    rewrite (find_preferred before course after Hbefore Hc Hnone Hpref).
    cbn [Js.rbind]. rewrite Hname. cbn [Js.rbind].
    assert (Ht : Js.get course "travelTime" = Ok (Js.prop course "travelTime")).
    { unfold Js.get in *. destruct (Js.is_nullish course); [discriminate | reflexivity]. }
    rewrite Ht. cbn [Js.rbind].
    destruct (is_preferred_iff course Hc) as (b & Hb & _).
    unfold GolfOperationsAgent.buildCourseRationale. rewrite Hb. cbn [Js.rbind].
    eexists. exists course, name. split; [reflexivity | ].
    split; [exact Hfirst | ]. split; [exact Hprop | ].
    repeat split. intros (Hd & _). cbn in Hd.
    discriminate Hd. }
  intros context w location rain t h courses
         Hvalid Hloc Hcity Hplay Hforecast Hcourses Hnamed.
  rewrite (golf_analyze_result context w).
  unfold Outcome.golf. rewrite Hvalid, Hloc, (in_vietnam _ Hcity).
  cbn [Js.rbind negb].
  unfold Outcome.golf_advice. rewrite Hplay.
  set (signals := GolfOperationsAgent.collectSignals context).
  assert (Hsig : forecast_of (Js.prop signals "weather") rain t h) by exact Hforecast.
  pose proof (shouldSubstituteCourse_iff signals context rain t h Hsig) as Hiff.
  split; [ | split].
  - intro Hbad. apply Hiff in Hbad. rewrite Hbad.
    destruct (substitution_ok signals context rain t h courses Hsig Hcourses Hnamed)
      as [r Hr].
    exists r. split; [exact Hr | ].
    exact (produced_ok _ _ _ (substitution_is_high signals context) Hr).
  - intro Hfine.
    destruct (GolfOperationsAgent.shouldSubstituteCourse signals context) eqn:E;
      [exfalso; apply Hfine; now apply Hiff | ].
    split; [reflexivity | ].
    pose proof (optimal_is_not_high signals context) as Hopt.
    destruct (GolfOperationsAgent.recommendOptimalCourse signals context) as [r | e];
      [ | exact I].
    cbn in *. destruct Hopt as (Hd & Hp & _).
    split; [intros (Hd' & _); contradiction | exact Hp].
  - intros course Hdry Hhot Hfind.
    assert (Hbad : bad_weather rain t h) by (right; left; exact Hhot).
    apply Hiff in Hbad. rewrite Hbad.
    destruct (substitution_to_ba_na_hills signals context rain t h courses course
                Hsig Hdry Hhot Hcourses Hfind) as (r & Hr & Hactions).
    exists r. split; [exact Hr | ]. split; [ | exact Hactions].
    exact (produced_ok _ _ _ (substitution_is_high signals context) Hr).
Qed.

(** Scenario 2 as the claim states it fails: the recommendation is not of
    priority high and substitutes nothing. *)
Lemma scenario2_is_not_a_substitution :
  exists r,
    World.result (GolfOperationsAgent.analyze Scenario2.context) Sample.still = Ok r /\
    priority r <> high /\
    decision r <> "Substitute golf course due to weather" /\
    ~ In "Earlier tee time (before 8am)" (outputActions r).
Proof.
  eexists. split; [vm_compute; reflexivity | ].
  split; [discriminate | ]. split; [discriminate | ].
  cbn. intros [H | [H | [H | [H | []]]]]; discriminate.
Qed.

(** At 36 degrees the same day is moved to Ba Na Hills; and the planning
    example of the repository, at 34 degrees with Montgomerie Links listed
    first, proceeds with golf there. *)
Lemma golf_weather_substitution_witness :
  (exists r,
      World.result (GolfOperationsAgent.analyze (Scenario2.day 36 78)) Sample.still
        = Ok r /\
      weather_substitution r /\
      outputActions r =
        ["Substitute to Ba Na Hills Golf Club (cooler mountain climate)";
         "Earlier tee time (before 8am)"]) /\
  (exists r,
      World.result (GolfOperationsAgent.analyze Scenario2.example) Sample.still
        = Ok r /\
      decision r = "Proceed with golf at Montgomerie Links Vietnam" /\
      outputActions r =
        ["Book tee time at Montgomerie Links Vietnam";
         "Morning tee time only (before 10am)";
         "Confirm caddie and cart included";
         "Travel time: 20 minutes"] /\
      priority r = medium).
Proof.
  destruct golf_weather_substitution as (_ & Hday & H).
  split.
  - destruct (H (Scenario2.day 36 78) Sample.still "Da Nang, Vietnam"
                None 36%Q 78%Q [Scenario2.ba_na_hills])
      as (_ & _ & Hsub).
    + reflexivity.
    + reflexivity.
    + exists "Da Nang". split; [right; left; reflexivity | ].
      exists "", "Da Nang", ", Vietnam". split; reflexivity.
    + reflexivity.
    + repeat split.
    + reflexivity.
    + constructor; [ | constructor]. exists "Ba Na Hills Golf Club". reflexivity.
    + destruct (Hsub Scenario2.ba_na_hills) as (r & Hr & Hw & Ha).
      * intros [].
      * reflexivity.
      * reflexivity.
      * exists r. repeat split; try apply Hw; assumption.
  - destruct (Hday Scenario2.example Sample.still
                [Scenario2.montgomerie_links; Scenario2.ba_na_hills;
                 Scenario2.laguna_lang_co])
      as (r & course & name & Hr & Hfirst & Hname & Hd & Ha & Hp & _).
    + split; [reflexivity | ]. split; [reflexivity | ]. split; [reflexivity | ].
      split; [right; right; exists 4%Q; reflexivity | ].
      exists (Some 0%Q). split; [repeat split | ].
      intro Hrain. unfold heavy_rain, Qlt in Hrain. cbn in Hrain. lia.
    + reflexivity.
    + repeat (apply Forall_cons;
              [split; [eexists; reflexivity
                      | eexists; split; [reflexivity | lia]] | ]).
      apply Forall_nil.
    + apply Exists_cons_tl. apply Exists_cons_hd. reflexivity.
    + assert (Hfound : course = Scenario2.montgomerie_links).
      { destruct Hfirst as (before & after & E & Hnone & _).
        destruct before as [ | c before]; cbn in E.
        - now injection E as <-.
        - injection E as <- _. exfalso. apply (Hnone Scenario2.montgomerie_links).
          + now left.
          + eexists. split; [reflexivity | right; reflexivity]. }
      subst course. injection Hname as <-.
      exists r. split; [exact Hr | ]. split; [exact Hd | ].
      split; [exact Ha | exact Hp].
Defined.

(** ** The thresholds of the Budget agent *)

Module Ledger.

(** The spend of a category. *)
Definition spend (planned actual : Q) : JsVal :=
  JObj [("planned", JNum (Fin planned)); ("actual", JNum (Fin actual))].

(** A [categorySpend] object, from the name, the planned and the actual
    amount of each category. *)
Definition categorySpend (categories : list (string * Q * Q)) : JsVal :=
  JObj (map (fun '(name, planned, actual) => (name, spend planned actual)) categories).

(** The variance ratio of a category, as [calculateVariances] has it:
    [planned > 0 ? (actual - planned) / planned : 0]. *)
Definition ratio (planned actual : Q) : Q :=
  if JsNumber.Qlt_bool 0 planned then (actual - planned) / planned else 0.

(** Some category is over its plan by more than [threshold]. *)
Definition over (threshold : Q) (categories : list (string * Q * Q)) : Prop :=
  exists name planned actual,
    In (name, planned, actual) categories /\ (threshold < ratio planned actual)%Q.

(** What [calculateVariances] computes for a category. *)
Definition variance_of (category : string * Q * Q) : BudgetControlAgent.Variance :=
  let '(name, planned, actual) := category in
  {| BudgetControlAgent.category := name;
     BudgetControlAgent.planned := JNum (Fin planned);
     BudgetControlAgent.actual := JNum (Fin actual);
     BudgetControlAgent.variance := Js.sub (JNum (Fin actual)) (JNum (Fin planned));
     BudgetControlAgent.variancePercent :=
       if Js.gt (JNum (Fin planned)) (Js.num 0)
       then JsNumber.div (Js.sub (JNum (Fin actual)) (JNum (Fin planned))) (Fin planned)
       else JsNumber.of_Z 0 |}.

(** Whole amounts from 0 to 10^15.  Doubles hold them and their
    differences exactly, and the double that the runtime computes for a
    ratio of two of them is above the double 0.10, or 0.20, exactly when
    the ratio is above 1/10, or 1/5. *)
Definition limit : Z := 10 ^ 15.

Definition whole_amounts (planned actual : Q) : Prop :=
  exists p a : Z,
    planned = inject_Z p /\ actual = inject_Z a /\
    (0 <= p <= limit)%Z /\ (0 <= a <= limit)%Z.

Definition all_whole (categories : list (string * Q * Q)) : Prop :=
  Forall (fun '(_, planned, actual) => whole_amounts planned actual) categories.

(** A day with one category, "golf", and a budget of 50000 of which 12000
    are spent. *)
Definition day (planned actual : Q) : JsVal :=
  JObj (Sample.envelope ++
        [("trip", Sample.trip);
         ("categorySpend", categorySpend [("golf", planned, actual)])])%list.

End Ledger.

















(** A category over its plan by exactly 10% is on track, by 10.1% it raises
    the alert; by exactly 20% it still raises the alert, by 20.1% the
    critical overrun. *)
Lemma whole_amounts_of (planned actual : Z) :
  (0 <= planned <= Ledger.limit)%Z -> (0 <= actual <= Ledger.limit)%Z ->
  Ledger.whole_amounts (inject_Z planned) (inject_Z actual).
Proof. intros Hp Ha. exists planned, actual. auto. Qed.



(** ** The buffer check of the Transport agent *)

Lemma assessBuffers_sufficient (context : JsVal) :
  produced (TransportLogisticsAgent.assessBuffers context)
           (fun assessment => TransportLogisticsAgent.insufficient assessment = false).
Proof.
  unfold TransportLogisticsAgent.assessBuffers.
  destruct (_ || _); [reflexivity | ].
  apply produced_rbind. intros requiredBuffer. reflexivity.
Qed.

Definition calm (r : AgentRecommendation) : Prop :=
  decision r <> "Insufficient transport buffer" /\
  priority r <> high /\
  priority r <> critical.

(** Two fields that differ once computed. *)
Ltac differ := hnf; let H := fresh in intro H; cbn in H; discriminate H.

Lemma transport_outcome_calm (context : JsVal) :
  produced (Outcome.transport context) calm.
Proof.
  unfold Outcome.transport, Outcome.transport_advice.
  apply produced_rbind; intros _.
  destruct (negb _); [repeat split; differ | ].
  pose proof (assessBuffers_sufficient context) as Hbuffer.
  destruct (TransportLogisticsAgent.assessBuffers context) as [assessment | e];
    [ | exact I].
  cbn in Hbuffer. cbn [Js.rbind]. rewrite Hbuffer.
  apply produced_rbind; intros risks.
  destruct (0 <? _)%nat; repeat split; differ.
Qed.

(** What [Promise.all] yields is what each promise was settled with. *)
Lemma fan_out_settled (context : JsVal)
      (recommendations : TravelExperienceAgent.Recommendations) :
  Outcome.fan_out context = Ok recommendations ->
  Outcome.settle (Outcome.healthP context)
    = Ok (TravelExperienceAgent.health recommendations) /\
  Outcome.settle (Outcome.golfP context)
    = Ok (TravelExperienceAgent.golf recommendations) /\
  Outcome.settle (Outcome.budgetP context)
    = Ok (TravelExperienceAgent.budget recommendations) /\
  Outcome.settle (Outcome.transportP context)
    = Ok (TravelExperienceAgent.transport recommendations).
Proof.
  unfold Outcome.fan_out, TravelExperienceAgent.promise_all.
  destruct (TravelExperienceAgent.first_some _); [discriminate | ].
  destruct (Outcome.settle (Outcome.healthP context)); [ | discriminate].
  destruct (Outcome.settle (Outcome.golfP context)); [ | discriminate].
  destruct (Outcome.settle (Outcome.budgetP context)); [ | discriminate].
  destruct (Outcome.settle (Outcome.transportP context)); [ | discriminate].
  cbn [Js.rbind]. intro H. injection H as <-. cbn. auto.
Qed.

Lemma settled_promise subContext specialist r :
  Outcome.settle (Outcome.promise subContext specialist) = Ok r ->
  exists c, subContext = Ok c /\ specialist c = Ok r.
Proof.
  destruct subContext as [c | e]; cbn; [eauto | discriminate].
Qed.

Lemma coordination_without_transport_override recommendations context :
  TravelExperienceAgent.is_critical_or_high
    (priority (TravelExperienceAgent.transport recommendations)) = false ->
  produced (TravelExperienceAgent.applyCoordinationRules recommendations context)
           (fun final => decision final <> "Logistics priority override").
Proof.
  intro H. unfold TravelExperienceAgent.applyCoordinationRules. rewrite H.
  destruct (TravelExperienceAgent.is_critical_or_high
              (priority (TravelExperienceAgent.health recommendations)));
    [differ | ].
  destruct (TravelExperienceAgent.is_critical _); [differ | ].
  destruct (approvalRequired _); [differ | ].
  apply produced_rbind; intros. differ.
Qed.

(** C9.  The buffer assessment of the Transport agent, whenever it is
    computed, reports a sufficient buffer.  So the Transport agent never
    returns its "Insufficient transport buffer" recommendation, never a
    priority high or critical, and the orchestrator never answers with its
    logistics override. *)
Theorem transport_buffer_never_insufficient :
  forall (context : JsVal) (w : World),
    produced (TransportLogisticsAgent.assessBuffers context)
             (fun assessment => TransportLogisticsAgent.insufficient assessment = false) /\
    produced (World.result (TransportLogisticsAgent.analyze context) w) calm /\
    produced (World.result (TravelExperienceAgent.analyze context) w)
             (fun final => decision final <> "Logistics priority override").
Proof.
  intros context w.
  split; [apply assessBuffers_sufficient | ].
  split.
  - rewrite (transport_analyze_result context w). apply transport_outcome_calm.
  - rewrite (orchestrator_analyze_result context w).
    unfold Outcome.orchestrator.
    apply produced_rbind; intros _.
    destruct (Outcome.fan_out context) as [recommendations | e] eqn:Hfan; [ | exact I].
    cbn [Js.rbind].
    apply coordination_without_transport_override.
    destruct (fan_out_settled _ _ Hfan) as (_ & _ & _ & Ht).
    apply settled_promise in Ht. destruct Ht as (tc & _ & Ht).
    pose proof (transport_outcome_calm tc) as Hcalm.
    rewrite Ht in Hcalm. destruct Hcalm as (_ & Hhigh & Hcritical).
    destruct (priority (TravelExperienceAgent.transport recommendations));
      try reflexivity; contradiction.
Qed.

Module TightTransfer.

(** An international flight at 09:00 with two bags. *)
Definition context : JsVal :=
  JObj (Sample.envelope ++
        [("currentLocation", JStr "Da Nang, Vietnam");
         ("nextDestination", JStr "Tokyo, Japan");
         ("transportType", JStr "flight");
         ("departureTime", JStr "09:00");
         ("arrivalTime", JStr "16:30");
         ("luggageCount", Js.num 2)])%list.

End TightTransfer.

Lemma transport_buffer_never_insufficient_witness :
  exists assessment r,
    TransportLogisticsAgent.assessBuffers TightTransfer.context = Ok assessment /\
    TransportLogisticsAgent.requiredBuffer assessment = 120%Z /\
    TransportLogisticsAgent.insufficient assessment = false /\
    World.result (TransportLogisticsAgent.analyze TightTransfer.context) Sample.still
      = Ok r /\
    calm r.
Proof.
  destruct (transport_buffer_never_insufficient TightTransfer.context Sample.still)
    as (Hbuffer & Hcalm & _).
  destruct (TransportLogisticsAgent.assessBuffers TightTransfer.context)
    as [assessment | e] eqn:Ha; [ | vm_compute in Ha; discriminate].
  destruct (World.result (TransportLogisticsAgent.analyze TightTransfer.context)
                         Sample.still) as [r | e] eqn:Hr;
    [ | vm_compute in Hr; discriminate].
  exists assessment, r. split; [reflexivity | ].
  split; [vm_compute in Ha; injection Ha as <-; reflexivity | ].
  split; [exact Hbuffer | ]. split; [reflexivity | exact Hcalm].
Defined.

(** ** Failure of a specialist during the fan-out *)

(** A specialist call of the orchestrator, from the call of the method to
    the end of its body: what its promise is settled with. *)
Definition specialist_call (method : JsVal -> M TravelExperienceAgent.Promise)
           (failed : string) (context : JsVal) : M (Result AgentRecommendation) :=
  World.bind (method context) (TravelExperienceAgent.resume failed).

Definition healthCall :=
  specialist_call TravelExperienceAgent.getHealthRecommendation
                  "Health agent analysis failed".
Definition golfCall :=
  specialist_call TravelExperienceAgent.getGolfRecommendation
                  "Golf agent analysis failed".
Definition budgetCall :=
  specialist_call TravelExperienceAgent.getBudgetRecommendation
                  "Budget agent analysis failed".
Definition transportCall :=
  specialist_call TravelExperienceAgent.getTransportRecommendation
                  "Transport agent analysis failed".

Lemma specialist_call_result failed subContext specialist outcome :
  (forall c, returns (specialist c) (outcome c)) ->
  returns (World.bind (TravelExperienceAgent.call failed subContext specialist)
                      (TravelExperienceAgent.resume failed))
          (Ok (Outcome.settle (Outcome.promise subContext outcome))).
Proof.
  intro Hs.
  change (Ok (Outcome.settle (Outcome.promise subContext outcome)))
    with (Js.rbind (Ok (Outcome.promise subContext outcome))
            (fun p => Ok (Outcome.settle p))).
  apply returns_bind; [now apply call_result | intros; apply resume_result].
Qed.

Lemma calls_result (context : JsVal) :
  returns (healthCall context) (Ok (Outcome.settle (Outcome.healthP context))) /\
  returns (golfCall context) (Ok (Outcome.settle (Outcome.golfP context))) /\
  returns (budgetCall context) (Ok (Outcome.settle (Outcome.budgetP context))) /\
  returns (transportCall context) (Ok (Outcome.settle (Outcome.transportP context))).
Proof.
  repeat split; apply specialist_call_result;
    auto using health_analyze_result, golf_analyze_result, budget_analyze_result,
      transport_analyze_result.
Qed.

Lemma promise_all_fails (healthP golfP budgetP transportP : TravelExperienceAgent.Promise) :
  let outcomes := map Outcome.settle [healthP; golfP; budgetP; transportP] in
  (exists e, In (Throw e) outcomes) ->
  exists e',
    TravelExperienceAgent.promise_all healthP golfP budgetP transportP
      (Outcome.settle healthP) (Outcome.settle golfP)
      (Outcome.settle budgetP) (Outcome.settle transportP) = Throw e' /\
    In (Throw e') outcomes.
Proof.
  intros outcomes (e & Hin). subst outcomes.
  destruct healthP as [? | [? | ?]], golfP as [? | [? | ?]],
           budgetP as [? | [? | ?]], transportP as [? | [? | ?]];
    cbn in Hin |- *;
    try (destruct Hin as [H | [H | [H | [H | []]]]]; discriminate H);
    eexists; (split; [reflexivity | auto 6]).
Qed.

(** C7.  Once the orchestrator has reached its fan-out, if the promise of
    any of the four specialist calls is rejected -- with a validation error
    or any other -- then [analyze] of the orchestrator throws: it returns no
    recommendation at all.  The error it throws is the one a rejected
    specialist call was rejected with (that very error when a single call
    fails). *)
Theorem aggregation_failure :
  forall (context location : JsVal) (e : JsError) (w wh wg wb wt : World),
    BaseAgent.validateContext TravelExperienceAgent.self context
      ["tripId"; "userId"; "date"; "trip"; "currentItinerary"] = Ok tt ->
    Js.get (Js.prop context "currentItinerary") "location" = Ok location ->
    let outcomes :=
      [World.result (healthCall context) wh;
       World.result (golfCall context) wg;
       World.result (budgetCall context) wb;
       World.result (transportCall context) wt] in
    In (Ok (Throw e)) outcomes ->
    exists e',
      World.result (TravelExperienceAgent.analyze context) w = Throw e' /\
      In (Ok (Throw e')) outcomes /\
      ((forall e'', In (Ok (Throw e'')) outcomes -> e'' = e) -> e' = e).
Proof.
  intros context location e w wh wg wb wt Hvalid Hloc outcomes Hin.
  destruct (calls_result context) as (Hh & Hg & Hb & Ht).
  subst outcomes. rewrite (Hh wh), (Hg wg), (Hb wb), (Ht wt) in *.
  rewrite (orchestrator_analyze_result context w).
  unfold Outcome.orchestrator, Outcome.reaches_fan_out.
  rewrite Hvalid, Hloc. cbn [Js.rbind]. unfold Outcome.fan_out.
  destruct (promise_all_fails (Outcome.healthP context) (Outcome.golfP context)
              (Outcome.budgetP context) (Outcome.transportP context))
    as (e' & Hall & Hin').
  - exists e. cbn in Hin |- *.
    destruct Hin as [H | [H | [H | [H | []]]]]; injection H as ->; auto.
  - exists e'. rewrite Hall. split; [reflexivity | ].
    assert (Hin'' : In (Ok (Throw e'))
                       [Ok (Outcome.settle (Outcome.healthP context));
                        Ok (Outcome.settle (Outcome.golfP context));
                        Ok (Outcome.settle (Outcome.budgetP context));
                        Ok (Outcome.settle (Outcome.transportP context))]).
    { cbn in Hin' |- *.
      destruct Hin' as [H | [H | [H | [H | []]]]]; rewrite H; auto. }
    split; [exact Hin'' | ]. intro Honly. now apply Honly.
Qed.

Module NoLocation.

(** A golf day whose itinerary gives no location: the sub-context of the
    Golf agent has the key [location], bound to [undefined]. *)
Definition context : JsVal :=
  JObj (Sample.envelope ++
        [("trip", Sample.trip);
         ("currentItinerary",
           JObj [("primaryIntent", JStr "golf");
                 ("schedule", JObj [("morning", JObj [("activity", JStr "Golf round")])])]);
         ("travelerFeedback",
           JObj [("energyRating", Js.num 5); ("sleepQuality", Js.num 5)])])%list.

(** The same day on a trip without a budget: the sub-context of the Budget
    agent cannot be built. *)
Definition without_budget : JsVal :=
  JObj (Sample.envelope ++
        [("trip", JObj [("id", JStr "trip_123")]);
         ("currentItinerary",
           JObj [("primaryIntent", JStr "golf");
                 ("schedule", JObj [("morning", JObj [("activity", JStr "Golf round")])])]);
         ("travelerFeedback",
           JObj [("energyRating", Js.num 5); ("sleepQuality", Js.num 5)])])%list.

Definition golf_error : JsError :=
  TypeError "Cannot read properties of undefined (reading 'toLowerCase')".

Definition budget_error : JsError :=
  TypeError "Cannot read properties of undefined (reading 'categories')".

End NoLocation.

Lemma aggregation_failure_witness :
  World.result (golfCall NoLocation.context) Sample.still
    = Ok (Throw NoLocation.golf_error) /\
  World.result (TravelExperienceAgent.analyze NoLocation.context) Sample.still
    = Throw NoLocation.golf_error.
Proof.
  split; [vm_compute; reflexivity | ].
  destruct (aggregation_failure NoLocation.context JUndefined NoLocation.golf_error
              Sample.still Sample.still Sample.still Sample.still Sample.still)
    as (e' & Hthrown & _ & Honly).
  - reflexivity.
  - reflexivity.
  - right. left. vm_compute. reflexivity.
  - rewrite Hthrown. f_equal. apply Honly.
    intros e'' Hin. vm_compute in Hin.
    destruct Hin as [H | [H | [H | [H | []]]]]; try discriminate H.
    injection H as <-. reflexivity.
Defined.

(** A promise rejected when its method is called wins over one rejected
    later by a microtask, whatever their places in the array. *)
Example rejection_at_the_call_comes_first :
  World.result (golfCall NoLocation.without_budget) Sample.still
    = Ok (Throw NoLocation.golf_error) /\
  World.result (budgetCall NoLocation.without_budget) Sample.still
    = Ok (Throw NoLocation.budget_error) /\
  World.result (TravelExperienceAgent.analyze NoLocation.without_budget) Sample.still
    = Throw NoLocation.budget_error.
Proof. repeat split; vm_compute; reflexivity. Qed.

(** ** Validation of the context *)

Definition has_key (field : string) (ps : list (string * JsVal)) : bool :=
  match Js.lookup field ps with
  | Some _ => true
  | None => false
  end.

(** The required fields that are not keys of the object. *)
Definition absent (ps : list (string * JsVal)) (requiredFields : list string)
  : list string :=
  filter (fun field => negb (has_key field ps)) requiredFields.

Definition missing_error (self : BaseAgent.Agent) (missing : list string) : JsError :=
  Error (BaseAgent.name self ++ " missing required context fields: " ++
         JsString.join ", " missing).

Lemma missing_fields_absent ps requiredFields :
  BaseAgent.missing_fields (JObj ps) requiredFields = Ok (absent ps requiredFields).
Proof.
  induction requiredFields as [ | field rest IH]; [reflexivity | ].
  cbn [BaseAgent.missing_fields Js.has Js.rbind]. rewrite IH. cbn [Js.rbind].
  unfold absent, has_key. cbn [filter].
  destruct (Js.lookup field ps); reflexivity.
Qed.

Lemma validateContext_object self ps requiredFields :
  BaseAgent.validateContext self (JObj ps) requiredFields =
  match absent ps requiredFields with
  | [] => Ok tt
  | missing => Throw (missing_error self missing)
  end.
Proof.
  unfold BaseAgent.validateContext. rewrite missing_fields_absent. cbn [Js.rbind].
  destruct (absent ps requiredFields); reflexivity.
Qed.

Lemma absent_nil_iff ps requiredFields :
  absent ps requiredFields = [] <->
  forall field, In field requiredFields -> exists v, Js.lookup field ps = Some v.
Proof.
  unfold absent. split.
  - intros H field Hin.
    destruct (Js.lookup field ps) as [v | ] eqn:E; [eauto | exfalso].
    assert (Hf : In field (filter (fun f => negb (has_key f ps)) requiredFields)).
    { apply filter_In. split; [exact Hin | ]. unfold has_key. now rewrite E. }
    rewrite H in Hf. contradiction.
  - intros H. induction requiredFields as [ | field rest IH]; [reflexivity | ].
    cbn [filter]. destruct (H field (or_introl eq_refl)) as [v Hv].
    unfold has_key at 1. rewrite Hv. cbn [negb].
    apply IH. intros f Hf. apply H. now right.
Qed.

Lemma lookup_set field v ps : Js.lookup field (Js.set field v ps) = Some v.
Proof.
  induction ps as [ | [k x] rest IH]; cbn.
  - now rewrite String.eqb_refl.
  - destruct (String.eqb field k) eqn:E; cbn.
    + now rewrite String.eqb_refl.
    + now rewrite E.
Qed.

Lemma throws_at_validation {A} (self : BaseAgent.Agent) (context : JsVal)
      (requiredFields : list string) (k : unit -> M A) (e : JsError) (w : World) :
  BaseAgent.validateContext self context requiredFields = Throw e ->
  World.result
    (World.bind (World.lift (BaseAgent.validateContext self context requiredFields)) k) w
  = Throw e.
Proof. intro H. rewrite result_bind_lift, H. reflexivity. Qed.

(** *** Past the validation, only the runtime throws

    [validateContext] is the one place where the agents build an [Error]
    themselves; every other failure is a [TypeError] of the runtime. *)

Definition no_Error {A} (r : Result A) : Prop :=
  match r with
  | Throw (Error _) => False
  | _ => True
  end.

Lemma no_Error_rbind {A B} (r : Result A) (f : A -> Result B) :
  no_Error r -> (forall a, no_Error (f a)) -> no_Error (Js.rbind r f).
Proof. destruct r as [a | e]; cbn; auto. Qed.

Lemma no_Error_get v k : no_Error (Js.get v k).
Proof. unfold Js.get. destruct (Js.is_nullish v); exact I. Qed.

Lemma no_Error_entries v : no_Error (Js.entries v).
Proof. unfold Js.entries. destruct (Js.is_nullish v); exact I. Qed.

Lemma no_Error_as_array v method : no_Error (Js.as_array v method).
Proof. destruct v; exact I. Qed.

Lemma no_Error_as_string v method : no_Error (Js.as_string v method).
Proof. destruct v; exact I. Qed.

Lemma no_Error_includes v literal : no_Error (Js.includes v literal).
Proof. destruct v; exact I. Qed.

Lemma no_Error_toFixed1 v : no_Error (Js.toFixed1 v).
Proof. destruct v; exact I. Qed.

Lemma no_Error_find {A} (p : A -> Result bool) xs :
  (forall x, no_Error (p x)) -> no_Error (Js.find p xs).
Proof.
  intro Hp. induction xs as [ | x rest IH]; [exact I | ].
  cbn [Js.find]. apply no_Error_rbind; [apply Hp | ].
  intros [ | ]; [exact I | exact IH].
Qed.

Lemma no_Error_some {A} (p : A -> Result bool) xs :
  (forall x, no_Error (p x)) -> no_Error (Js.some p xs).
Proof.
  intro Hp. induction xs as [ | x rest IH]; [exact I | ].
  cbn [Js.some]. apply no_Error_rbind; [apply Hp | ].
  intros [ | ]; [exact I | exact IH].
Qed.

Lemma no_Error_mapM {A B} (f : A -> Result B) xs :
  (forall x, no_Error (f x)) -> no_Error (Js.mapM f xs).
Proof.
  intro Hf. induction xs as [ | x rest IH]; [exact I | ].
  cbn [Js.mapM]. apply no_Error_rbind; [apply Hf | intros y].
  apply no_Error_rbind; [exact IH | intros; exact I].
Qed.

Lemma no_Error_reduce {A B} (f : B -> A -> Result B) xs init :
  (forall acc x, no_Error (f acc x)) -> no_Error (Js.reduce f xs init).
Proof.
  intro Hf. revert init. induction xs as [ | x rest IH]; intro init; [exact I | ].
  cbn [Js.reduce]. apply no_Error_rbind; [apply Hf | intros; apply IH].
Qed.

(** Walks through a computation built from the runtime. *)
Ltac runtime :=
  repeat first
    [ exact I
    | apply no_Error_get
    | apply no_Error_entries
    | apply no_Error_as_array
    | apply no_Error_as_string
    | apply no_Error_includes
    | apply no_Error_toFixed1
    | apply no_Error_find; intros
    | apply no_Error_some; intros
    | apply no_Error_mapM; intros
    | apply no_Error_reduce; intros
    | apply no_Error_rbind; [ | intros]
    | match goal with
      | |- no_Error (if ?b then _ else _) => destruct b
      | |- no_Error (match ?x with _ => _ end) => destruct x
      end ].

Lemma golf_advice_no_Error context :
  no_Error (GolfOperationsAgent.isVietnamLocation (Js.prop context "location")) /\
  no_Error (Outcome.golf_advice context).
Proof.
  split.
  - unfold GolfOperationsAgent.isVietnamLocation. runtime.
  - unfold Outcome.golf_advice, GolfOperationsAgent.recommendCourseSubstitution,
      GolfOperationsAgent.recommendOptimalCourse,
      GolfOperationsAgent.selectByTravelTime, GolfOperationsAgent.closest_course,
      GolfOperationsAgent.buildCourseRationale, GolfOperationsAgent.is_preferred,
      GolfOperationsAgent.name_includes.
    runtime.
Qed.

Lemma budget_no_Error context :
  no_Error
    (Js.rbind (BudgetControlAgent.collectSignals context) (fun signals =>
     Js.rbind (BudgetControlAgent.calculateVariances context) (fun variances =>
     Outcome.budget_advice context signals variances))).
Proof.
  unfold BudgetControlAgent.collectSignals, BudgetControlAgent.calculateVariances,
    BudgetControlAgent.category_variance, Outcome.budget_advice,
    BudgetControlAgent.recommendCriticalAction,
    BudgetControlAgent.recommendBudgetAdjustment,
    BudgetControlAgent.recommendPrepaidUtilization,
    BudgetControlAgent.findUnderbudgetCategories, BudgetControlAgent.buildSummary.
  runtime.
Qed.

Lemma transport_advice_no_Error context :
  no_Error (Outcome.transport_advice context).
Proof.
  unfold Outcome.transport_advice, TransportLogisticsAgent.assessBuffers,
    TransportLogisticsAgent.identifyRisks, TransportLogisticsAgent.isEarlyDeparture,
    TransportLogisticsAgent.isInternationalFlight,
    TransportLogisticsAgent.isGolfCourseTransfer,
    TransportLogisticsAgent.destination_includes, TransportLogisticsAgent.lower_opt.
  runtime.
Qed.

Lemma has_key_set field k v ps :
  has_key field (Js.set k v ps) = String.eqb field k || has_key field ps.
Proof.
  unfold has_key. induction ps as [ | [k' v'] rest IH]; cbn.
  - destruct (String.eqb field k); reflexivity.
  - destruct (String.eqb k k') eqn:E; cbn.
    + apply String.eqb_eq in E. subst k'.
      destruct (String.eqb field k); reflexivity.
    + destruct (String.eqb field k') eqn:E'; [now rewrite orb_true_r | exact IH].
Qed.

Lemma has_key_set_all field news ps :
  has_key field (Js.set_all ps news) =
  has_key field ps || existsb (fun kv => String.eqb field (fst kv)) news.
Proof.
  unfold Js.set_all. revert ps.
  induction news as [ | [k v] rest IH]; intro ps; cbn.
  - now rewrite orb_false_r.
  - rewrite IH, has_key_set. cbn.
    destruct (String.eqb field k), (has_key field ps); reflexivity.
Qed.

(** A sub-context built by spreading a context has the keys of the context
    and the keys that are added. *)
Lemma spread_is_valid self ps news requiredFields :
  forallb (fun field =>
             has_key field ps || existsb (fun kv => String.eqb field (fst kv)) news)
          requiredFields = true ->
  BaseAgent.validateContext self (Js.spread (JObj ps) news) requiredFields = Ok tt.
Proof.
  intro H. unfold Js.spread. cbn [Js.own_props].
  rewrite validateContext_object.
  replace (absent (Js.set_all ps news) requiredFields) with (@nil string);
    [reflexivity | ].
  symmetry. unfold absent.
  induction requiredFields as [ | field rest IH]; [reflexivity | ].
  cbn [forallb] in H. apply andb_true_iff in H. destruct H as [Hf Hrest].
  cbn [filter]. rewrite has_key_set_all, Hf. cbn [negb]. now apply IH.
Qed.

Lemma absent_nil_has_key ps requiredFields field :
  absent ps requiredFields = [] -> In field requiredFields -> has_key field ps = true.
Proof.
  intros H Hin. apply (proj1 (absent_nil_iff _ _)) with (field := field) in H;
    [ | exact Hin].
  destruct H as [v Hv]. unfold has_key. now rewrite Hv.
Qed.

Lemma no_Error_promise_all healthP golfP budgetP transportP :
  no_Error (Outcome.settle healthP) -> no_Error (Outcome.settle golfP) ->
  no_Error (Outcome.settle budgetP) -> no_Error (Outcome.settle transportP) ->
  no_Error (TravelExperienceAgent.promise_all healthP golfP budgetP transportP
              (Outcome.settle healthP) (Outcome.settle golfP)
              (Outcome.settle budgetP) (Outcome.settle transportP)).
Proof.
  destruct healthP as [? | [? | ?]], golfP as [? | [? | ?]],
           budgetP as [? | [? | ?]], transportP as [? | [? | ?]];
    cbn; tauto.
Qed.

Lemma no_Error_promise subContext specialist :
  no_Error subContext ->
  (forall c, subContext = Ok c -> no_Error (specialist c)) ->
  no_Error (Outcome.settle (Outcome.promise subContext specialist)).
Proof.
  intros Hsub Hspec. destruct subContext as [c | e]; cbn; [now apply Hspec | exact Hsub].
Qed.

Section OrchestratorKeys.

Variable ps : list (string * JsVal).
Hypothesis keys :
  absent ps ["tripId"; "userId"; "date"; "trip"; "currentItinerary"] = [].

Lemma envelope_keys :
  has_key "tripId" ps = true /\ has_key "userId" ps = true /\ has_key "date" ps = true.
Proof.
  repeat split; apply (absent_nil_has_key _ _ _ keys); cbn; auto.
Qed.

Lemma health_promise_no_Error : no_Error (Outcome.settle (Outcome.healthP (JObj ps))).
Proof.
  destruct envelope_keys as (Ht & Hu & Hd).
  apply no_Error_promise.
  - unfold TravelExperienceAgent.healthContext,
      TravelExperienceAgent.calculateConsecutiveActiveDays,
      TravelExperienceAgent.extractPlannedActivity.
    runtime.
  - intros c Hc. unfold TravelExperienceAgent.healthContext in Hc.
    destruct (TravelExperienceAgent.calculateConsecutiveActiveDays _); [ | discriminate].
    destruct (TravelExperienceAgent.extractPlannedActivity _); [ | discriminate].
    cbn [Js.rbind] in Hc. injection Hc as <-.
    unfold Outcome.health.
    rewrite spread_is_valid; [exact I | ].
    cbn. now rewrite Ht, Hu, Hd, ?orb_true_r.
Qed.

Lemma golf_promise_no_Error : no_Error (Outcome.settle (Outcome.golfP (JObj ps))).
Proof.
  destruct envelope_keys as (Ht & Hu & Hd).
  apply no_Error_promise.
  - unfold TravelExperienceAgent.golfContext. runtime.
  - intros c Hc. unfold TravelExperienceAgent.golfContext in Hc.
    destruct (Js.get _ _); [ | discriminate].
    cbn [Js.rbind] in Hc. injection Hc as <-.
    unfold Outcome.golf.
    rewrite spread_is_valid; [ | cbn; now rewrite Ht, Hu, Hd, ?orb_true_r].
    cbn [Js.rbind].
    apply no_Error_rbind; [apply golf_advice_no_Error | intros inVietnam].
    destruct (negb inVietnam); [exact I | apply golf_advice_no_Error].
Qed.

Lemma budget_promise_no_Error : no_Error (Outcome.settle (Outcome.budgetP (JObj ps))).
Proof.
  destruct envelope_keys as (Ht & Hu & Hd).
  apply no_Error_promise.
  - unfold TravelExperienceAgent.budgetContext,
      TravelExperienceAgent.buildCategorySpend.
    runtime.
  - intros c Hc. unfold TravelExperienceAgent.budgetContext in Hc.
    destruct (TravelExperienceAgent.buildCategorySpend _); [ | discriminate].
    cbn [Js.rbind] in Hc. injection Hc as <-.
    unfold Outcome.budget.
    rewrite spread_is_valid; [ | cbn; now rewrite Ht, Hu, Hd, ?orb_true_r].
    cbn [Js.rbind]. apply budget_no_Error.
Qed.

Lemma transport_promise_no_Error :
  no_Error (Outcome.settle (Outcome.transportP (JObj ps))).
Proof.
  destruct envelope_keys as (Ht & Hu & Hd).
  apply no_Error_promise.
  - unfold TravelExperienceAgent.transportContext. runtime.
  - intros c Hc. unfold TravelExperienceAgent.transportContext in Hc.
    destruct (Js.get _ _); [ | discriminate].
    cbn [Js.rbind] in Hc. injection Hc as <-.
    unfold Outcome.transport.
    rewrite spread_is_valid; [ | cbn; now rewrite Ht, Hu, Hd, ?orb_true_r].
    cbn [Js.rbind]. apply transport_advice_no_Error.
Qed.

Lemma orchestrator_no_Error : no_Error (Outcome.orchestrator (JObj ps)).
Proof.
  unfold Outcome.orchestrator, Outcome.reaches_fan_out.
  rewrite validateContext_object, keys. cbn [Js.rbind].
  apply no_Error_rbind; [runtime | intros _].
  apply no_Error_rbind.
  - apply no_Error_promise_all;
      auto using health_promise_no_Error, golf_promise_no_Error,
        budget_promise_no_Error, transport_promise_no_Error.
  - intros recommendations.
    unfold TravelExperienceAgent.applyCoordinationRules,
      TravelExperienceAgent.buildNominalSummary.
    runtime.
Qed.

End OrchestratorKeys.

Lemma specialists_no_Error (ps : list (string * JsVal)) :
  (absent ps ["tripId"; "userId"; "date"; "location"] = [] ->
   no_Error (Outcome.golf (JObj ps))) /\
  (absent ps ["tripId"; "userId"; "date"; "trip"; "categorySpend"] = [] ->
   no_Error (Outcome.budget (JObj ps))) /\
  (absent ps ["tripId"; "userId"; "date"; "currentLocation"] = [] ->
   no_Error (Outcome.transport (JObj ps))).
Proof.
  repeat split; intro H.
  - unfold Outcome.golf. rewrite validateContext_object, H. cbn [Js.rbind].
    apply no_Error_rbind; [apply golf_advice_no_Error | intros inVietnam].
    destruct (negb inVietnam); [exact I | apply golf_advice_no_Error].
  - unfold Outcome.budget. rewrite validateContext_object, H. cbn [Js.rbind].
    apply budget_no_Error.
  - unfold Outcome.transport. rewrite validateContext_object, H. cbn [Js.rbind].
    apply transport_advice_no_Error.
Qed.

(** The fields that the agents require of their contexts.  None of them is
    a name that an object inherits, so that the operator [in] finds one
    exactly when it is a key of the object. *)
Definition required_fields : list string :=
  ["tripId"; "userId"; "date"; "consecutiveActiveDays"; "location"; "trip";
   "categorySpend"; "currentLocation"; "currentItinerary"].

(** C10.  [validateContext] looks at the keys of the context object only.
    For the fields that the agents require, it succeeds exactly when every
    required field is a key of the object, whatever the key is bound to -- a
    key bound to [undefined] or [null] is present; otherwise it throws the
    error that names the agent and lists the absent fields.  For each of the
    five agents, [analyze] throws that error when a required key is absent;
    with their keys present the five agents throw no [Error] of their own
    (what can still go wrong is a [TypeError] of the runtime on a value of
    the wrong shape), and the Health agent goes on to a recommendation when
    the signals that it compares are absent, [null] or numbers. *)
Theorem validation_checks_key_presence :
  (forall (self : BaseAgent.Agent) (ps : list (string * JsVal))
          (requiredFields : list string),
      incl requiredFields required_fields ->
      (BaseAgent.validateContext self (JObj ps) requiredFields = Ok tt <->
       forall field, In field requiredFields -> exists v, Js.lookup field ps = Some v) /\
      (absent ps requiredFields <> [] ->
       BaseAgent.validateContext self (JObj ps) requiredFields =
       Throw (missing_error self (absent ps requiredFields)))) /\
  (forall field v ps,
      In field required_fields -> Js.lookup field (Js.set field v ps) = Some v) /\
  (forall (ps : list (string * JsVal)) (w : World),
      let context := JObj ps in
      let missing := absent ps in
      (missing ["tripId"; "userId"; "date"; "consecutiveActiveDays"] <> [] ->
       World.result (HealthRecoveryAgent.analyze context) w =
       Throw (missing_error HealthRecoveryAgent.self
                (missing ["tripId"; "userId"; "date"; "consecutiveActiveDays"]))) /\
      (missing ["tripId"; "userId"; "date"; "location"] <> [] ->
       World.result (GolfOperationsAgent.analyze context) w =
       Throw (missing_error GolfOperationsAgent.self
                (missing ["tripId"; "userId"; "date"; "location"]))) /\
      (missing ["tripId"; "userId"; "date"; "trip"; "categorySpend"] <> [] ->
       World.result (BudgetControlAgent.analyze context) w =
       Throw (missing_error BudgetControlAgent.self
                (missing ["tripId"; "userId"; "date"; "trip"; "categorySpend"]))) /\
      (missing ["tripId"; "userId"; "date"; "currentLocation"] <> [] ->
       World.result (TransportLogisticsAgent.analyze context) w =
       Throw (missing_error TransportLogisticsAgent.self
                (missing ["tripId"; "userId"; "date"; "currentLocation"]))) /\
      (missing ["tripId"; "userId"; "date"; "trip"; "currentItinerary"] <> [] ->
       World.result (TravelExperienceAgent.analyze context) w =
       Throw (missing_error TravelExperienceAgent.self
                (missing ["tripId"; "userId"; "date"; "trip"; "currentItinerary"]))) /\
      (missing ["tripId"; "userId"; "date"; "consecutiveActiveDays"] = [] ->
       measured (Js.prop context "sleepQuality") ->
       measured (Js.prop context "energyRating") ->
       measured (Js.prop context "consecutiveActiveDays") ->
       measured (Js.get_opt (Js.prop context "plannedActivity") "estimatedSteps") ->
       measured (Js.get_opt (Js.prop context "wellnessProfile") "stepsTarget") ->
       exists r, World.result (HealthRecoveryAgent.analyze context) w = Ok r) /\
      (missing ["tripId"; "userId"; "date"; "location"] = [] ->
       no_Error (World.result (GolfOperationsAgent.analyze context) w)) /\
      (missing ["tripId"; "userId"; "date"; "trip"; "categorySpend"] = [] ->
       no_Error (World.result (BudgetControlAgent.analyze context) w)) /\
      (missing ["tripId"; "userId"; "date"; "currentLocation"] = [] ->
       no_Error (World.result (TransportLogisticsAgent.analyze context) w)) /\
      (missing ["tripId"; "userId"; "date"; "trip"; "currentItinerary"] = [] ->
       no_Error (World.result (TravelExperienceAgent.analyze context) w)) /\
      (missing ["tripId"; "userId"; "date"; "consecutiveActiveDays"] = [] ->
       no_Error (World.result (HealthRecoveryAgent.analyze context) w))).
Proof.
  split.
  { intros self ps requiredFields _. rewrite validateContext_object. split.
    - rewrite <- absent_nil_iff.
      destruct (absent ps requiredFields); split; congruence.
    - destruct (absent ps requiredFields); congruence. }
  split; [intros field v ps _; apply lookup_set | ].
  intros ps w context missing.
  assert (Hthrow : forall self requiredFields,
             missing requiredFields <> [] ->
             BaseAgent.validateContext self context requiredFields =
             Throw (missing_error self (missing requiredFields))).
  { intros self requiredFields H. subst context missing.
    rewrite validateContext_object.
    destruct (absent ps requiredFields); congruence. }
  repeat split; intro H.
  - apply throws_at_validation, Hthrow, H.
  - apply throws_at_validation, Hthrow, H.
  - apply throws_at_validation, Hthrow, H.
  - apply throws_at_validation, Hthrow, H.
  - apply throws_at_validation, Hthrow, H.
  - intros _ _ _ _ _.
    rewrite (health_analyze_result context w). unfold Outcome.health.
    subst context missing. rewrite validateContext_object, H. eexists. reflexivity.
  - rewrite (golf_analyze_result context w).
    now apply (specialists_no_Error ps).
  - rewrite (budget_analyze_result context w).
    now apply (specialists_no_Error ps).
  - rewrite (transport_analyze_result context w).
    now apply (specialists_no_Error ps).
  - rewrite (orchestrator_analyze_result context w).
    now apply orchestrator_no_Error.
  - rewrite (health_analyze_result context w). unfold Outcome.health.
    subst context missing. rewrite validateContext_object, H. exact I.
Qed.

Module UndefinedField.

(** A context of the Health agent whose required [consecutiveActiveDays] is
    present and bound to [undefined], and [userId] to [null]. *)
Definition present : JsVal :=
  JObj [("tripId", JStr "trip_123");
        ("userId", JNull);
        ("date", JStr "2026-02-21");
        ("consecutiveActiveDays", JUndefined)].

(** The same context without these two keys. *)
Definition absent : JsVal :=
  JObj [("tripId", JStr "trip_123");
        ("date", JStr "2026-02-21")].

End UndefinedField.

Lemma validation_checks_key_presence_witness :
  (exists r,
      World.result (HealthRecoveryAgent.analyze UndefinedField.present) Sample.still
        = Ok r /\
      decision r = "Proceed with planned activities" /\
      Js.prop (inputSignals r) "consecutiveActiveDays" = JUndefined) /\
  World.result (HealthRecoveryAgent.analyze UndefinedField.absent) Sample.still
    = Throw (Error
        "Health & Recovery Agent missing required context fields: userId, consecutiveActiveDays").
Proof.
  destruct validation_checks_key_presence as (_ & _ & H).
  unfold UndefinedField.present, UndefinedField.absent.
  split.
  - match goal with
    | |- context [HealthRecoveryAgent.analyze (JObj ?ps)] =>
        destruct (H ps Sample.still) as (_ & _ & _ & _ & _ & Hgo & _)
    end.
    destruct Hgo as [r Hr]; try (left; reflexivity); [reflexivity | ].
    exists r. split; [exact Hr | ].
    vm_compute in Hr. injection Hr as <-. split; reflexivity.
  - match goal with
    | |- context [HealthRecoveryAgent.analyze (JObj ?ps)] =>
        destruct (H ps Sample.still) as (Hmissing & _)
    end.
    apply Hmissing. discriminate.
Defined.

(** * More of the orchestrator *)

Lemma lookup_set_other field k v ps :
  String.eqb field k = false ->
  Js.lookup field (Js.set k v ps) = Js.lookup field ps.
Proof.
  intro H. induction ps as [ | [k' x] rest IH]; cbn.
  - now rewrite H.
  - destruct (String.eqb k k') eqn:E; cbn.
    + apply String.eqb_eq in E. subst k'. now rewrite H.
    + destruct (String.eqb field k'); [reflexivity | exact IH].
Qed.

(** Reading a property off a spread. *)
Ltac read_spread :=
  unfold Js.spread, Js.set_all; cbn [fold_left fst snd Js.prop];
  repeat first
    [ rewrite lookup_set
    | rewrite lookup_set_other by reflexivity ].

Lemma health_context_fields context hc :
  TravelExperienceAgent.healthContext context = Ok hc ->
  exists days activity,
    TravelExperienceAgent.calculateConsecutiveActiveDays context = Ok days /\
    TravelExperienceAgent.extractPlannedActivity (Js.prop context "currentItinerary")
      = Ok activity /\
    Js.prop hc "sleepQuality" =
      Js.get_opt (Js.prop context "travelerFeedback") "sleepQuality" /\
    Js.prop hc "energyRating" =
      Js.get_opt (Js.prop context "travelerFeedback") "energyRating" /\
    Js.prop hc "consecutiveActiveDays" = days /\
    Js.prop hc "wellnessProfile" = Js.prop context "wellnessProfile" /\
    Js.prop hc "plannedActivity" = activity.
Proof.
  unfold TravelExperienceAgent.healthContext. intro H.
  destruct (TravelExperienceAgent.calculateConsecutiveActiveDays context)
    as [days | e]; [ | discriminate].
  destruct (TravelExperienceAgent.extractPlannedActivity _) as [activity | e];
    [ | discriminate].
  cbn [Js.rbind] in H. injection H as <-.
  exists days, activity. split; [reflexivity | ]. split; [reflexivity | ].
  repeat split; read_spread; reflexivity.
Qed.

(** ** A golf day through the orchestrator *)

(** The day has an activity in the morning or in the afternoon. *)
Definition scheduled (itinerary : JsVal) : bool :=
  let schedule := Js.prop itinerary "schedule" in
  Js.truthy (Js.get_opt (Js.prop schedule "morning") "activity") ||
  Js.truthy (Js.get_opt (Js.prop schedule "afternoon") "activity").

(** The steps target the Health agent works with. *)
Definition steps_target (context : JsVal) : JsVal :=
  Js.or_ (Js.get_opt (Js.prop context "wellnessProfile") "stepsTarget") (Js.num 8000).

Lemma planned_activity_of_golf_day itinerary activity :
  TravelExperienceAgent.extractPlannedActivity itinerary = Ok activity ->
  Js.prop itinerary "primaryIntent" = JStr "golf" ->
  scheduled itinerary = true ->
  activity = JObj [("type", JStr "golf");
                   ("physicalLoad", JStr "high");
                   ("estimatedSteps", Js.num 10000)].
Proof.
  unfold TravelExperienceAgent.extractPlannedActivity, scheduled, Js.get.
  intros H Hgolf Hs.
  destruct (Js.is_nullish itinerary); [discriminate | ]. cbn [Js.rbind] in H.
  destruct (Js.is_nullish (Js.prop itinerary "schedule")); [discriminate | ].
  cbn [Js.rbind] in H. rewrite Hgolf in H. cbn [filter] in H.
  destruct (Js.truthy (Js.get_opt (Js.prop (Js.prop itinerary "schedule") "morning")
                                  "activity"));
    destruct (Js.truthy (Js.get_opt (Js.prop (Js.prop itinerary "schedule") "afternoon")
                                    "activity"));
    try discriminate Hs; cbn in H; now injection H as <-.
Qed.

Lemma health_on_golf_day context hc :
  TravelExperienceAgent.healthContext context = Ok hc ->
  Js.prop (Js.prop context "currentItinerary") "primaryIntent" = JStr "golf" ->
  scheduled (Js.prop context "currentItinerary") = true ->
  Js.gt (Js.num 10000) (steps_target context) = true ->
  let h := Outcome.health_advice hc in
  approvalRequired h = true /\ (priority h = high \/ priority h = critical).
Proof.
  intros Hhc Hgolf Hs Ht.
  destruct (health_context_fields _ _ Hhc)
    as (days & activity & _ & Ha & _ & _ & _ & Hw & Hp).
  rewrite (planned_activity_of_golf_day _ _ Ha Hgolf Hs) in Hp.
  unfold Outcome.health_advice.
  destruct (HealthRecoveryAgent.requiresFullRestDay _); [cbn; auto | ].
  assert (E : HealthRecoveryAgent.requiresActivityModeration
                (HealthRecoveryAgent.collectSignals hc) hc = true).
  { unfold HealthRecoveryAgent.requiresActivityModeration,
      HealthRecoveryAgent.collectSignals.
    rewrite Hp, Hw. cbn. unfold steps_target in Ht. cbn in Ht. rewrite Ht.
    reflexivity. }
  rewrite E. cbn. auto.
Qed.

Lemma orchestrator_inversion context final :
  Outcome.orchestrator context = Ok final ->
  exists recommendations,
    Outcome.fan_out context = Ok recommendations /\
    TravelExperienceAgent.applyCoordinationRules recommendations context = Ok final.
Proof.
  unfold Outcome.orchestrator. intro H.
  destruct (Outcome.reaches_fan_out context); [ | discriminate].
  cbn [Js.rbind] in H.
  destruct (Outcome.fan_out context) as [recommendations | e]; [ | discriminate].
  eauto.
Qed.

Lemma health_outcome_inversion hc h :
  Outcome.health hc = Ok h -> h = Outcome.health_advice hc.
Proof.
  unfold Outcome.health. destruct (BaseAgent.validateContext _ _ _); [ | discriminate].
  cbn. congruence.
Qed.

(** X1.  A golf day never goes ahead as planned.  When the itinerary of the
    day has [golf] as its primary intent and an activity in the morning or
    in the afternoon, the orchestrator hands the Health agent a planned
    activity of 10000 steps; unless the steps target of the wellness
    profile (8000 when there is none) is at least 10000, the Health agent
    asks for a rest day or for moderation, and whenever the orchestrator
    returns a recommendation it is the health override, which requires
    approval and has priority high or critical. *)
Theorem golf_day_is_overridden :
  forall (context : JsVal) (w : World) (final : AgentRecommendation),
    let itinerary := Js.prop context "currentItinerary" in
    Js.prop itinerary "primaryIntent" = JStr "golf" ->
    scheduled itinerary = true ->
    Js.gt (Js.num 10000) (steps_target context) = true ->
    World.result (TravelExperienceAgent.analyze context) w = Ok final ->
    decision final = "Health priority override" /\
    approvalRequired final = true /\
    (priority final = high \/ priority final = critical).
Proof.
  intros context w final itinerary Hgolf Hs Ht Hfinal.
  rewrite (orchestrator_analyze_result context w) in Hfinal.
  destruct (orchestrator_inversion _ _ Hfinal) as (recommendations & Hfan & Hrule).
  destruct (fan_out_settled _ _ Hfan) as (Hh & _).
  apply settled_promise in Hh. destruct Hh as (hc & Hhc & Hh).
  apply health_outcome_inversion in Hh.
  destruct (health_on_golf_day _ _ Hhc Hgolf Hs Ht) as (Happroval & Hpriority).
  rewrite <- Hh in Happroval, Hpriority.
  destruct (health_rule recommendations context) as (final' & E & Hd & _ & _ & Ha & Hp).
  { destruct Hpriority; auto. }
  rewrite Hrule in E. injection E as <-.
  rewrite Ha, Hp. auto.
Qed.

(** ** The budget the orchestrator hands over *)

(** The spend record [buildCategorySpend] writes for a category: what was
    planned, and nothing spent. *)
Definition unspent (planned : JsVal) : JsVal :=
  JObj [("planned", Js.or_ planned (Js.num 0)); ("actual", Js.num 0)].

Lemma ToPrimitive_idempotent v : Js.ToPrimitive (Js.ToPrimitive v) = Js.ToPrimitive v.
Proof. destruct v; reflexivity. Qed.

Lemma ToNumber_ToPrimitive v : Js.ToNumber (Js.ToPrimitive v) = Js.ToNumber v.
Proof. unfold Js.ToNumber. now rewrite ToPrimitive_idempotent. Qed.

Lemma gt_zero_number v :
  Js.gt v (Js.num 0) = JsNumber.lt (JsNumber.of_Z 0) (Js.ToNumber v).
Proof.
  unfold Js.gt, Js.lt. cbn [Js.ToPrimitive Js.num].
  rewrite ToNumber_ToPrimitive. reflexivity.
Qed.

(** Nothing spent of a positive amount is a variance of -100%. *)
Lemma unspent_ratio (n : number) (threshold : Q) :
  (0 <= threshold)%Q ->
  JsNumber.lt (JsNumber.of_Z 0) n = true ->
  JsNumber.gt (JsNumber.div (JsNumber.sub (JsNumber.of_Z 0) n) n) (Fin threshold) = false.
Proof.
  intros Ht Hpos. destruct n as [ | | | q]; try discriminate; [reflexivity | ].
  apply Qlt_bool_iff in Hpos. change (inject_Z 0) with 0%Q in Hpos.
  unfold JsNumber.sub, JsNumber.neg, JsNumber.add, JsNumber.of_Z, JsNumber.div,
    JsNumber.is_zero.
  destruct (Qeq_bool q 0) eqn:E.
  { apply Qeq_bool_iff in E. rewrite E in Hpos. now apply Qlt_irrefl in Hpos. }
  unfold JsNumber.gt, JsNumber.lt. apply Qlt_bool_false_iff.
  rewrite !Qred_correct. change (inject_Z 0) with 0%Q.
  assert (Hq : ~ (q == 0)%Q) by (intro Hz; rewrite Hz in Hpos; now apply Qlt_irrefl in Hpos).
  assert (Hm : ((0 + - q) / q == - (1))%Q) by (field; exact Hq).
  rewrite Hm. apply Qle_trans with 0%Q; [discriminate | exact Ht].
Qed.

Lemma unspent_variance category planned :
  exists v,
    BudgetControlAgent.category_variance (category, unspent planned) = Ok v /\
    JsNumber.gt (BudgetControlAgent.variancePercent v)
                BudgetControlAgent.ALERT_THRESHOLD = false /\
    JsNumber.gt (BudgetControlAgent.variancePercent v)
                BudgetControlAgent.CRITICAL_THRESHOLD = false.
Proof.
  unfold BudgetControlAgent.category_variance, unspent.
  cbn [Js.get Js.is_nullish Js.rbind Js.prop Js.lookup String.eqb Ascii.eqb Bool.eqb].
  eexists. split; [reflexivity | ]. cbn [BudgetControlAgent.variancePercent].
  rewrite gt_zero_number.
  destruct (JsNumber.lt (JsNumber.of_Z 0) (Js.ToNumber (Js.or_ planned (Js.num 0))))
    eqn:Hpos.
  - unfold Js.sub. change (Js.ToNumber (Js.num 0)) with (JsNumber.of_Z 0).
    split; apply unspent_ratio; try exact Hpos; discriminate.
  - split; reflexivity.
Qed.

Definition all_unspent (ps : list (string * JsVal)) : Prop :=
  Forall (fun kv => exists planned, snd kv = unspent planned) ps.

Lemma set_unspent category planned ps :
  all_unspent ps -> all_unspent (Js.set category (unspent planned) ps).
Proof.
  intro H. induction H as [ | [k v] rest Hv Hrest IH]; cbn.
  - constructor; [cbn; eauto | constructor].
  - destruct (String.eqb category k).
    + constructor; [cbn; eauto | exact Hrest].
    + constructor; [exact Hv | exact IH].
Qed.

Lemma buildCategorySpend_unspent trip categorySpend :
  TravelExperienceAgent.buildCategorySpend trip = Ok categorySpend ->
  exists ps, categorySpend = JObj ps /\ all_unspent ps.
Proof.
  unfold TravelExperienceAgent.buildCategorySpend. intro H.
  destruct (Js.get trip "budget") as [budget | e]; [ | discriminate].
  cbn [Js.rbind] in H.
  destruct (Js.get budget "categories") as [categories | e]; [ | discriminate].
  cbn [Js.rbind] in H.
  destruct (Js.entries categories) as [planned_by_category | e]; [ | discriminate].
  cbn [Js.rbind] in H. injection H as <-.
  eexists. split; [reflexivity | ].
  assert (G : forall acc, all_unspent acc ->
            all_unspent
              (fold_left
                 (fun acc '(category, planned) =>
                    Js.set category
                      (JObj [("planned", Js.or_ planned (Js.num 0));
                             ("actual", Js.num 0)]) acc)
                 planned_by_category acc)).
  { induction planned_by_category as [ | [category planned] rest IH]; intros acc Hacc.
    - exact Hacc.
    - cbn [fold_left]. apply IH. apply (set_unspent category planned _ Hacc). }
  apply G. constructor.
Qed.

Lemma unspent_variances ps :
  all_unspent ps ->
  exists variances,
    Js.mapM BudgetControlAgent.category_variance ps = Ok variances /\
    BudgetControlAgent.findOverruns variances = [] /\
    BudgetControlAgent.findCriticalOverruns variances = [].
Proof.
  intro H. induction H as [ | [category spend] rest (planned & Hv) Hrest IH].
  - exists []. repeat split.
  - cbn in Hv. subst spend.
    destruct IH as (variances & Hm & Ho & Hc).
    destruct (unspent_variance category planned) as (v & Ev & Ha & Hcr).
    exists (v :: variances). cbn [Js.mapM]. rewrite Ev. cbn [Js.rbind].
    rewrite Hm. cbn [Js.rbind]. split; [reflexivity | ].
    unfold BudgetControlAgent.findOverruns, BudgetControlAgent.findCriticalOverruns
      in *.
    cbn [filter]. rewrite Ha, Hcr. auto.
Qed.

(** What the Budget agent answers when no category is over. *)
Definition within_budget (b : AgentRecommendation) : Prop :=
  (decision b = "Unused prepaid value detected" /\ priority b = medium \/
   decision b = "Budget on track - no adjustments needed" /\ priority b = low) /\
  approvalRequired b = false.

Lemma budget_of_orchestrator context bc b :
  TravelExperienceAgent.budgetContext context = Ok bc ->
  Outcome.budget bc = Ok b ->
  within_budget b.
Proof.
  unfold TravelExperienceAgent.budgetContext. intros Hbc Hb.
  destruct (TravelExperienceAgent.buildCategorySpend _) as [categorySpend | e] eqn:Hs;
    [ | discriminate].
  cbn [Js.rbind] in Hbc. injection Hbc as <-.
  destruct (buildCategorySpend_unspent _ _ Hs) as (ps & -> & Hps).
  destruct (unspent_variances ps Hps) as (variances & Hm & Ho & Hc).
  unfold Outcome.budget in Hb.
  destruct (BaseAgent.validateContext _ _ _); [ | discriminate].
  cbn [Js.rbind] in Hb.
  destruct (BudgetControlAgent.collectSignals _) as [signals | e]; [ | discriminate].
  cbn [Js.rbind] in Hb.
  unfold BudgetControlAgent.calculateVariances in Hb.
  replace (Js.prop (Js.spread context _) "categorySpend") with (JObj ps) in Hb
    by (read_spread; reflexivity).
  cbn [Js.entries Js.is_nullish Js.own_props Js.rbind] in Hb.
  rewrite Hm in Hb. cbn [Js.rbind] in Hb.
  unfold Outcome.budget_advice in Hb. rewrite Hc, Ho in Hb. cbn [List.length Nat.ltb Nat.leb] in Hb.
  destruct (_ && _) in Hb.
  - unfold BudgetControlAgent.recommendPrepaidUtilization in Hb.
    destruct (Js.as_array _ _); [ | discriminate]. cbn [Js.rbind] in Hb.
    destruct (Js.reduce _ _ _); [ | discriminate]. cbn [Js.rbind] in Hb.
    injection Hb as <-. split; [left; split; reflexivity | reflexivity].
  - destruct (BudgetControlAgent.buildSummary _ _); [ | discriminate].
    cbn [Js.rbind] in Hb. injection Hb as <-.
    split; [right; split; reflexivity | reflexivity].
Qed.

(** ** The golf context the orchestrator hands over *)

Lemma golf_context_fields context gc :
  TravelExperienceAgent.golfContext context = Ok gc ->
  Js.prop gc "consecutiveGolfDays" = Js.num 0 /\
  Js.prop gc "availableCourses" = JArr [] /\
  Js.prop gc "weatherForecast" = Js.prop context "weather" /\
  Js.prop gc "energyLevel" =
    Js.get_opt (Js.prop context "travelerFeedback") "energyRating" /\
  Js.get (Js.prop context "currentItinerary") "location" = Ok (Js.prop gc "location").
Proof.
  unfold TravelExperienceAgent.golfContext. intro H.
  destruct (Js.get _ _) as [location | e]; [ | discriminate].
  cbn [Js.rbind] in H. injection H as <-.
  repeat split; read_spread; reflexivity.
Qed.

(** What the Golf agent can answer when it is given no course and no
    round has been played. *)
Definition without_courses (g : AgentRecommendation) : Prop :=
  (decision g = "No golf operations - outside Vietnam" /\
   priority g = low /\ approvalRequired g = false /\ outputActions g = []) \/
  (decision g = "Substitute golf course due to weather" /\
   priority g = high /\ approvalRequired g = true /\
   (outputActions g = ["Convert to spa day or cultural activity";
                       "Reschedule golf to later in week"] \/
    outputActions g = ["Very early tee time (before 7am)";
                       "Extended midpoint break for hydration"] \/
    outputActions g = [])) \/
  (decision g = "No course recommendation - insufficient data" /\
   priority g = low /\ approvalRequired g = false /\ outputActions g = []).

Lemma golf_of_orchestrator context gc g :
  TravelExperienceAgent.golfContext context = Ok gc ->
  Outcome.golf gc = Ok g ->
  without_courses g.
Proof.
  intros Hgc Hg.
  destruct (golf_context_fields _ _ Hgc) as (Hdays & Hcourses & _).
  unfold Outcome.golf in Hg.
  destruct (BaseAgent.validateContext _ _ _); [ | discriminate].
  cbn [Js.rbind] in Hg.
  destruct (GolfOperationsAgent.isVietnamLocation _) as [[ | ] | e]; [ | | discriminate];
    cbn [Js.rbind negb] in Hg.
  2: { injection Hg as <-. left. repeat split. }
  unfold Outcome.golf_advice in Hg.
  assert (Hskip : GolfOperationsAgent.shouldSkipGolf
                    (GolfOperationsAgent.collectSignals gc) = false).
  { unfold GolfOperationsAgent.shouldSkipGolf, GolfOperationsAgent.collectSignals.
    cbn [Js.prop Js.lookup String.eqb Ascii.eqb Bool.eqb]. rewrite Hdays. reflexivity. }
  rewrite Hskip in Hg.
  destruct (GolfOperationsAgent.shouldSubstituteCourse _ _).
  - right; left.
    unfold GolfOperationsAgent.recommendCourseSubstitution in Hg.
    rewrite Hcourses in Hg.
    destruct (_ && _) in Hg.
    + cbn in Hg. injection Hg as <-. repeat split. left. reflexivity.
    + destruct (Js.gt _ _) in Hg.
      * cbn in Hg. injection Hg as <-. repeat split. right; left. reflexivity.
      * cbn in Hg. injection Hg as <-. repeat split. right; right. reflexivity.
  - right; right.
    unfold GolfOperationsAgent.recommendOptimalCourse in Hg.
    rewrite Hcourses in Hg. cbn in Hg. injection Hg as <-. repeat split.
Qed.

(** ** The answers of the orchestrator *)

Definition health_override (final : AgentRecommendation) : Prop :=
  decision final = "Health priority override" /\
  approvalRequired final = true /\
  (priority final = high \/ priority final = critical).

Definition golf_adjustment (final : AgentRecommendation) : Prop :=
  decision final = "Golf activity adjustment recommended" /\
  approvalRequired final = true /\
  priority final = high.

Definition nominal (final : AgentRecommendation) : Prop :=
  decision final = "Proceed with planned itinerary" /\
  approvalRequired final = false /\
  priority final = low.

Lemma coordination_of_orchestrator recommendations context final :
  consistent (TravelExperienceAgent.health recommendations) ->
  without_courses (TravelExperienceAgent.golf recommendations) ->
  within_budget (TravelExperienceAgent.budget recommendations) ->
  calm (TravelExperienceAgent.transport recommendations) ->
  TravelExperienceAgent.applyCoordinationRules recommendations context = Ok final ->
  health_override final \/ golf_adjustment final \/ nominal final.
Proof.
  intros Hh Hg Hb (_ & Ht1 & Ht2) Hfinal.
  unfold TravelExperienceAgent.applyCoordinationRules in Hfinal.
  destruct (TravelExperienceAgent.is_critical_or_high
              (priority (TravelExperienceAgent.health recommendations))) eqn:Eh.
  { injection Hfinal as <-. left. unfold consistent, approval_consistent in Hh.
    rewrite Eh in Hh. cbn in Hh. repeat split; [exact Hh | ]. cbn.
    destruct (priority (TravelExperienceAgent.health recommendations));
      try discriminate; auto. }
  destruct (TravelExperienceAgent.is_critical_or_high
              (priority (TravelExperienceAgent.transport recommendations))) eqn:Et.
  { destruct (priority (TravelExperienceAgent.transport recommendations));
      try discriminate; contradiction. }
  destruct (TravelExperienceAgent.is_critical
              (priority (TravelExperienceAgent.budget recommendations))) eqn:Eb.
  { destruct Hb as ([(_ & Hp) | (_ & Hp)] & _); rewrite Hp in Eb; discriminate. }
  destruct (approvalRequired (TravelExperienceAgent.golf recommendations)) eqn:Eg.
  { injection Hfinal as <-. right; left.
    destruct Hg as [(_ & _ & Ha & _) | [(_ & Hp & _) | (_ & _ & Ha & _)]];
      try congruence.
    repeat split. exact Hp. }
  destruct (TravelExperienceAgent.buildNominalSummary context); [ | discriminate].
  injection Hfinal as <-. right; right. repeat split.
Qed.

Module GolfDay.

(** A golf day in Da Nang after a good night, with no wellness profile. *)
Definition context : JsVal :=
  JObj (Sample.envelope ++
        [("trip", Sample.trip);
         ("currentItinerary", Sample.golf_day);
         ("travelerFeedback",
           JObj [("energyRating", Js.num 4); ("sleepQuality", Js.num 4)])])%list.

End GolfDay.

Module CultureDay.

Definition kyoto : JsVal :=
  JObj [("date", JStr "2026-03-02");
        ("location", JStr "Kyoto, Japan");
        ("primaryIntent", JStr "culture");
        ("schedule", JObj [("morning", JObj [("activity", JStr "Temple visit")])])].

(** A day of culture in Kyoto after a good night. *)
Definition context : JsVal :=
  JObj (Sample.envelope ++
        [("trip", Sample.trip);
         ("currentItinerary", kyoto);
         ("travelerFeedback",
           JObj [("energyRating", Js.num 4); ("sleepQuality", Js.num 4)])])%list.

End CultureDay.

Lemma golf_day_is_overridden_witness :
  exists final,
    World.result (TravelExperienceAgent.analyze GolfDay.context) Sample.still = Ok final /\
    decision final = "Health priority override" /\
    approvalRequired final = true /\
    priority final = high.
Proof.
  destruct (World.result (TravelExperienceAgent.analyze GolfDay.context) Sample.still)
    as [final | e] eqn:Hfinal; [ | vm_compute in Hfinal; discriminate].
  exists final. split; [reflexivity | ].
  destruct (golf_day_is_overridden GolfDay.context Sample.still final)
    as (Hd & Ha & _).
  - reflexivity.
  - reflexivity.
  - reflexivity.
  - exact Hfinal.
  - split; [exact Hd | ]. split; [exact Ha | ].
    vm_compute in Hfinal. injection Hfinal as <-. reflexivity.
Defined.

(** X2.  Through the orchestrator no category is ever over budget.  The
    category spend the orchestrator builds from the trip records nothing as
    spent, so the Budget agent it calls finds no overrun: whenever it
    answers, it reports unused prepaid value (priority medium) or a budget
    on track (priority low), and never asks for approval. *)
Theorem orchestrator_budget_is_never_over :
  forall (context bc : JsVal) (b : AgentRecommendation) (w : World),
    TravelExperienceAgent.budgetContext context = Ok bc ->
    World.result (BudgetControlAgent.analyze bc) w = Ok b ->
    within_budget b.
Proof.
  intros context bc b w Hbc Hb. rewrite (budget_analyze_result bc w) in Hb.
  exact (budget_of_orchestrator _ _ _ Hbc Hb).
Qed.

Lemma orchestrator_budget_is_never_over_witness :
  exists bc b,
    TravelExperienceAgent.budgetContext GolfDay.context = Ok bc /\
    World.result (BudgetControlAgent.analyze bc) Sample.still = Ok b /\
    decision b = "Budget on track - no adjustments needed" /\
    within_budget b.
Proof.
  destruct (TravelExperienceAgent.budgetContext GolfDay.context) as [bc | e] eqn:Hbc;
    [ | vm_compute in Hbc; discriminate].
  destruct (World.result (BudgetControlAgent.analyze bc) Sample.still)
    as [b | e] eqn:Hb;
    [ | vm_compute in Hbc; injection Hbc as <-; vm_compute in Hb; discriminate].
  exists bc, b. split; [reflexivity | ]. split; [exact Hb | ].
  split.
  - vm_compute in Hbc. injection Hbc as <-.
    vm_compute in Hb. injection Hb as <-. reflexivity.
  - exact (orchestrator_budget_is_never_over GolfDay.context bc b Sample.still Hbc Hb).
Defined.

(** X3.  Through the orchestrator the Golf agent never proposes a course.
    The golf context the orchestrator builds has no available course and no
    golf day behind it, whatever the caller's context holds under these
    keys.  So the Golf agent it calls never skips golf and never books a tee
    time: whenever it answers, it is outside Vietnam, or it has no course to
    recommend, or it asks for a substitution on account of the weather,
    whose actions are then those for rain, those for heat without the Ba Na
    Hills course, or none at all. *)
Theorem orchestrator_golf_has_no_course :
  forall (context gc : JsVal) (g : AgentRecommendation) (w : World),
    TravelExperienceAgent.golfContext context = Ok gc ->
    World.result (GolfOperationsAgent.analyze gc) w = Ok g ->
    without_courses g.
Proof.
  intros context gc g w Hgc Hg. rewrite (golf_analyze_result gc w) in Hg.
  exact (golf_of_orchestrator _ _ _ Hgc Hg).
Qed.

Lemma orchestrator_golf_has_no_course_witness :
  exists gc g,
    TravelExperienceAgent.golfContext GolfDay.context = Ok gc /\
    World.result (GolfOperationsAgent.analyze gc) Sample.still = Ok g /\
    decision g = "No course recommendation - insufficient data" /\
    without_courses g.
Proof.
  destruct (TravelExperienceAgent.golfContext GolfDay.context) as [gc | e] eqn:Hgc;
    [ | vm_compute in Hgc; discriminate].
  destruct (World.result (GolfOperationsAgent.analyze gc) Sample.still)
    as [g | e] eqn:Hg;
    [ | vm_compute in Hgc; injection Hgc as <-; vm_compute in Hg; discriminate].
  exists gc, g. split; [reflexivity | ]. split; [exact Hg | ].
  split.
  - vm_compute in Hgc. injection Hgc as <-.
    vm_compute in Hg. injection Hg as <-. reflexivity.
  - exact (orchestrator_golf_has_no_course GolfDay.context gc g Sample.still Hgc Hg).
Defined.

(** X4.  The orchestrator has three answers.  Whenever [analyze] of the
    orchestrator returns a recommendation, it is the health override
    (approval required, priority high or critical), or the golf adjustment
    (approval required, priority high), or the nominal "Proceed with planned
    itinerary" (no approval, priority low).  Its two other rules, the
    logistics override and the budget intervention, are never applied: the
    Transport agent never returns a priority high or critical, and the
    Budget agent called by the orchestrator never a priority critical. *)
Theorem orchestrator_has_three_answers :
  forall (context : JsVal) (w : World) (final : AgentRecommendation),
    World.result (TravelExperienceAgent.analyze context) w = Ok final ->
    health_override final \/ golf_adjustment final \/ nominal final.
Proof.
  intros context w final Hfinal.
  rewrite (orchestrator_analyze_result context w) in Hfinal.
  destruct (orchestrator_inversion _ _ Hfinal) as (recommendations & Hfan & Hrule).
  destruct (fan_out_settled _ _ Hfan) as (Hh & Hg & Hb & Ht).
  apply settled_promise in Hh, Hg, Hb, Ht.
  destruct Hh as (hc & _ & Hh). destruct Hg as (gc & Hgc & Hg).
  destruct Hb as (bc & Hbc & Hb). destruct Ht as (tc & _ & Ht).
  apply (coordination_of_orchestrator recommendations context final).
  - pose proof (health_outcome_consistent hc) as H. now rewrite Hh in H.
  - exact (golf_of_orchestrator _ _ _ Hgc Hg).
  - exact (budget_of_orchestrator _ _ _ Hbc Hb).
  - pose proof (transport_outcome_calm tc) as H. now rewrite Ht in H.
  - exact Hrule.
Qed.

Lemma orchestrator_has_three_answers_witness :
  exists final,
    World.result (TravelExperienceAgent.analyze CultureDay.context) Sample.still
      = Ok final /\
    nominal final.
Proof.
  destruct (World.result (TravelExperienceAgent.analyze CultureDay.context) Sample.still)
    as [final | e] eqn:Hfinal; [ | vm_compute in Hfinal; discriminate].
  exists final. split; [reflexivity | ].
  destruct (orchestrator_has_three_answers CultureDay.context Sample.still final Hfinal)
    as [(Hd & _) | [(Hd & _) | H]]; [exfalso | exfalso | exact H];
    vm_compute in Hfinal; injection Hfinal as <-; discriminate Hd.
Defined.

(** ** The health context the orchestrator hands over *)

(** The ratings of the traveller call for rest: sleep below 3, or energy
    below 2; a rating of 0 counts as not given. *)
Definition low_ratings (context : JsVal) : bool :=
  let feedback := Js.prop context "travelerFeedback" in
  let sleepQuality := Js.get_opt feedback "sleepQuality" in
  let energyRating := Js.get_opt feedback "energyRating" in
  (Js.truthy sleepQuality && Js.lt sleepQuality (Js.num 3)) ||
  (Js.truthy energyRating && Js.lt energyRating (Js.num 2)).

Lemma estimated_active_days context days :
  TravelExperienceAgent.calculateConsecutiveActiveDays context = Ok days ->
  days = Js.num 0 \/ days = Js.num 1.
Proof.
  unfold TravelExperienceAgent.calculateConsecutiveActiveDays.
  destruct (Js.get _ _) as [intent | e]; [ | discriminate].
  cbn [Js.rbind]. destruct (Js.is_str intent "recovery"); intro H; injection H; auto.
Qed.

Lemma rest_of_orchestrator context hc :
  TravelExperienceAgent.healthContext context = Ok hc ->
  HealthRecoveryAgent.requiresFullRestDay (HealthRecoveryAgent.collectSignals hc)
  = low_ratings context.
Proof.
  intro Hhc.
  destruct (health_context_fields _ _ Hhc)
    as (days & activity & Hdays & _ & Hs & He & Hd & _).
  unfold HealthRecoveryAgent.requiresFullRestDay, HealthRecoveryAgent.collectSignals,
    low_ratings.
  cbn [Js.prop Js.lookup String.eqb Ascii.eqb Bool.eqb].
  rewrite Hs, He, Hd.
  destruct (estimated_active_days _ _ Hdays) as [-> | ->];
    change (Js.ge (Js.num 0) (Js.num 5)) with false;
    change (Js.ge (Js.num 1) (Js.num 5)) with false;
    now rewrite orb_false_r.
Qed.

(** A rating that is given, is not 0 and is below [bound]. *)
Definition below (bound : Z) (v : JsVal) : Prop :=
  exists q, v = JNum (Fin q) /\ ~ (q == 0)%Q /\ (q < inject_Z bound)%Q.

Lemma below_iff (bound : Z) (v : JsVal) :
  measured v ->
  Js.truthy v && Js.lt v (Js.num bound) = true <-> below bound v.
Proof.
  intros [-> | [-> | (q & ->)]].
  - split; [discriminate | intros (q & E & _); discriminate].
  - split; [discriminate | intros (q & E & _); discriminate].
  - rewrite andb_true_iff, js_truthy_num.
    change (Js.num bound) with (JNum (Fin (inject_Z bound))). rewrite js_lt_num.
    split.
    + intros (Hz & Hlt). exists q. auto.
    + intros (q' & E & Hz & Hlt). injection E as <-. auto.
Qed.

Lemma low_ratings_iff (context : JsVal) :
  let feedback := Js.prop context "travelerFeedback" in
  measured (Js.get_opt feedback "sleepQuality") ->
  measured (Js.get_opt feedback "energyRating") ->
  low_ratings context = true <->
  below 3 (Js.get_opt feedback "sleepQuality") \/
  below 2 (Js.get_opt feedback "energyRating").
Proof.
  intros feedback Hs He. unfold low_ratings. fold feedback.
  rewrite orb_true_iff, (below_iff 3 _ Hs), (below_iff 2 _ He). reflexivity.
Qed.

(** X5.  The orchestrator estimates the consecutive active days as 0 on a
    recovery day and 1 otherwise, so the Health agent it calls never sees five
    active days in a row.  When the ratings of the traveller's feedback are
    absent, [null] or numbers, whenever that agent answers, it cancels the
    day for a full rest exactly when the sleep quality is a number other
    than 0 below 3, or the energy rating a number other than 0 below 2: a
    rating of 0 counts as not given. *)
Theorem orchestrator_rest_day_comes_from_ratings :
  forall (context hc : JsVal) (h : AgentRecommendation) (w : World),
    let feedback := Js.prop context "travelerFeedback" in
    TravelExperienceAgent.healthContext context = Ok hc ->
    World.result (HealthRecoveryAgent.analyze hc) w = Ok h ->
    measured (Js.get_opt feedback "sleepQuality") ->
    measured (Js.get_opt feedback "energyRating") ->
    (Js.prop hc "consecutiveActiveDays" = Js.num 0 \/
     Js.prop hc "consecutiveActiveDays" = Js.num 1) /\
    (decision h = "Cancel all planned activities - full rest day required" <->
     below 3 (Js.get_opt feedback "sleepQuality") \/
     below 2 (Js.get_opt feedback "energyRating")).
Proof.
  intros context hc h w feedback Hhc Hh Hsleep Henergy.
  rewrite (health_analyze_result hc w) in Hh. apply health_outcome_inversion in Hh.
  split.
  - destruct (health_context_fields _ _ Hhc) as (days & ? & Hdays & _ & _ & _ & -> & _).
    exact (estimated_active_days _ _ Hdays).
  - unfold feedback in *. clear feedback.
    rewrite <- (low_ratings_iff context Hsleep Henergy).
    rewrite <- (rest_of_orchestrator _ _ Hhc). subst h. unfold Outcome.health_advice.
    destruct (HealthRecoveryAgent.requiresFullRestDay _); [split; reflexivity | ].
    split; [ | discriminate].
    destruct (HealthRecoveryAgent.requiresActivityModeration _ _); [discriminate | ].
    destruct (HealthRecoveryAgent.shouldInsertWellnessActivity _); discriminate.
Qed.

Lemma orchestrator_rest_day_comes_from_ratings_witness :
  exists hc h,
    TravelExperienceAgent.healthContext Sample.poor_sleep_day = Ok hc /\
    World.result (HealthRecoveryAgent.analyze hc) Sample.still = Ok h /\
    Js.prop hc "consecutiveActiveDays" = Js.num 1 /\
    decision h = "Cancel all planned activities - full rest day required".
Proof.
  destruct (TravelExperienceAgent.healthContext Sample.poor_sleep_day)
    as [hc | e] eqn:Hhc; [ | vm_compute in Hhc; discriminate].
  destruct (World.result (HealthRecoveryAgent.analyze hc) Sample.still)
    as [h | e] eqn:Hh;
    [ | vm_compute in Hhc; injection Hhc as <-; vm_compute in Hh; discriminate].
  exists hc, h. split; [reflexivity | ]. split; [exact Hh | ].
  destruct (orchestrator_rest_day_comes_from_ratings
              Sample.poor_sleep_day hc h Sample.still Hhc Hh) as (_ & Hrest).
  - right. right. exists 2%Q. reflexivity.
  - right. right. exists 3%Q. reflexivity.
  - split; [vm_compute in Hhc; injection Hhc as <-; reflexivity | ].
    apply Hrest. left. exists 2%Q. split; [reflexivity | ].
    split; [discriminate | reflexivity].
Defined.

(** * More of the Health agent *)

(** Two recommendations that say the same, whatever signals they quote. *)
Definition same_advice (r r' : AgentRecommendation) : Prop :=
  decision r = decision r' /\
  rationale r = rationale r' /\
  outputActions r = outputActions r' /\
  approvalRequired r = approvalRequired r' /\
  priority r = priority r'.

(** Two contexts with the same ratings, count of active days, planned
    activity and steps target. *)
Definition same_health_signals (c c' : JsVal) : Prop :=
  Js.prop c "sleepQuality" = Js.prop c' "sleepQuality" /\
  Js.prop c "energyRating" = Js.prop c' "energyRating" /\
  Js.prop c "consecutiveActiveDays" = Js.prop c' "consecutiveActiveDays" /\
  Js.prop c "plannedActivity" = Js.prop c' "plannedActivity" /\
  Js.get_opt (Js.prop c "wellnessProfile") "stepsTarget" =
  Js.get_opt (Js.prop c' "wellnessProfile") "stepsTarget".

Ltac read_signals :=
  unfold HealthRecoveryAgent.collectSignals;
  cbn [Js.prop Js.lookup String.eqb Ascii.eqb Bool.eqb].

Lemma health_advice_of_signals c c' :
  same_health_signals c c' ->
  same_advice (Outcome.health_advice c) (Outcome.health_advice c').
Proof.
  intros (Hs & He & Hd & Hp & Ht). unfold Outcome.health_advice. cbv zeta.
  assert (E1 : HealthRecoveryAgent.requiresFullRestDay
                 (HealthRecoveryAgent.collectSignals c) =
               HealthRecoveryAgent.requiresFullRestDay
                 (HealthRecoveryAgent.collectSignals c')).
  { unfold HealthRecoveryAgent.requiresFullRestDay. read_signals.
    now rewrite Hs, He, Hd. }
  assert (E2 : HealthRecoveryAgent.requiresActivityModeration
                 (HealthRecoveryAgent.collectSignals c) c =
               HealthRecoveryAgent.requiresActivityModeration
                 (HealthRecoveryAgent.collectSignals c') c').
  { unfold HealthRecoveryAgent.requiresActivityModeration. read_signals.
    now rewrite He, Hd, Hp, Ht. }
  assert (E3 : HealthRecoveryAgent.shouldInsertWellnessActivity
                 (HealthRecoveryAgent.collectSignals c) =
               HealthRecoveryAgent.shouldInsertWellnessActivity
                 (HealthRecoveryAgent.collectSignals c')).
  { unfold HealthRecoveryAgent.shouldInsertWellnessActivity. read_signals.
    now rewrite Hs, He, Hd. }
  rewrite E1, E2, E3. clear E1 E2 E3.
  destruct (HealthRecoveryAgent.requiresFullRestDay
              (HealthRecoveryAgent.collectSignals c')).
  { unfold HealthRecoveryAgent.recommendFullRestDay, same_advice. read_signals.
    cbn [decision rationale outputActions approvalRequired priority
         BaseAgent.createRecommendation BaseAgent.opt_approvalRequired
         BaseAgent.opt_priority].
    rewrite Hs, He, Hd. repeat split. }
  destruct (HealthRecoveryAgent.requiresActivityModeration
              (HealthRecoveryAgent.collectSignals c') c').
  { unfold HealthRecoveryAgent.recommendActivityModeration, same_advice. read_signals.
    cbn [decision rationale outputActions approvalRequired priority
         BaseAgent.createRecommendation BaseAgent.opt_approvalRequired
         BaseAgent.opt_priority].
    rewrite He, Hd, Hp, Ht. repeat split. }
  destruct (HealthRecoveryAgent.shouldInsertWellnessActivity
              (HealthRecoveryAgent.collectSignals c')); repeat split.
Qed.

Lemma environmental_stress_is_not_a_signal ps stress :
  same_health_signals (JObj ps) (JObj (Js.set "environmentalStress" stress ps)).
Proof.
  unfold same_health_signals. cbn [Js.prop].
  rewrite !lookup_set_other by reflexivity. repeat split.
Qed.

(** X6.  The recommendation of the Health agent depends on five signals
    only: the two ratings, the count of consecutive active days, the planned
    activity and the steps target of the wellness profile.  Two contexts
    that agree on them get the same decision, rationale, actions, approval
    flag and priority.  The environmental stress (heat, humidity, travel)
    is not one of them: it raises the risk level that is logged, and never
    changes what is recommended. *)
Theorem health_advice_depends_on_five_signals :
  (forall (c c' : JsVal) (w w' : World) (r r' : AgentRecommendation),
      same_health_signals c c' ->
      World.result (HealthRecoveryAgent.analyze c) w = Ok r ->
      World.result (HealthRecoveryAgent.analyze c') w' = Ok r' ->
      same_advice r r') /\
  (forall (ps : list (string * JsVal)) (stress : JsVal) (w w' : World)
          (r : AgentRecommendation),
      World.result (HealthRecoveryAgent.analyze (JObj ps)) w = Ok r ->
      exists r',
        World.result
          (HealthRecoveryAgent.analyze (JObj (Js.set "environmentalStress" stress ps))) w'
          = Ok r' /\
        same_advice r r').
Proof.
  split.
  - intros c c' w w' r r' Hsame Hr Hr'.
    rewrite (health_analyze_result c w) in Hr.
    rewrite (health_analyze_result c' w') in Hr'.
    apply health_outcome_inversion in Hr, Hr'. subst r r'.
    now apply health_advice_of_signals.
  - intros ps stress w w' r Hr.
    rewrite (health_analyze_result _ w) in Hr.
    rewrite (health_analyze_result _ w').
    unfold Outcome.health in *. rewrite validateContext_object in *.
    destruct (absent ps _) eqn:Hps; [ | discriminate].
    replace (absent (Js.set "environmentalStress" stress ps) _) with (@nil string).
    + cbn [Js.rbind] in *. injection Hr as <-. eexists. split; [reflexivity | ].
      apply health_advice_of_signals, environmental_stress_is_not_a_signal.
    + symmetry. apply absent_nil_iff. intros field Hin.
      apply (proj1 (absent_nil_iff _ _) Hps) in Hin. destruct Hin as [v Hv].
      destruct (String.eqb field "environmentalStress") eqn:E.
      * apply String.eqb_eq in E. subst field. rewrite lookup_set. eauto.
      * rewrite lookup_set_other by exact E. eauto.
Qed.

Module StressfulDay.

(** A day without any signal of fatigue, in heat and humidity and after a
    journey. *)
Definition calm_day : list (string * JsVal) :=
  (Sample.envelope ++
   [("sleepQuality", Js.num 4);
    ("energyRating", Js.num 4);
    ("consecutiveActiveDays", Js.num 1)])%list.

Definition stress : JsVal :=
  JObj [("heat", JBool true); ("humidity", JBool true); ("travel", JBool true)].

End StressfulDay.

Lemma health_advice_depends_on_five_signals_witness :
  exists r r',
    World.result (HealthRecoveryAgent.analyze (JObj StressfulDay.calm_day)) Sample.still
      = Ok r /\
    World.result
      (HealthRecoveryAgent.analyze
         (JObj (Js.set "environmentalStress" StressfulDay.stress StressfulDay.calm_day)))
      Sample.still = Ok r' /\
    same_advice r r' /\
    decision r' = "Proceed with planned activities" /\
    HealthRecoveryAgent.assessRiskLevel
      (HealthRecoveryAgent.collectSignals
         (JObj (Js.set "environmentalStress" StressfulDay.stress StressfulDay.calm_day)))
    = "medium".
Proof.
  destruct health_advice_depends_on_five_signals as (_ & H).
  destruct (H StressfulDay.calm_day StressfulDay.stress Sample.still Sample.still
              (Outcome.health_advice (JObj StressfulDay.calm_day)))
    as (r' & Hr' & Hsame).
  - vm_compute. reflexivity.
  - eexists. exists r'. split; [vm_compute; reflexivity | ].
    split; [exact Hr' | ]. split; [exact Hsame | ].
    split; [ | vm_compute; reflexivity].
    vm_compute in Hr'. injection Hr' as <-. reflexivity.
Defined.

(** ** A rating of zero *)

Definition same_course_of_action (r r' : AgentRecommendation) : Prop :=
  decision r = decision r' /\
  outputActions r = outputActions r' /\
  approvalRequired r = approvalRequired r' /\
  priority r = priority r'.

(** The context [ps] with both ratings set to [rating]. *)
Definition rated (rating : JsVal) (ps : list (string * JsVal)) : JsVal :=
  JObj (Js.set "sleepQuality" rating (Js.set "energyRating" rating ps)).

Lemma rated_fields rating ps :
  let c := rated rating ps in
  Js.prop c "sleepQuality" = rating /\
  Js.prop c "energyRating" = rating /\
  Js.prop c "consecutiveActiveDays" = Js.prop (JObj ps) "consecutiveActiveDays" /\
  Js.prop c "plannedActivity" = Js.prop (JObj ps) "plannedActivity" /\
  Js.prop c "wellnessProfile" = Js.prop (JObj ps) "wellnessProfile".
Proof.
  unfold rated. cbn [Js.prop].
  repeat split;
    repeat first [ rewrite lookup_set | rewrite lookup_set_other by reflexivity ];
    reflexivity.
Qed.

Lemma rated_is_valid rating rating' ps requiredFields :
  absent (Js.set "sleepQuality" rating (Js.set "energyRating" rating ps)) requiredFields
  = absent (Js.set "sleepQuality" rating' (Js.set "energyRating" rating' ps))
           requiredFields.
Proof.
  unfold absent. apply filter_ext. intro field. now rewrite !has_key_set.
Qed.

Lemma zero_or_missing c c' :
  Js.prop c "sleepQuality" = Js.num 0 -> Js.prop c' "sleepQuality" = JUndefined ->
  Js.prop c "energyRating" = Js.num 0 -> Js.prop c' "energyRating" = JUndefined ->
  Js.prop c "consecutiveActiveDays" = Js.prop c' "consecutiveActiveDays" ->
  Js.prop c "plannedActivity" = Js.prop c' "plannedActivity" ->
  Js.prop c "wellnessProfile" = Js.prop c' "wellnessProfile" ->
  same_course_of_action (Outcome.health_advice c) (Outcome.health_advice c') /\
  HealthRecoveryAgent.requiresFullRestDay (HealthRecoveryAgent.collectSignals c) =
  Js.ge (Js.prop c "consecutiveActiveDays") (Js.num 5).
Proof.
  intros Hs Hs' He He' Hd Hp Hw.
  assert (Z : Js.truthy (Js.num 0) = false) by reflexivity.
  assert (E1 : HealthRecoveryAgent.requiresFullRestDay
                 (HealthRecoveryAgent.collectSignals c) =
               Js.ge (Js.prop c "consecutiveActiveDays") (Js.num 5)).
  { unfold HealthRecoveryAgent.requiresFullRestDay. read_signals.
    rewrite Hs, He, Z. reflexivity. }
  assert (E1' : HealthRecoveryAgent.requiresFullRestDay
                  (HealthRecoveryAgent.collectSignals c') =
                Js.ge (Js.prop c "consecutiveActiveDays") (Js.num 5)).
  { unfold HealthRecoveryAgent.requiresFullRestDay. read_signals.
    rewrite Hs', He', Hd. reflexivity. }
  assert (E2 : HealthRecoveryAgent.requiresActivityModeration
                 (HealthRecoveryAgent.collectSignals c) c =
               HealthRecoveryAgent.requiresActivityModeration
                 (HealthRecoveryAgent.collectSignals c') c').
  { unfold HealthRecoveryAgent.requiresActivityModeration. read_signals.
    rewrite He, He', Hd, Hp, Hw, Z. cbn [Js.truthy andb]. now rewrite !andb_false_r. }
  assert (E3 : HealthRecoveryAgent.shouldInsertWellnessActivity
                 (HealthRecoveryAgent.collectSignals c) =
               HealthRecoveryAgent.shouldInsertWellnessActivity
                 (HealthRecoveryAgent.collectSignals c')).
  { unfold HealthRecoveryAgent.shouldInsertWellnessActivity. read_signals.
    rewrite Hs, Hs', He, He', Hd, Z. reflexivity. }
  split; [ | exact E1].
  unfold Outcome.health_advice. cbv zeta. rewrite E1, E1', E2, E3.
  clear E1 E1' E2 E3.
  destruct (Js.ge (Js.prop c "consecutiveActiveDays") (Js.num 5)); [repeat split | ].
  destruct (HealthRecoveryAgent.requiresActivityModeration
              (HealthRecoveryAgent.collectSignals c') c').
  { unfold HealthRecoveryAgent.recommendActivityModeration, same_course_of_action.
    read_signals.
    cbn [decision rationale outputActions approvalRequired priority
         BaseAgent.createRecommendation BaseAgent.opt_approvalRequired
         BaseAgent.opt_priority].
    rewrite Hp, Hw. repeat split. }
  destruct (HealthRecoveryAgent.shouldInsertWellnessActivity
              (HealthRecoveryAgent.collectSignals c')); repeat split.
Qed.

(** X7.  A rating of zero counts as no rating.  The ratings are tested for
    truth before they are compared, so a sleep quality or an energy rating
    of 0, although below every threshold, never calls for a rest day: with
    both ratings at 0 the Health agent decides, acts and sets approval and
    priority as it does with both ratings undefined, and it cancels the day
    only if five active days or more precede it. *)
Theorem zero_rating_counts_as_missing :
  forall (ps : list (string * JsVal)) (w w' : World) (r : AgentRecommendation),
    World.result (HealthRecoveryAgent.analyze (rated (Js.num 0) ps)) w = Ok r ->
    (exists r',
        World.result (HealthRecoveryAgent.analyze (rated JUndefined ps)) w' = Ok r' /\
        same_course_of_action r r') /\
    (decision r = "Cancel all planned activities - full rest day required" <->
     Js.ge (Js.prop (JObj ps) "consecutiveActiveDays") (Js.num 5) = true).
Proof.
  intros ps w w' r Hr.
  rewrite (health_analyze_result _ w) in Hr. rewrite (health_analyze_result _ w').
  unfold Outcome.health, rated in *. rewrite validateContext_object in *.
  rewrite (rated_is_valid JUndefined (Js.num 0)).
  destruct (absent _ _); [ | discriminate].
  cbn [Js.rbind] in *. injection Hr as <-.
  destruct (rated_fields (Js.num 0) ps) as (Hs & He & Hd & Hp & Hw).
  destruct (rated_fields JUndefined ps) as (Hs' & He' & Hd' & Hp' & Hw').
  unfold rated in *.
  edestruct zero_or_missing as (Hsame & Hrest);
    [exact Hs | exact Hs' | exact He | exact He' | | | | ].
  - rewrite Hd, Hd'. reflexivity.
  - rewrite Hp, Hp'. reflexivity.
  - rewrite Hw, Hw'. reflexivity.
  - split; [eexists; split; [reflexivity | exact Hsame] | ].
    rewrite <- Hd, <- Hrest. unfold Outcome.health_advice. cbv zeta.
    destruct (HealthRecoveryAgent.requiresFullRestDay _); [split; reflexivity | ].
    split; [ | discriminate].
    destruct (HealthRecoveryAgent.requiresActivityModeration _ _); [discriminate | ].
    destruct (HealthRecoveryAgent.shouldInsertWellnessActivity _); discriminate.
Qed.

Lemma zero_rating_counts_as_missing_witness :
  exists r,
    World.result
      (HealthRecoveryAgent.analyze (rated (Js.num 0) StressfulDay.calm_day))
      Sample.still = Ok r /\
    decision r = "Proceed with planned activities".
Proof.
  destruct (World.result
              (HealthRecoveryAgent.analyze (rated (Js.num 0) StressfulDay.calm_day))
              Sample.still) as [r | e] eqn:Hr; [ | vm_compute in Hr; discriminate].
  exists r. split; [reflexivity | ].
  destruct (zero_rating_counts_as_missing StressfulDay.calm_day Sample.still Sample.still
              r Hr) as ((r' & Hr' & Hd & _) & _).
  rewrite Hd. vm_compute in Hr'. injection Hr' as <-. reflexivity.
Defined.

(** ** The cap on walking *)

(** A rating that is absent, or a number that is at least [bound]. *)
Definition at_least (bound : Q) (v : JsVal) : Prop :=
  v = JUndefined \/ exists q, v = JNum (Fin q) /\ (bound <= q)%Q.

Lemma rating_above (v : JsVal) (bound : Z) :
  at_least (inject_Z bound) v ->
  Js.truthy v && Js.lt v (Js.num bound) = false.
Proof.
  intros [-> | (q & -> & Hq)]; [reflexivity | ].
  apply andb_false_intro2.
  destruct (Js.lt (JNum (Fin q)) (Js.num bound)) eqn:E; [exfalso | reflexivity].
  apply (js_lt_num q (inject_Z bound)) in E. exact (Qlt_not_le _ _ E Hq).
Qed.

Lemma fewer_days (v : JsVal) (d : Q) (bound : Z) :
  v = JNum (Fin d) -> (d < inject_Z bound)%Q -> Js.ge v (Js.num bound) = false.
Proof.
  intros -> Hd.
  destruct (Js.ge (JNum (Fin d)) (Js.num bound)) eqn:E; [exfalso | reflexivity].
  apply (js_ge_num d (inject_Z bound)) in E. exact (Qlt_not_le _ _ Hd E).
Qed.

Lemma planned_steps_of_an_activity (activity : JsVal) (n : number) :
  Js.get_opt activity "estimatedSteps" = JNum n -> Js.truthy activity = true.
Proof.
  destruct activity as [ | | b | m | s | xs | ps]; try discriminate; try reflexivity.
  destruct s; [discriminate | reflexivity].
Qed.

Definition walking_cap (target : Q) : list string :=
  ["Reduce walking to <" ++ JsNumber.to_string (Fin target) ++ " steps";
   "Consider private car for longer distances";
   "Schedule midday rest break"].

Definition seated_culture : list string :=
  ["Select seated cultural experience (theater, tea ceremony)";
   "Avoid walking tours";
   "Choose venue with climate control"].

(** X8.  The cap on walking.  On a valid context that does not call for a
    rest day (a sleep quality of 3 or more and an energy rating of 2 or more
    when they are given, fewer than 5 active days), a planned activity whose
    estimated steps exceed the steps target (that of the wellness profile,
    8000 without one; a whole number) is moderated: priority high, approval
    required, and the actions are to reduce walking below the target, to
    consider a private car and to schedule a midday break, followed by the
    three actions for a seated cultural experience when the activity is of
    type [cultural]. *)
Theorem walking_is_capped_at_the_steps_target :
  forall (context : JsVal) (w : World) (d steps target : Q),
    BaseAgent.validateContext HealthRecoveryAgent.self context
      ["tripId"; "userId"; "date"; "consecutiveActiveDays"] = Ok tt ->
    at_least 3 (Js.prop context "sleepQuality") ->
    at_least 2 (Js.prop context "energyRating") ->
    Js.prop context "consecutiveActiveDays" = JNum (Fin d) -> (d < 5)%Q ->
    Js.get_opt (Js.prop context "plannedActivity") "estimatedSteps" = JNum (Fin steps) ->
    steps_target context = JNum (Fin target) ->
    whole (steps_target context) ->
    (0 <= target)%Q -> (target < steps)%Q ->
    exists r,
      World.result (HealthRecoveryAgent.analyze context) w = Ok r /\
      decision r = "Moderate planned activity to reduce physical load" /\
      priority r = high /\
      approvalRequired r = true /\
      outputActions r =
        (walking_cap target ++
         if Js.is_str (Js.get_opt (Js.prop context "plannedActivity") "type") "cultural"
         then seated_culture else [])%list.
Proof.
  intros context w d steps target Hvalid Hsleep Henergy Hdays Hd Hsteps Htarget
         _ Hpos Hover.
  rewrite (health_analyze_result context w).
  unfold Outcome.health. rewrite Hvalid. cbn [Js.rbind].
  unfold Outcome.health_advice. cbv zeta.
  assert (E1 : HealthRecoveryAgent.requiresFullRestDay
                 (HealthRecoveryAgent.collectSignals context) = false).
  { unfold HealthRecoveryAgent.requiresFullRestDay. read_signals.
    rewrite (rating_above _ 3 Hsleep), (rating_above _ 2 Henergy),
      (fewer_days _ d 5 Hdays Hd). reflexivity. }
  assert (Hwalk : Js.truthy (JNum (Fin steps)) &&
                  Js.gt (JNum (Fin steps)) (JNum (Fin target)) = true).
  { apply andb_true_intro. split.
    - apply js_truthy_num. intro E. rewrite E in Hover.
      exact (Qlt_not_le _ _ Hover Hpos).
    - now apply js_gt_num. }
  assert (E2 : HealthRecoveryAgent.requiresActivityModeration
                 (HealthRecoveryAgent.collectSignals context) context = true).
  { unfold HealthRecoveryAgent.requiresActivityModeration. read_signals.
    rewrite (planned_steps_of_an_activity _ _ Hsteps). cbn [negb].
    unfold steps_target in Htarget. rewrite Hsteps, Htarget, Hwalk. reflexivity. }
  rewrite E1, E2. eexists. split; [reflexivity | ].
  unfold HealthRecoveryAgent.recommendActivityModeration. read_signals.
  cbn [decision outputActions approvalRequired priority
       BaseAgent.createRecommendation BaseAgent.opt_approvalRequired
       BaseAgent.opt_priority].
  unfold steps_target in Htarget. rewrite Hsteps, Htarget, Hwalk.
  repeat split.
  destruct (Js.is_str _ _); reflexivity.
Qed.

Module LongWalk.

(** A day of temples on foot, after a good night. *)
Definition context : JsVal :=
  JObj (StressfulDay.calm_day ++
        [("plannedActivity",
           JObj [("type", JStr "cultural");
                 ("physicalLoad", JStr "medium");
                 ("estimatedSteps", Js.num 12000)])])%list.

End LongWalk.

Lemma walking_is_capped_at_the_steps_target_witness :
  exists r,
    World.result (HealthRecoveryAgent.analyze LongWalk.context) Sample.still = Ok r /\
    priority r = high /\
    outputActions r =
      ["Reduce walking to <8000 steps";
       "Consider private car for longer distances";
       "Schedule midday rest break";
       "Select seated cultural experience (theater, tea ceremony)";
       "Avoid walking tours";
       "Choose venue with climate control"].
Proof.
  destruct (walking_is_capped_at_the_steps_target
              LongWalk.context Sample.still 1 12000 8000)
    as (r & Hr & _ & Hp & _ & Ha).
  - reflexivity.
  - right. exists 4%Q. split; [reflexivity | discriminate].
  - right. exists 4%Q. split; [reflexivity | discriminate].
  - reflexivity.
  - reflexivity.
  - reflexivity.
  - reflexivity.
  - exists 8000%Z. split; [reflexivity | lia].
  - discriminate.
  - reflexivity.
  - exists r. split; [exact Hr | ]. split; [exact Hp | ]. rewrite Ha. reflexivity.
Defined.

(** * More of the Golf agent *)

(** ** Days without golf *)

(** The energy level is given and below 4. *)
Definition tired (energyLevel : JsVal) : Prop :=
  exists e, energyLevel = JNum (Fin e) /\ (e < 4)%Q.

Definition skipped_round (r : AgentRecommendation) : Prop :=
  decision r = "Skip golf - force recovery day" /\
  priority r = high /\
  approvalRequired r = true.

Lemma tired_iff (energyLevel : JsVal) :
  rating energyLevel ->
  Js.truthy energyLevel && Js.lt energyLevel (Js.num 4) = true <-> tired energyLevel.
Proof.
  intros [-> | (e & -> & Hlo & Hhi)].
  - split; [discriminate | intros (e & E & _); discriminate].
  - split.
    + intro H. apply andb_true_iff in H. destruct H as [_ H].
      apply (js_lt_num e (inject_Z 4)) in H. exists e. auto.
    + intros (e' & E & He). injection E as <-.
      apply (low_rating_triggers _ e 4); [right; exists e; auto | reflexivity | exact He].
Qed.

Lemma days_iff (g : Q) (bound : Z) :
  Js.ge (JNum (Fin g)) (Js.num bound) = true <-> (inject_Z bound <= g)%Q.
Proof. apply (js_ge_num g (inject_Z bound)). Qed.

Lemma shouldSkipGolf_iff (context : JsVal) (g : Q) :
  Js.prop context "consecutiveGolfDays" = JNum (Fin g) ->
  rating (Js.prop context "energyLevel") ->
  GolfOperationsAgent.shouldSkipGolf (GolfOperationsAgent.collectSignals context) = true
  <-> (2 <= g)%Q \/ ((1 <= g)%Q /\ tired (Js.prop context "energyLevel")).
Proof.
  intros Hg He. unfold GolfOperationsAgent.shouldSkipGolf,
    GolfOperationsAgent.collectSignals.
  cbn [Js.prop Js.lookup String.eqb Ascii.eqb Bool.eqb]. rewrite Hg.
  pose proof (tired_iff _ He) as Ht. pose proof (days_iff g 1) as H1.
  pose proof (days_iff g 2) as H2.
  rewrite <- andb_assoc.
  destruct (Js.ge (JNum (Fin g)) (Js.num 1));
    destruct (Js.truthy _ && Js.lt _ _);
    destruct (Js.ge (JNum (Fin g)) (Js.num 2)); cbn [andb];
    split; try reflexivity; try discriminate; intro H;
    try (left; now apply H2);
    try (right; split; [now apply H1 | now apply Ht]);
    destruct H as [H | (Hone & Htired)];
    try (apply H2 in H; discriminate);
    try (apply H1 in Hone; discriminate);
    try (apply Ht in Htired; discriminate).
Qed.

Lemma skip_is_high signals :
  skipped_round (GolfOperationsAgent.recommendSkipGolf signals).
Proof.
  unfold GolfOperationsAgent.recommendSkipGolf.
  repeat match goal with
         | |- context [if ?b then _ else _] => destruct b
         end; repeat split.
Qed.

(** X9.  Days without golf.  On a valid context in Vietnam whose count of
    consecutive golf days is a number and whose energy level is absent or a
    number from 1 to 5, the Golf agent cancels the round, with priority high
    and approval required, exactly when two golf days or more precede the
    day, or one does and the energy level is below 4; the weather and the
    courses play no part.  After two golf days a spa treatment is scheduled;
    otherwise the practice range is offered. *)
Theorem golf_is_skipped_after_golf_days :
  forall (context : JsVal) (w : World) (location : string) (g : Q),
    BaseAgent.validateContext GolfOperationsAgent.self context
      ["tripId"; "userId"; "date"; "location"] = Ok tt ->
    Js.prop context "location" = JStr location ->
    (exists city, In city recognized_cities /\ occurs_ignoring_case city location) ->
    Js.prop context "consecutiveGolfDays" = JNum (Fin g) ->
    rating (Js.prop context "energyLevel") ->
    ((2 <= g)%Q ->
     exists r,
       World.result (GolfOperationsAgent.analyze context) w = Ok r /\
       skipped_round r /\
       outputActions r =
         ["Cancel planned golf round"; "Insert recovery day";
          "Schedule spa or massage treatment"]) /\
    ((1 <= g)%Q -> (g < 2)%Q -> tired (Js.prop context "energyLevel") ->
     exists r,
       World.result (GolfOperationsAgent.analyze context) w = Ok r /\
       skipped_round r /\
       outputActions r =
         ["Cancel planned golf round"; "Insert recovery day";
          "Consider practice range or short game only (optional)"]) /\
    (~ ((2 <= g)%Q \/ ((1 <= g)%Q /\ tired (Js.prop context "energyLevel"))) ->
     produced (World.result (GolfOperationsAgent.analyze context) w)
              (fun r => ~ skipped_round r)).
Proof.
  intros context w location g Hvalid Hloc Hcity Hg He.
  rewrite (golf_analyze_result context w).
  unfold Outcome.golf. rewrite Hvalid, Hloc, (in_vietnam _ Hcity).
  cbn [Js.rbind negb]. unfold Outcome.golf_advice. cbv zeta.
  pose proof (shouldSkipGolf_iff context g Hg He) as Hskip.
  assert (Hactions :
            forall b : bool,
              Js.ge (JNum (Fin g)) (Js.num 2) = b ->
              GolfOperationsAgent.shouldSkipGolf
                (GolfOperationsAgent.collectSignals context) = true ->
              outputActions
                (GolfOperationsAgent.recommendSkipGolf
                   (GolfOperationsAgent.collectSignals context)) =
              ["Cancel planned golf round"; "Insert recovery day";
               if b then "Schedule spa or massage treatment"
               else "Consider practice range or short game only (optional)"]).
  { intros b Hb Hs. unfold GolfOperationsAgent.recommendSkipGolf.
    unfold GolfOperationsAgent.shouldSkipGolf in Hs. revert Hs.
    unfold GolfOperationsAgent.collectSignals.
    cbn [Js.prop Js.lookup String.eqb Ascii.eqb Bool.eqb]. rewrite Hg, Hb.
    destruct b; [reflexivity | ].
    rewrite <- andb_assoc.
    destruct (Js.truthy _ && Js.lt _ _); [reflexivity | ].
    rewrite andb_false_r. discriminate. }
  split; [ | split].
  - intro H2. assert (Hs : GolfOperationsAgent.shouldSkipGolf
                             (GolfOperationsAgent.collectSignals context) = true)
      by (apply Hskip; now left).
    rewrite Hs. eexists. split; [reflexivity | ]. split; [apply skip_is_high | ].
    apply (Hactions true); [now apply days_iff | exact Hs].
  - intros H1 Hlt Ht.
    assert (Hs : GolfOperationsAgent.shouldSkipGolf
                   (GolfOperationsAgent.collectSignals context) = true)
      by (apply Hskip; right; now split).
    rewrite Hs. eexists. split; [reflexivity | ]. split; [apply skip_is_high | ].
    apply (Hactions false); [ | exact Hs].
    apply not_true_is_false. intro E. apply days_iff in E.
    exact (Qlt_not_le _ _ Hlt E).
  - intro Hno.
    destruct (GolfOperationsAgent.shouldSkipGolf _) eqn:E;
      [exfalso; apply Hno; now apply Hskip | ].
    destruct (GolfOperationsAgent.shouldSubstituteCourse _ _).
    + pose proof (substitution_is_high (GolfOperationsAgent.collectSignals context)
                                       context) as H.
      destruct (GolfOperationsAgent.recommendCourseSubstitution _ _); [ | exact I].
      cbn in *. destruct H as (Hd & _). intros (Hd' & _). congruence.
    + pose proof (optimal_is_not_high (GolfOperationsAgent.collectSignals context)
                                      context) as H.
      destruct (GolfOperationsAgent.recommendOptimalCourse _ _); [ | exact I].
      cbn in *. destruct H as (_ & Hp & _). intros (_ & Hp' & _). contradiction.
Qed.

Module SecondRound.

(** A second golf day in a row in Da Nang, with an energy level of 3, in
    heavy rain. *)
Definition context : JsVal :=
  JObj (Sample.envelope ++
        [("location", JStr "Da Nang, Vietnam");
         ("energyLevel", Js.num 3);
         ("consecutiveGolfDays", Js.num 1);
         ("weatherForecast",
           JObj [("condition", JStr "rain");
                 ("temperature", Js.num 27);
                 ("humidity", Js.num 90);
                 ("rainfall", Js.num 25)]);
         ("availableCourses", JArr [Scenario2.ba_na_hills])])%list.

End SecondRound.

Lemma golf_is_skipped_after_golf_days_witness :
  exists r,
    World.result (GolfOperationsAgent.analyze SecondRound.context) Sample.still = Ok r /\
    skipped_round r /\
    outputActions r =
      ["Cancel planned golf round"; "Insert recovery day";
       "Consider practice range or short game only (optional)"].
Proof.
  destruct (golf_is_skipped_after_golf_days SecondRound.context Sample.still
              "Da Nang, Vietnam" 1) as (_ & H & _).
  - reflexivity.
  - reflexivity.
  - exists "Da Nang". split; [right; left; reflexivity | ].
    exists "", "Da Nang", ", Vietnam". split; reflexivity.
  - reflexivity.
  - right. exists 3%Q. split; [reflexivity | split; discriminate].
  - apply H; [discriminate | reflexivity | ].
    exists 3%Q. split; reflexivity.
Defined.

(** ** Humid heat *)

(** X10.  Humid heat is flagged without advice.  On a valid context in
    Vietnam where golf is not skipped, a forecast with a temperature above
    32 and at most 35 degrees, a humidity above 80% and no heavy rain makes
    the Golf agent answer "Substitute golf course due to weather", with
    priority high and approval required, but with an empty rationale and no
    action at all: its advice is written for heavy rain and for more than
    35 degrees only. *)
Theorem humid_heat_substitution_is_empty :
  forall (context : JsVal) (w : World) (location : string)
         (rain : option Q) (t h : Q),
    BaseAgent.validateContext GolfOperationsAgent.self context
      ["tripId"; "userId"; "date"; "location"] = Ok tt ->
    Js.prop context "location" = JStr location ->
    (exists city, In city recognized_cities /\ occurs_ignoring_case city location) ->
    GolfOperationsAgent.shouldSkipGolf
      (GolfOperationsAgent.collectSignals context) = false ->
    forecast_of (Js.prop context "weatherForecast") rain t h ->
    ~ heavy_rain rain -> (32 < t)%Q -> (t <= 35)%Q -> (80 < h)%Q ->
    exists r,
      World.result (GolfOperationsAgent.analyze context) w = Ok r /\
      weather_substitution r /\
      rationale r = "" /\
      outputActions r = [].
Proof.
  intros context w location rain t h Hvalid Hloc Hcity Hplay Hforecast
         Hdry Hwarm Hnot_hot Hhumid.
  rewrite (golf_analyze_result context w).
  unfold Outcome.golf. rewrite Hvalid, Hloc, (in_vietnam _ Hcity).
  cbn [Js.rbind negb]. unfold Outcome.golf_advice. cbv zeta. rewrite Hplay.
  set (signals := GolfOperationsAgent.collectSignals context).
  assert (Hsig : forecast_of (Js.prop signals "weather") rain t h) by exact Hforecast.
  assert (Hbad : bad_weather rain t h) by (right; right; now split).
  apply (shouldSubstituteCourse_iff signals context rain t h Hsig) in Hbad.
  rewrite Hbad. destruct Hsig as (_ & Ht & _ & Hr).
  unfold GolfOperationsAgent.recommendCourseSubstitution.
  pose proof (rain_test _ _ Hr) as Hrain.
  destruct (Js.truthy _ && Js.gt _ _); [exfalso; apply Hdry; now apply Hrain | ].
  rewrite Ht. change (Js.num 35) with (JNum (Fin 35)).
  replace (Js.gt (JNum (Fin t)) (JNum (Fin 35))) with false.
  - cbn [Js.rbind]. eexists. split; [reflexivity | ]. repeat split.
  - symmetry. apply not_true_is_false. intro E. apply js_gt_num in E.
    exact (Qlt_not_le _ _ E Hnot_hot).
Qed.

Lemma humid_heat_substitution_is_empty_witness :
  exists r,
    World.result (GolfOperationsAgent.analyze (Scenario2.day 34 85)) Sample.still
      = Ok r /\
    priority r = high /\
    rationale r = "" /\
    outputActions r = [].
Proof.
  destruct (humid_heat_substitution_is_empty (Scenario2.day 34 85) Sample.still
              "Da Nang, Vietnam" None 34 85) as (r & Hr & (_ & Hp & _) & Hn & Ha).
  - reflexivity.
  - reflexivity.
  - exists "Da Nang". split; [right; left; reflexivity | ].
    exists "", "Da Nang", ", Vietnam". split; reflexivity.
  - reflexivity.
  - repeat split.
  - intros [].
  - reflexivity.
  - discriminate.
  - reflexivity.
  - exists r. repeat split; assumption.
Defined.

(** ** The closest course *)

(** The course [c] is [q] minutes away. *)
Definition travels (c : JsVal) (q : Q) : Prop :=
  Js.get c "travelTime" = Ok (JNum (Fin q)).

Lemma closest_course_is_closest (others : list JsVal) :
  forall (first : JsVal) (qf : Q),
    travels first qf ->
    (forall c, In c others -> exists q, travels c q) ->
    exists best qb,
      GolfOperationsAgent.closest_course first others = Ok best /\
      In best (first :: others) /\
      travels best qb /\
      (qb <= qf)%Q /\
      (forall c q, In c others -> travels c q -> (qb <= q)%Q).
Proof.
  unfold GolfOperationsAgent.closest_course.
  induction others as [ | course rest IH]; intros first qf Hf Hall.
  - exists first, qf. cbn. repeat split; auto using Qle_refl. intros c q [].
  - destruct (Hall course (or_introl eq_refl)) as [qc Hc].
    cbn [Js.reduce]. unfold travels in Hf, Hc. rewrite Hc, Hf. cbn [Js.rbind].
    destruct (Js.lt (JNum (Fin qc)) (JNum (Fin qf))) eqn:E.
    + apply js_lt_num in E.
      destruct (IH course qc Hc (fun c H => Hall c (or_intror H)))
        as (best & qb & Hr & Hin & Hb & Hle & Hmin).
      exists best, qb. split; [exact Hr | ]. split; [right; exact Hin | ].
      split; [exact Hb | ]. split.
      * apply Qle_trans with qc; [exact Hle | now apply Qlt_le_weak].
      * intros c q [<- | Hin'] Hq.
        -- unfold travels in Hq. rewrite Hc in Hq. injection Hq as <-. exact Hle.
        -- now apply (Hmin c q).
    + assert (Hge : (qf <= qc)%Q).
      { apply Qnot_lt_le. intro H. apply js_lt_num in H. congruence. }
      destruct (IH first qf Hf (fun c H => Hall c (or_intror H)))
        as (best & qb & Hr & Hin & Hb & Hle & Hmin).
      exists best, qb. split; [exact Hr | ]. split.
      { destruct Hin as [<- | Hin]; [now left | right; now right]. }
      split; [exact Hb | ]. split; [exact Hle | ].
      intros c q [<- | Hin'] Hq.
      * unfold travels in Hq. rewrite Hc in Hq. injection Hq as <-.
        now apply Qle_trans with qf.
      * now apply (Hmin c q).
Qed.

(** X11.  The choice by travel time.  With an energy level that is given and
    below 4, [selectByTravelTime] returns a course of the list that no other
    course of the list beats on travel time, when every course has a number
    as its travel time; with any other energy level it returns the first
    course, whatever the travel times are.  On an empty list it throws the
    runtime's "Reduce of empty array" error in the first case and returns
    [undefined] in the second. *)
Theorem select_by_travel_time_is_minimal :
  forall (first : JsVal) (others : list JsVal) (energyLevel : JsVal),
    let low := Js.truthy energyLevel && Js.lt energyLevel (Js.num 4) in
    (low = false ->
     GolfOperationsAgent.selectByTravelTime (first :: others) energyLevel = Ok first /\
     GolfOperationsAgent.selectByTravelTime [] energyLevel = Ok JUndefined) /\
    (low = true ->
     GolfOperationsAgent.selectByTravelTime [] energyLevel =
       Throw (TypeError "Reduce of empty array with no initial value") /\
     ((forall c, In c (first :: others) -> exists q, travels c q) ->
      exists best qb,
        GolfOperationsAgent.selectByTravelTime (first :: others) energyLevel = Ok best /\
        In best (first :: others) /\
        travels best qb /\
        forall c q, In c (first :: others) -> travels c q -> (qb <= q)%Q)).
Proof.
  intros first others energyLevel low.
  unfold GolfOperationsAgent.selectByTravelTime. fold low.
  split; intros ->; [split; reflexivity | ].
  split; [reflexivity | ]. intro Hall.
  destruct (Hall first (or_introl eq_refl)) as [qf Hf].
  destruct (closest_course_is_closest others first qf Hf
              (fun c H => Hall c (or_intror H)))
    as (best & qb & Hr & Hin & Hb & Hle & Hmin).
  exists best, qb. repeat split; try assumption.
  intros c q [<- | Hin'] Hq.
  - unfold travels in Hq, Hf. rewrite Hf in Hq. injection Hq as <-. exact Hle.
  - now apply (Hmin c q).
Qed.

Module Courses.

Definition course (name : string) (minutes : Z) (climate : string) : JsVal :=
  JObj [("name", JStr name);
        ("travelTime", Js.num minutes);
        ("difficulty", JStr "moderate");
        ("climate", JStr climate)].

Definition danang : JsVal := course "Da Nang Golf Club" 25 "hot".
Definition laguna : JsVal := course "Laguna Lang Co" 70 "hot".
Definition vinpearl : JsVal := course "Vinpearl Golf Nam Hoi An" 20 "hot".
Definition montgomerie : JsVal := course "Montgomerie Links Vietnam" 45 "hot".

End Courses.

Lemma select_by_travel_time_is_minimal_witness :
  GolfOperationsAgent.selectByTravelTime
    [Courses.danang; Courses.laguna; Courses.vinpearl] (Js.num 3)
  = Ok Courses.vinpearl.
Proof.
  destruct (select_by_travel_time_is_minimal Courses.danang
              [Courses.laguna; Courses.vinpearl] (Js.num 3)) as (_ & H).
  destruct (H eq_refl) as (_ & Hmin).
  destruct Hmin as (best & qb & Hr & Hin & Hb & Hle).
  - intros c [<- | [<- | [<- | []]]]; eexists; reflexivity.
  - rewrite Hr. f_equal.
    assert (H20 : (qb <= 20)%Q)
      by (apply (Hle Courses.vinpearl); [right; right; left | ]; reflexivity).
    destruct Hin as [<- | [<- | [<- | []]]]; [exfalso | exfalso | reflexivity];
      injection Hb as <-; now apply H20.
Defined.

(** ** The preferred courses *)

(** X12.  A preferred course wins.  When the courses offered are an array of
    courses with names, the ordinary recommendation of the Golf agent goes
    to the first course whose name contains "Ba Na Hills Golf Club" or
    "Montgomerie Links Vietnam", if there is one, whatever the energy level
    of the signals (absent or a number) and the travel times of the other
    courses are.  The decision and the first action name that course, the
    last action quotes its travel time, a whole number of minutes, the tee
    time is in the morning, the priority is medium and no approval is
    asked. *)
Theorem preferred_course_is_recommended :
  forall (signals context : JsVal) (before after : list JsVal) (course : JsVal)
         (name : string),
    Js.prop context "availableCourses" = JArr (before ++ course :: after)%list ->
    Forall named before ->
    (forall c, In c before -> ~ preferred c) ->
    Js.get course "name" = Ok (JStr name) ->
    preferred course ->
    whole (Js.prop course "travelTime") ->
    (exists fields, signals = JObj fields) ->
    measured (Js.prop signals "energyLevel") ->
    exists r,
      GolfOperationsAgent.recommendOptimalCourse signals context = Ok r /\
      decision r = "Proceed with golf at " ++ name /\
      outputActions r =
        ["Book tee time at " ++ name;
         "Morning tee time only (before 10am)";
         "Confirm caddie and cart included";
         "Travel time: " ++ Js.ToString (Js.prop course "travelTime") ++ " minutes"] /\
      priority r = medium /\
      approvalRequired r = false.
Proof.
  intros signals context before after course name Hcourses Hnamed Hnone Hname Hpref
         _ _ _.
  assert (Hc : named course) by (exists name; exact Hname).
  unfold GolfOperationsAgent.recommendOptimalCourse. rewrite Hcourses.
  rewrite length_of_courses by (destruct before; discriminate).
  unfold Js.or_ at 1. cbn [Js.truthy Js.as_array Js.rbind].
  rewrite (find_preferred before course after Hnamed Hc Hnone Hpref).
  cbn [Js.rbind]. rewrite Hname. cbn [Js.rbind].
  assert (Ht : Js.get course "travelTime" = Ok (Js.prop course "travelTime")).
  { unfold Js.get in *. destruct (Js.is_nullish course); [discriminate | reflexivity]. }
  rewrite Ht. cbn [Js.rbind].
  destruct (is_preferred_iff course Hc) as (b & Hb & _).
  unfold GolfOperationsAgent.buildCourseRationale. rewrite Hb. cbn [Js.rbind].
  eexists. split; [reflexivity | ]. repeat split.
Qed.

Lemma preferred_course_is_recommended_witness :
  exists r,
    GolfOperationsAgent.recommendOptimalCourse
      (JObj [("energyLevel", Js.num 2)])
      (JObj [("availableCourses",
               JArr [Courses.vinpearl; Courses.montgomerie; Scenario2.ba_na_hills])])
    = Ok r /\
    decision r = "Proceed with golf at Montgomerie Links Vietnam" /\
    outputActions r =
      ["Book tee time at Montgomerie Links Vietnam";
       "Morning tee time only (before 10am)";
       "Confirm caddie and cart included";
       "Travel time: 45 minutes"].
Proof.
  destruct (preferred_course_is_recommended
              (JObj [("energyLevel", Js.num 2)])
              (JObj [("availableCourses",
                       JArr [Courses.vinpearl; Courses.montgomerie;
                             Scenario2.ba_na_hills])])
              [Courses.vinpearl] [Scenario2.ba_na_hills] Courses.montgomerie
              "Montgomerie Links Vietnam")
    as (r & Hr & Hd & Ha & _).
  - reflexivity.
  - constructor; [eexists; reflexivity | constructor].
  - intros c [<- | []] (name & E & [H | H]); injection E as <-;
      vm_compute in H; discriminate.
  - reflexivity.
  - eexists. split; [reflexivity | right; reflexivity].
  - exists 45%Z. split; [reflexivity | lia].
  - eexists. reflexivity.
  - right. right. exists 2%Q. reflexivity.
  - exists r. split; [exact Hr | ]. split; [exact Hd | exact Ha].
Defined.

(** * More of the Budget agent *)

(** ** The sources of a reallocation *)

Module Sources.

(** What is left of a category. *)
Definition left_over (planned actual : Q) : number :=
  Js.sub (JNum (Fin planned)) (JNum (Fin actual)).

Definition source_of (category : string * Q * Q) : BudgetControlAgent.Underbudget :=
  let '(name, planned, actual) := category in
  {| BudgetControlAgent.u_category := name;
     BudgetControlAgent.available := left_over planned actual |}.

(** The categories on which less was spent than planned. *)
Definition under (categories : list (string * Q * Q)) : list (string * Q * Q) :=
  filter (fun '(_, planned, actual) => JsNumber.Qlt_bool actual planned) categories.

(** The amount available in a source. *)
Definition amount (u : BudgetControlAgent.Underbudget) : Q :=
  match BudgetControlAgent.available u with
  | Fin q => q
  | _ => 0
  end.

(** The comparator of [findUnderbudgetCategories] puts [a] before [b]. *)
Definition before (a b : BudgetControlAgent.Underbudget) : bool :=
  JsNumber.lt (JsNumber.sub (BudgetControlAgent.available b)
                            (BudgetControlAgent.available a))
              (JsNumber.of_Z 0).

(** No smaller amount comes first. *)
Definition descending : list BudgetControlAgent.Underbudget -> Prop :=
  StronglySorted (fun u v => (amount v <= amount u)%Q).

Definition finite (u : BudgetControlAgent.Underbudget) : Prop :=
  exists q, BudgetControlAgent.available u = Fin q.

End Sources.

Lemma findUnderbudgetCategories_of context categories :
  Js.prop context "categorySpend" = Ledger.categorySpend categories ->
  BudgetControlAgent.findUnderbudgetCategories context =
  Ok (Js.sort Sources.before (map Sources.source_of (Sources.under categories))).
Proof.
  intro H. unfold BudgetControlAgent.findUnderbudgetCategories. rewrite H. clear H.
  unfold Ledger.categorySpend. cbn [Js.entries Js.is_nullish Js.own_props Js.rbind].
  assert (Hm :
    Js.mapM
      (fun '(category, spend) =>
         Js.rbind (Js.get spend "actual") (fun actual =>
         Ok (category, actual, Js.prop spend "planned")))
      (map (fun '(name, planned, actual) => (name, Ledger.spend planned actual))
           categories)
    = Ok (map (fun '(name, planned, actual) =>
                 (name, JNum (Fin actual), JNum (Fin planned))) categories)).
  { induction categories as [ | [[name planned] actual] rest IH]; [reflexivity | ].
    cbn [map Js.mapM]. rewrite IH. reflexivity. }
  rewrite Hm. cbn [Js.rbind]. do 2 f_equal. clear Hm.
  induction categories as [ | [[name planned] actual] rest IH]; [reflexivity | ].
  cbn [map filter Sources.under].
  change (Js.lt (JNum (Fin actual)) (JNum (Fin planned)))
    with (JsNumber.Qlt_bool actual planned).
  destruct (JsNumber.Qlt_bool actual planned); cbn [map]; [f_equal | ]; exact IH.
Qed.

Section Sorting.

Context {A : Type} (before : A -> A -> bool).

Lemma insert_sorted_permutation (x : A) (sorted : list A) :
  Permutation (x :: sorted) (Js.insert_sorted before x sorted).
Proof.
  induction sorted as [ | y rest IH]; cbn; [reflexivity | ].
  destruct (before x y); [reflexivity | ].
  rewrite perm_swap. now apply perm_skip.
Qed.

Lemma sort_permutation (xs : list A) : Permutation xs (Js.sort before xs).
Proof.
  unfold Js.sort.
  assert (G : forall acc, Permutation (xs ++ acc)
                            (fold_left (fun sorted x => Js.insert_sorted before x sorted)
                                       xs acc)).
  { induction xs as [ | x rest IH]; intro acc; [reflexivity | ].
    cbn [fold_left List.app]. rewrite <- IH.
    rewrite <- insert_sorted_permutation. apply Permutation_middle. }
  specialize (G []). now rewrite app_nil_r in G.
Qed.

End Sorting.

Lemma before_iff (a b : BudgetControlAgent.Underbudget) :
  Sources.finite a -> Sources.finite b ->
  Sources.before a b = true <-> (Sources.amount b < Sources.amount a)%Q.
Proof.
  intros [qa Ha] [qb Hb]. unfold Sources.before, Sources.amount. rewrite Ha, Hb.
  unfold JsNumber.sub, JsNumber.neg, JsNumber.add, JsNumber.lt, JsNumber.of_Z.
  rewrite Qlt_bool_iff, !Qred_correct. change (inject_Z 0) with 0%Q.
  split; intro H; lra.
Qed.

Lemma insert_descending (x : BudgetControlAgent.Underbudget)
      (sorted : list BudgetControlAgent.Underbudget) :
  Sources.finite x -> Forall Sources.finite sorted ->
  Sources.descending sorted ->
  Sources.descending (Js.insert_sorted Sources.before x sorted).
Proof.
  intros Hx Hfin Hsorted. unfold Sources.descending in *.
  induction Hsorted as [ | y rest Hrest IH Hy]; cbn.
  - constructor; constructor.
  - inversion Hfin as [ | ? ? Hfy Hfrest]; subst.
    pose proof (before_iff x y Hx Hfy) as Hb.
    destruct (Sources.before x y) eqn:E.
    + assert (Hlt : (Sources.amount y < Sources.amount x)%Q) by now apply Hb.
      constructor; [constructor; assumption | ].
      constructor; [now apply Qlt_le_weak | ].
      apply Forall_forall. intros z Hz.
      rewrite Forall_forall in Hy. specialize (Hy z Hz). lra.
    + assert (Hge : (Sources.amount x <= Sources.amount y)%Q).
      { apply Qnot_lt_le. intro H. apply Hb in H. discriminate. }
      constructor; [now apply IH | ].
      apply Forall_forall. intros z Hz.
      apply (Permutation_in z (Permutation_sym
                                 (insert_sorted_permutation Sources.before x rest)))
        in Hz.
      destruct Hz as [<- | Hz]; [exact Hge | ].
      rewrite Forall_forall in Hy. now apply Hy.
Qed.

Lemma sort_descending (xs : list BudgetControlAgent.Underbudget) :
  Forall Sources.finite xs ->
  Sources.descending (Js.sort Sources.before xs).
Proof.
  unfold Js.sort. intro Hfin.
  assert (G : forall acc,
             Forall Sources.finite acc -> Sources.descending acc ->
             Sources.descending
               (fold_left (fun sorted x => Js.insert_sorted Sources.before x sorted)
                          xs acc)).
  { induction Hfin as [ | x rest Hx Hrest IH]; intros acc Hacc Hsorted;
      [exact Hsorted | ].
    cbn [fold_left]. apply IH.
    - apply (Permutation_Forall (insert_sorted_permutation Sources.before x acc)).
      now constructor.
    - now apply insert_descending. }
  apply G; constructor.
Qed.

Lemma sources_are_finite (categories : list (string * Q * Q)) :
  Forall Sources.finite (map Sources.source_of categories).
Proof.
  apply Forall_forall. intros u Hu. apply in_map_iff in Hu.
  destruct Hu as ([[name planned] actual] & <- & _). eexists. reflexivity.
Qed.

Lemma amount_of_source name planned actual :
  (Sources.amount (Sources.source_of (name, planned, actual)) == planned - actual)%Q.
Proof.
  unfold Sources.amount, Sources.source_of, Sources.left_over.
  cbn [BudgetControlAgent.available].
  change (Js.sub (JNum (Fin planned)) (JNum (Fin actual)))
    with (Fin (Qred (planned + Qred (- actual)))).
  cbv iota beta. rewrite !Qred_correct. reflexivity.
Qed.

(** X13.  The sources of a reallocation.  On a category spend whose amounts
    are whole numbers from 0 to 10^15, [findUnderbudgetCategories] returns
    the categories on which less was spent than planned, each once and with
    what is left of it (planned - actual, a positive amount), and no others;
    they are ordered by what is left, the largest first. *)
Theorem underbudget_categories_are_sorted :
  forall (context : JsVal) (categories : list (string * Q * Q)),
    Js.prop context "categorySpend" = Ledger.categorySpend categories ->
    Ledger.all_whole categories ->
    exists sources,
      BudgetControlAgent.findUnderbudgetCategories context = Ok sources /\
      Permutation (map Sources.source_of (Sources.under categories)) sources /\
      Sources.descending sources /\
      (forall u, In u sources ->
         exists name planned actual,
           In (name, planned, actual) categories /\
           (actual < planned)%Q /\
           BudgetControlAgent.u_category u = name /\
           (Sources.amount u == planned - actual)%Q).
Proof.
  intros context categories Hspend _.
  rewrite (findUnderbudgetCategories_of _ _ Hspend).
  eexists. split; [reflexivity | ].
  split; [apply sort_permutation | ].
  split; [apply sort_descending, sources_are_finite | ].
  intros u Hu.
  apply (Permutation_in u (Permutation_sym (sort_permutation Sources.before _))) in Hu.
  apply in_map_iff in Hu. destruct Hu as ([[name planned] actual] & <- & Hin).
  unfold Sources.under in Hin. apply filter_In in Hin. destruct Hin as [Hin Hlt].
  exists name, planned, actual. split; [exact Hin | ].
  split; [now apply Qlt_bool_iff | ]. split; [reflexivity | ].
  apply amount_of_source.
Qed.

Module Trip.

(** Golf is over its plan by 15%; dining, guides and transport are under
    theirs by 300, 900 and 500. *)
Definition categories : list (string * Q * Q) :=
  [("golf", 4000, 4600); ("dining", 3000, 2700);
   ("guides", 2000, 1100); ("transport", 1500, 1000)].

Definition day : JsVal :=
  JObj (Sample.envelope ++
        [("trip", Sample.trip);
         ("categorySpend", Ledger.categorySpend categories)])%list.

End Trip.

Lemma trip_is_whole : Ledger.all_whole Trip.categories.
Proof.
  unfold Trip.categories, Ledger.all_whole.
  constructor; [apply (whole_amounts_of 4000 4600); unfold Ledger.limit; lia | ].
  constructor; [apply (whole_amounts_of 3000 2700); unfold Ledger.limit; lia | ].
  constructor; [apply (whole_amounts_of 2000 1100); unfold Ledger.limit; lia | ].
  constructor; [apply (whole_amounts_of 1500 1000); unfold Ledger.limit; lia | ].
  constructor.
Qed.

Lemma underbudget_categories_are_sorted_witness :
  exists sources,
    BudgetControlAgent.findUnderbudgetCategories Trip.day = Ok sources /\
    map BudgetControlAgent.u_category sources = ["guides"; "transport"; "dining"] /\
    Sources.descending sources.
Proof.
  destruct (underbudget_categories_are_sorted Trip.day Trip.categories)
    as (sources & Hs & _ & Hsorted & _).
  - reflexivity.
  - exact trip_is_whole.
  - exists sources. split; [exact Hs | ]. split; [ | exact Hsorted].
    vm_compute in Hs. injection Hs as <-. reflexivity.
Defined.

(** ** Where a reallocation is drawn from *)

Lemma covers_iff (u : BudgetControlAgent.Underbudget) (needed : Q) :
  Sources.finite u ->
  JsNumber.ge (BudgetControlAgent.available u) (Fin needed) = true <->
  (needed <= Sources.amount u)%Q.
Proof.
  intros [q Hq]. unfold Sources.amount. rewrite Hq.
  unfold JsNumber.ge, JsNumber.le. cbn [JsNumber.is_nan negb andb JsNumber.lt].
  rewrite negb_true_iff. apply Qlt_bool_false_iff.
Qed.

Lemma largest_source_or_none (sources : list BudgetControlAgent.Underbudget)
      (needed : Q) :
  Forall Sources.finite sources -> Sources.descending sources ->
  List.find (fun u => JsNumber.ge (BudgetControlAgent.available u) (Fin needed)) sources
  = match sources with
    | [] => None
    | top :: _ =>
        if JsNumber.ge (BudgetControlAgent.available top) (Fin needed)
        then Some top else None
    end.
Proof.
  intros Hfin Hsorted. destruct sources as [ | top rest]; [reflexivity | ].
  cbn [List.find].
  destruct (JsNumber.ge (BudgetControlAgent.available top) (Fin needed)) eqn:E;
    [reflexivity | ].
  inversion Hfin as [ | ? ? Htop Hrest]; subst.
  inversion Hsorted as [ | ? ? _ Hle]; subst.
  assert (Hshort : ~ (needed <= Sources.amount top)%Q).
  { intro H. apply (covers_iff top needed Htop) in H. congruence. }
  clear E Hfin Hsorted.
  induction rest as [ | u rest IH]; [reflexivity | ].
  inversion Hrest as [ | ? ? Hu Hrest']; subst.
  inversion Hle as [ | ? ? Hu_le Hle']; subst.
  cbn [List.find].
  destruct (JsNumber.ge (BudgetControlAgent.available u) (Fin needed)) eqn:E.
  - apply (covers_iff u needed Hu) in E. exfalso. apply Hshort. lra.
  - now apply IH.
Qed.

(** The line that moves what [over] lacks from [top]. *)
Definition draw (top : BudgetControlAgent.Underbudget)
           (over : BudgetControlAgent.Variance) : list string :=
  let needed := JsNumber.abs (BudgetControlAgent.variance over) in
  if JsNumber.ge (BudgetControlAgent.available top) needed
  then ["- Reallocate " ++ JsNumber.to_string needed ++ " from " ++
        BudgetControlAgent.u_category top ++ " to " ++ BudgetControlAgent.category over]
  else [].

Definition review (overruns : list BudgetControlAgent.Variance) : list string :=
  "Review category spending patterns" ::
  map (fun c =>
         BudgetControlAgent.category c ++ ": variance of " ++
         JsNumber.to_string (BudgetControlAgent.variance c) ++
         " (" ++ BudgetControlAgent.percent_text (BudgetControlAgent.variancePercent c) ++
         "%)") overruns.

(** X14.  Where a reallocation is drawn from.  On a category spend whose
    amounts are whole numbers from 0 to 10^15, for overruns whose variances
    are whole numbers, the adjustment the Budget agent recommends lists,
    after its heading and one line of review for each overrun, the
    reallocations; it takes every one of them from one category, the one
    with the largest amount left: an overrun gets a line when that amount
    covers it, and no line otherwise, even if smaller sources together
    would cover it; the amount of the source is not reduced from one
    overrun to the next.  Without any category under its plan, the agent
    says so and suggests to reduce discretionary expenses. *)
Theorem reallocations_come_from_the_largest_source :
  forall (context signals : JsVal) (categories : list (string * Q * Q))
         (overruns : list BudgetControlAgent.Variance),
    Js.prop context "categorySpend" = Ledger.categorySpend categories ->
    Ledger.all_whole categories ->
    Forall (fun over =>
              exists z : Z,
                BudgetControlAgent.variance over = JsNumber.of_Z z /\
                (Z.abs z <= 2 ^ 53)%Z) overruns ->
    exists r sources lines,
      BudgetControlAgent.recommendBudgetAdjustment overruns signals context = Ok r /\
      BudgetControlAgent.findUnderbudgetCategories context = Ok sources /\
      List.length lines = List.length overruns /\
      match sources with
      | [] =>
          outputActions r =
            ("Review category spending patterns" :: lines ++
             [""; "No underbudget categories available for reallocation";
              "Consider reducing upcoming discretionary expenses"])%list
      | top :: others =>
          outputActions r =
            ("Review category spending patterns" :: lines ++
             [""; "Recommended reallocations:"] ++
             List.concat (map (draw top) overruns))%list /\
          forall u, In u others -> (Sources.amount u <= Sources.amount top)%Q
      end.
Proof.
  intros context signals categories overruns Hspend _ Hnum.
  pose proof (findUnderbudgetCategories_of _ _ Hspend) as Hs.
  set (sources := Js.sort Sources.before
                    (map Sources.source_of (Sources.under categories))) in Hs.
  assert (Hfin : Forall Sources.finite sources).
  { apply (Permutation_Forall (sort_permutation Sources.before _)).
    apply sources_are_finite. }
  assert (Hsorted : Sources.descending sources)
    by apply sort_descending, sources_are_finite.
  unfold BudgetControlAgent.recommendBudgetAdjustment. rewrite Hs. cbn [Js.rbind].
  eexists. exists sources, (tl (review overruns)).
  split; [reflexivity | ]. split; [reflexivity | ].
  split; [unfold review; cbn [tl]; apply length_map | ].
  cbn [outputActions BaseAgent.createRecommendation].
  destruct sources as [ | top others]; [reflexivity | ].
  cbn [List.length Nat.ltb Nat.leb]. split.
  - assert (Hmap : map (BudgetControlAgent.reallocation (top :: others)) overruns =
                   map (draw top) overruns).
    { apply map_ext_in. intros over Hin. rewrite Forall_forall in Hnum.
      destruct (Hnum over Hin) as (z & Hz & _).
      unfold BudgetControlAgent.reallocation, draw. rewrite Hz.
      unfold JsNumber.of_Z. cbn [JsNumber.abs].
      rewrite (largest_source_or_none (top :: others) _ Hfin Hsorted).
      destruct (JsNumber.ge _ _); reflexivity. }
    rewrite Hmap. unfold review. cbn [List.concat List.app tl].
    now rewrite app_nil_r.
  - inversion Hsorted as [ | ? ? _ Hle]; subst.
    intros u Hu. rewrite Forall_forall in Hle. now apply Hle.
Qed.

Lemma reallocations_come_from_the_largest_source_witness :
  exists r,
    BudgetControlAgent.recommendBudgetAdjustment
      (BudgetControlAgent.findOverruns (map Ledger.variance_of Trip.categories))
      (JObj []) Trip.day = Ok r /\
    outputActions r =
      ["Review category spending patterns";
       "golf: variance of 600 (15.0%)";
       "";
       "Recommended reallocations:";
       "- Reallocate 600 from guides to golf"].
Proof.
  destruct (reallocations_come_from_the_largest_source Trip.day (JObj [])
              Trip.categories
              (BudgetControlAgent.findOverruns (map Ledger.variance_of Trip.categories)))
    as (r & sources & lines & Hr & Hs & _ & Ha).
  - reflexivity.
  - exact trip_is_whole.
  - constructor; [exists 600%Z; split; [reflexivity | lia] | constructor].
  - exists r. split; [exact Hr | ].
    vm_compute in Hr. injection Hr as <-. reflexivity.
Defined.

(** ** A budget the agent can read *)

(** The shape the Budget agent relies on: a trip with a budget, a category
    spend that is an object of spends, and unused prepaid items, if any, in
    an array.  Nothing is asked of the amounts. *)
Definition readable_budget (context : JsVal) : Prop :=
  Js.is_nullish (Js.prop context "trip") = false /\
  Js.is_nullish (Js.prop (Js.prop context "trip") "budget") = false /\
  (exists spends,
      Js.prop context "categorySpend" = JObj spends /\
      Forall (fun kv => Js.is_nullish (snd kv) = false) spends) /\
  (Js.truthy (Js.prop context "unusedPrepaid") = false \/
   exists items,
     Js.prop context "unusedPrepaid" = JArr items /\
     Forall (fun item => Js.is_nullish item = false) items).

Lemma variances_of_spends (spends : list (string * JsVal)) :
  Forall (fun kv => Js.is_nullish (snd kv) = false) spends ->
  exists variances, Js.mapM BudgetControlAgent.category_variance spends = Ok variances.
Proof.
  induction 1 as [ | [category spend] rest Hspend _ [variances IH]].
  - eexists. reflexivity.
  - cbn [Js.mapM]. unfold BudgetControlAgent.category_variance at 1, Js.get.
    cbn [snd] in Hspend. rewrite Hspend. cbn [Js.rbind]. rewrite IH.
    eexists. reflexivity.
Qed.

Lemma sources_of_spends (context : JsVal) (spends : list (string * JsVal)) :
  Js.prop context "categorySpend" = JObj spends ->
  Forall (fun kv => Js.is_nullish (snd kv) = false) spends ->
  exists sources, BudgetControlAgent.findUnderbudgetCategories context = Ok sources.
Proof.
  intros Hc Hspends. unfold BudgetControlAgent.findUnderbudgetCategories.
  rewrite Hc. clear Hc. cbn [Js.entries Js.is_nullish Js.own_props Js.rbind].
  assert (Hm : exists l,
             Js.mapM
               (fun '(category, spend) =>
                  Js.rbind (Js.get spend "actual") (fun actual =>
                  Ok (category, actual, Js.prop spend "planned")))
               spends = Ok l).
  { induction Hspends as [ | [category spend] rest Hspend _ [l IH]].
    - eexists. reflexivity.
    - cbn [Js.mapM]. cbv beta iota. unfold Js.get at 1. cbn [snd] in Hspend.
      rewrite Hspend.
      cbn [Js.rbind]. rewrite IH. eexists. reflexivity. }
  destruct Hm as [l ->]. cbn [Js.rbind]. eauto.
Qed.

Lemma total_of_items (items : list JsVal) :
  Forall (fun item => Js.is_nullish item = false) items ->
  forall sum, exists total,
    Js.reduce (fun sum item =>
                 Js.rbind (Js.get item "amount") (fun amount => Ok (Js.add sum amount)))
              items sum = Ok total.
Proof.
  induction 1 as [ | item rest Hitem _ IH]; intro sum.
  - eexists. reflexivity.
  - cbn [Js.reduce]. unfold Js.get at 1. rewrite Hitem. cbn [Js.rbind]. apply IH.
Qed.

(** The amounts and the texts that the Budget agent computes with or
    writes are primitives: absent, [null], booleans, numbers or strings. *)
Definition primitive_amounts (context : JsVal) : Prop :=
  let budget := Js.prop (Js.prop context "trip") "budget" in
  primitive (Js.prop budget "total") /\
  primitive (Js.prop budget "spent") /\
  (forall spends,
      Js.prop context "categorySpend" = JObj spends ->
      Forall (fun kv => primitive (Js.prop (snd kv) "planned") /\
                        primitive (Js.prop (snd kv) "actual")) spends) /\
  (forall items,
      Js.prop context "unusedPrepaid" = JArr items ->
      Forall (fun item => primitive (Js.prop item "amount") /\
                          primitive (Js.prop item "item") /\
                          primitive (Js.prop item "category")) items).

(** X15.  The Budget agent throws on a missing shape, never on an amount.  On
    a valid context with a trip that has a budget, a category spend that is
    an object whose values are not null or undefined, and unused prepaid
    items that are absent or an array of such values, [analyze] returns a
    recommendation whatever the amounts are, as long as they are primitives
    (no object, no array): a total of zero, a missing or negative amount or
    one that is not a number end up in the figures of the recommendation (as
    NaN or Infinity), not in an exception. *)
Theorem budget_agent_reads_any_amounts :
  forall (context : JsVal) (w : World),
    BaseAgent.validateContext BudgetControlAgent.self context
      ["tripId"; "userId"; "date"; "trip"; "categorySpend"] = Ok tt ->
    readable_budget context ->
    primitive_amounts context ->
    exists r, World.result (BudgetControlAgent.analyze context) w = Ok r.
Proof.
  intros context w Hvalid (Htrip & Hbudget & (spends & Hspend & Hspends) & Hprepaid) _.
  rewrite (budget_analyze_result context w).
  unfold Outcome.budget. rewrite Hvalid. cbn [Js.rbind].
  unfold BudgetControlAgent.collectSignals. cbv zeta.
  unfold Js.get at 1. rewrite Htrip. cbn [Js.rbind].
  unfold Js.get at 1. rewrite Hbudget. cbn [Js.rbind]. rewrite Hspend.
  cbn [Js.rbind Js.entries Js.is_nullish Js.own_props].
  unfold BudgetControlAgent.calculateVariances. rewrite Hspend.
  cbn [Js.rbind Js.entries Js.is_nullish Js.own_props].
  destruct (variances_of_spends spends Hspends) as [variances ->]. cbn [Js.rbind].
  destruct (sources_of_spends context spends Hspend Hspends) as [sources Hsources].
  unfold Outcome.budget_advice.
  destruct (0 <? _)%nat.
  { unfold BudgetControlAgent.recommendCriticalAction. rewrite Hsources.
    cbn. eauto. }
  destruct (0 <? _)%nat.
  { unfold BudgetControlAgent.recommendBudgetAdjustment. rewrite Hsources.
    cbn. eauto. }
  destruct (_ && _) eqn:E.
  - destruct Hprepaid as [Hfalse | (items & Hitems & Hall)].
    { rewrite Hfalse in E. discriminate. }
    unfold BudgetControlAgent.recommendPrepaidUtilization. rewrite Hitems.
    cbn [Js.as_array Js.rbind].
    destruct (total_of_items items Hall (Js.num 0)) as [total ->].
    cbn. eauto.
  - unfold BudgetControlAgent.buildSummary. cbn. eauto.
Qed.

Module EmptyPurse.

(** A trip whose budget is zero, with one category without amounts. *)
Definition context : JsVal :=
  JObj (Sample.envelope ++
        [("trip", JObj [("budget", JObj [("total", Js.num 0); ("spent", Js.num 0)])]);
         ("categorySpend", JObj [("golf", JObj [])])])%list.

End EmptyPurse.

Lemma budget_agent_reads_any_amounts_witness :
  exists r,
    World.result (BudgetControlAgent.analyze EmptyPurse.context) Sample.still = Ok r /\
    rationale r =
      "Total budget: 0, Spent: 0 (NaN%). Remaining: 0. 1 categories on track".
Proof.
  destruct (budget_agent_reads_any_amounts EmptyPurse.context Sample.still)
    as [r Hr].
  - reflexivity.
  - split; [reflexivity | ]. split; [reflexivity | ]. split.
    + eexists. split; [reflexivity | ]. constructor; [reflexivity | constructor].
    + left. reflexivity.
  - split; [exact I | ]. split; [exact I | ]. split.
    + intros spends Hspends. injection Hspends as <-.
      constructor; [split; exact I | constructor].
    + intros items Hitems. discriminate Hitems.
  - exists r. split; [exact Hr | ].
    vm_compute in Hr. injection Hr as <-. reflexivity.
Defined.

(** * More of the Transport agent *)

(** ** The buffer a transfer requires *)

(** The first of Vietnam, Japan and Korea that a location names, if any. *)
Definition country_of (location : string) : option string :=
  List.find (fun c => JsString.includes (JsString.toLowerCase location) c)
            ["vietnam"; "japan"; "korea"].

Definition same_country (a b : option string) : bool :=
  match a, b with
  | Some x, Some y => String.eqb x y
  | None, None => true
  | _, _ => false
  end.

Lemma isInternationalFlight_of (context : JsVal) (current next : string) :
  Js.prop context "currentLocation" = JStr current ->
  Js.prop context "nextDestination" = JStr next ->
  TransportLogisticsAgent.isInternationalFlight context =
  Ok (negb (same_country (country_of current) (country_of next))).
Proof.
  intros Hc Hn. unfold TransportLogisticsAgent.isInternationalFlight,
    TransportLogisticsAgent.lower_opt.
  rewrite Hc, Hn. reflexivity.
Qed.

Lemma names_no_country (location : string) :
  (forall c, In c ["Vietnam"; "Japan"; "Korea"] -> ~ occurs_ignoring_case c location) ->
  country_of location = None.
Proof.
  intro H. unfold country_of. cbn [List.find].
  assert (G : forall c, In c ["Vietnam"; "Japan"; "Korea"] ->
              JsString.includes (JsString.toLowerCase location)
                                (JsString.toLowerCase c) = false).
  { intros c Hc. apply not_true_is_false. intro E.
    apply (H c Hc). now apply occurs_ignoring_case_iff. }
  pose proof (G "Vietnam") as G1. pose proof (G "Japan") as G2.
  pose proof (G "Korea") as G3.
  change (JsString.toLowerCase "Vietnam") with "vietnam" in G1.
  change (JsString.toLowerCase "Japan") with "japan" in G2.
  change (JsString.toLowerCase "Korea") with "korea" in G3.
  rewrite G1, G2, G3; cbn; auto.
Qed.

Lemma names_a_country (location c : string) :
  In c ["Vietnam"; "Japan"; "Korea"] -> occurs_ignoring_case c location ->
  exists found, country_of location = Some found.
Proof.
  intros Hc Hocc. apply occurs_ignoring_case_iff in Hocc.
  unfold country_of. cbn [List.find].
  destruct (JsString.includes (JsString.toLowerCase location) "vietnam") eqn:E1;
    [eauto | ].
  destruct (JsString.includes (JsString.toLowerCase location) "japan") eqn:E2;
    [eauto | ].
  destruct (JsString.includes (JsString.toLowerCase location) "korea") eqn:E3;
    [eauto | ].
  exfalso.
  change "vietnam" with (JsString.toLowerCase "Vietnam") in E1.
  change "japan" with (JsString.toLowerCase "Japan") in E2.
  change "korea" with (JsString.toLowerCase "Korea") in E3.
  destruct Hc as [<- | [<- | [<- | []]]]; congruence.
Qed.

(** X16.  The buffer table.  Whenever [assessBuffers] returns, the buffer it
    requires is 0 exactly when no transport type or no departure time is
    given, and otherwise 120 or 90 minutes for a flight, 45 or 15 for a
    private car and 15 for any other type.  The 30 minutes of the hotel
    check-in buffer are never required, and no current buffer is ever
    computed. *)
Theorem required_buffer_table :
  forall (context : JsVal) (assessment : TransportLogisticsAgent.BufferAssessment),
    TransportLogisticsAgent.assessBuffers context = Ok assessment ->
    let required := TransportLogisticsAgent.requiredBuffer assessment in
    let transportType := Js.prop context "transportType" in
    let unscheduled :=
      negb (Js.truthy transportType) ||
      negb (Js.truthy (Js.prop context "departureTime")) in
    TransportLogisticsAgent.currentBuffer assessment = None /\
    (unscheduled = true -> required = 0%Z) /\
    (unscheduled = false ->
     if Js.is_str transportType "flight" then required = 120%Z \/ required = 90%Z
     else if Js.is_str transportType "private_car" then required = 45%Z \/ required = 15%Z
     else required = 15%Z) /\
    required <> TransportLogisticsAgent.HOTEL_CHECKIN_BUFFER.
Proof.
  intros context assessment H required transportType unscheduled.
  unfold TransportLogisticsAgent.assessBuffers in H.
  fold transportType in H. fold unscheduled in H. subst required.
  destruct unscheduled.
  { injection H as <-. cbn. repeat split; try discriminate. }
  destruct (Js.is_str transportType "flight").
  { destruct (TransportLogisticsAgent.isInternationalFlight context) as [[ | ] | e];
      [ | | discriminate]; cbn in H; injection H as <-; cbn;
      repeat split; try discriminate; auto. }
  destruct (Js.is_str transportType "private_car").
  { destruct (TransportLogisticsAgent.isGolfCourseTransfer context) as [[ | ] | e];
      [ | | discriminate]; cbn in H; injection H as <-; cbn;
      repeat split; try discriminate; auto. }
  cbn in H. injection H as <-. cbn. repeat split; try discriminate.
Qed.

Lemma required_buffer_table_witness :
  exists assessment,
    TransportLogisticsAgent.assessBuffers TightTransfer.context = Ok assessment /\
    TransportLogisticsAgent.requiredBuffer assessment = 120%Z.
Proof.
  destruct (TransportLogisticsAgent.assessBuffers TightTransfer.context)
    as [assessment | e] eqn:H; [ | vm_compute in H; discriminate].
  exists assessment. split; [reflexivity | ].
  destruct (required_buffer_table TightTransfer.context assessment H)
    as (_ & _ & Hflight & _).
  destruct (Hflight eq_refl) as [E | E]; [exact E | ].
  vm_compute in H. injection H as <-. discriminate E.
Defined.

(** X17.  Which flights count as international.  For a flight with a
    departure time between two locations given as strings (without the
    capital I with a dot above and the Kelvin sign, which the runtime lowers
    to ASCII letters), the buffer required is 90 minutes when both locations
    name the same one of Vietnam, Japan and Korea (the first of the three,
    in that order, that each names) or when neither names any of them, and
    120 minutes otherwise.  So a destination written without its country
    makes a flight within Vietnam international, and a flight between two
    locations outside the three countries is domestic. *)
Theorem flights_are_international_by_name :
  forall (context : JsVal) (current next : string),
    Js.prop context "transportType" = JStr "flight" ->
    Js.truthy (Js.prop context "departureTime") = true ->
    Js.prop context "currentLocation" = JStr current ->
    Js.prop context "nextDestination" = JStr next ->
    ascii_case current -> ascii_case next ->
    exists assessment,
      TransportLogisticsAgent.assessBuffers context = Ok assessment /\
      TransportLogisticsAgent.requiredBuffer assessment =
        (if same_country (country_of current) (country_of next) then 90 else 120)%Z /\
      let names c location := occurs_ignoring_case c location in
      let countries := ["Vietnam"; "Japan"; "Korea"] in
      ((forall c, In c countries -> ~ names c current) ->
       (forall c, In c countries -> ~ names c next) ->
       TransportLogisticsAgent.requiredBuffer assessment = 90%Z) /\
      (forall c, In c countries -> names c current ->
       (forall c', In c' countries -> ~ names c' next) ->
       TransportLogisticsAgent.requiredBuffer assessment = 120%Z).
Proof.
  intros context current next Htype Hdeparture Hcurrent Hnext _ _.
  unfold TransportLogisticsAgent.assessBuffers.
  rewrite Htype, Hdeparture, (isInternationalFlight_of _ _ _ Hcurrent Hnext).
  cbn [Js.truthy String.eqb negb orb Js.is_str Ascii.eqb Bool.eqb Js.rbind].
  eexists. split; [reflexivity | ].
  cbn [TransportLogisticsAgent.requiredBuffer].
  split; [destruct (same_country _ _); reflexivity | ].
  split.
  - intros Hc Hn. rewrite (names_no_country _ Hc), (names_no_country _ Hn). reflexivity.
  - intros c Hin Hc Hn.
    destruct (names_a_country _ _ Hin Hc) as [found ->].
    rewrite (names_no_country _ Hn). reflexivity.
Qed.

Module DomesticFlight.

(** A flight from Da Nang to Hanoi. *)
Definition context : JsVal :=
  JObj (Sample.envelope ++
        [("currentLocation", JStr "Da Nang, Vietnam");
         ("nextDestination", JStr "Hanoi");
         ("transportType", JStr "flight");
         ("departureTime", JStr "10:15")])%list.

End DomesticFlight.

Lemma flights_are_international_by_name_witness :
  exists assessment,
    TransportLogisticsAgent.assessBuffers DomesticFlight.context = Ok assessment /\
    TransportLogisticsAgent.requiredBuffer assessment = 120%Z.
Proof.
  destruct (flights_are_international_by_name DomesticFlight.context
              "Da Nang, Vietnam" "Hanoi") as (assessment & Ha & _ & _ & H).
  - reflexivity.
  - reflexivity.
  - reflexivity.
  - reflexivity.
  - split; reflexivity.
  - split; reflexivity.
  - exists assessment. split; [exact Ha | ].
    apply (H "Vietnam").
    + now left.
    + exists "Da Nang, ", "Vietnam", "". split; reflexivity.
    + intros c Hin Hocc. apply occurs_ignoring_case_iff in Hocc.
      destruct Hin as [<- | [<- | [<- | []]]]; vm_compute in Hocc; discriminate.
Defined.

(** ** Early departures *)

(** The hour [h] written with two digits. *)
Definition two_digits (h : nat) : string :=
  String (JsNumber.digit_char (Z.of_nat (h / 10)))
         (String (JsNumber.digit_char (Z.of_nat (h mod 10))) "").

Definition one_digit (h : nat) : string :=
  String (JsNumber.digit_char (Z.of_nat h)) "".

(** X18.  A departure is early before 7.  For a departure time written as
    the hour, a colon and anything after it, [isEarlyDeparture] holds exactly
    when the hour is below 7, whether the hour is written with one digit or
    with two.  A time that starts with an ASCII character that is neither a
    digit, a sign nor white space has no hour that can be read and is never
    early. *)
Theorem departure_is_early_before_seven :
  (forall (h : nat) (rest : string),
      (h < 24)%nat ->
      TransportLogisticsAgent.isEarlyDeparture (JStr (two_digits h ++ ":" ++ rest))
      = Ok (h <? 7)%nat) /\
  (forall (h : nat) (rest : string),
      (h < 10)%nat ->
      TransportLogisticsAgent.isEarlyDeparture (JStr (one_digit h ++ ":" ++ rest))
      = Ok (h <? 7)%nat) /\
  (forall (c : ascii) (rest : string),
      (nat_of_ascii c < 128)%nat ->
      JsString.digit_of 10 c = None ->
      JsString.is_space c = false ->
      c <> "+"%char -> c <> "-"%char ->
      TransportLogisticsAgent.isEarlyDeparture (JStr (String c rest)) = Ok false).
Proof.
  split; [ | split].
  - intros h rest Hh.
    do 24 (destruct h as [ | h]; [reflexivity | ]). lia.
  - intros h rest Hh.
    do 10 (destruct h as [ | h]; [reflexivity | ]). lia.
  - intros c rest _ Hdigit Hspace Hplus Hminus.
    unfold TransportLogisticsAgent.isEarlyDeparture.
    cbn [Js.as_string Js.rbind JsString.split_head].
    destruct (Ascii.eqb c ":") eqn:Hcolon; [reflexivity | ].
    unfold JsNumber.parseInt. cbn [JsString.trim_start]. rewrite Hspace.
    assert (Hsign : JsNumber.signed_body (String c (JsString.split_head ":" rest)) =
                    (false, String c (JsString.split_head ":" rest))).
    { unfold JsNumber.signed_body.
      destruct c as [[ | ] [ | ] [ | ] [ | ] [ | ] [ | ] [ | ] [ | ]];
        try reflexivity; congruence. }
    rewrite Hsign.
    assert (Hradix : JsString.radix_prefix (String c (JsString.split_head ":" rest)) = None).
    { unfold JsString.radix_prefix.
      destruct c as [[ | ] [ | ] [ | ] [ | ] [ | ] [ | ] [ | ] [ | ]];
        try reflexivity; discriminate Hdigit. }
    rewrite Hradix. cbn [JsString.read_radix]. rewrite Hdigit. reflexivity.
Qed.

Lemma departure_is_early_before_seven_witness :
  TransportLogisticsAgent.isEarlyDeparture (JStr "06:45") = Ok true /\
  TransportLogisticsAgent.isEarlyDeparture (JStr "7:00") = Ok false /\
  TransportLogisticsAgent.isEarlyDeparture (JStr "morning") = Ok false.
Proof.
  destruct departure_is_early_before_seven as (Htwo & Hone & Hnone).
  split; [ | split].
  - apply (Htwo 6%nat "45"). lia.
  - apply (Hone 7%nat "00"). lia.
  - apply (Hnone "m"%char "orning");
      [cbn; lia | reflexivity | reflexivity | | ]; discriminate.
Defined.

(** ** Risks and their mitigations *)

(** What the heading of the mobility risk adds to a search for one of the
    four words the mitigations are keyed on: nothing. *)
Lemma mobility_heading (text word : string) :
  In word ["luggage"; "mobility"; "segments"; "Early departure"] ->
  JsString.includes ("Mobility considerations: " ++ text) word =
  JsString.includes text word.
Proof.
  intros [<- | [<- | [<- | [<- | []]]]]; reflexivity.
Qed.

Lemma some_items (items : list JsVal) :
  items <> [] -> Js.gt (Js.prop (JArr items) "length") (Js.num 0) = true.
Proof.
  intro H. cbn [Js.prop String.eqb Ascii.eqb Bool.eqb]. unfold Js.length_val.
  apply (js_gt_num (inject_Z (Z.of_nat (List.length items))) (inject_Z 0)).
  rewrite <- Zlt_Qlt. destruct items; [contradiction | cbn [List.length]; lia].
Qed.

Definition luggage_mitigations : list string :=
  ["- Arrange porter or luggage assistance";
   "- Consider shipping some items ahead"].

Definition mobility_mitigations : list string :=
  ["- Pre-book wheelchair or mobility assistance";
   "- Request priority boarding";
   "- Allocate extra time for boarding"].

Definition segment_mitigations : list string :=
  ["- Build in rest periods between segments";
   "- Consider overnight stay to break up journey"].

Definition departure_mitigations : list string :=
  ["- Ensure 8-hour sleep window before departure";
   "- Prepare luggage night before";
   "- Arrange express checkout"].

Definition absent_or_string (v : JsVal) : Prop :=
  v = JUndefined \/ exists s, v = JStr s.

Definition absent_or_array (v : JsVal) : Prop :=
  v = JUndefined \/ exists items, v = JArr items.

(** A string of ASCII characters. *)
Definition ascii_text (s : string) : Prop :=
  Forall (fun c => (nat_of_ascii c < 128)%nat) (list_ascii_of_string s).

(** The values that the Transport agent compares or writes are of the kinds
    its context declares: the date, the transport type and the arrival time
    are primitives, the luggage count is absent or a number, the planned
    segments are absent or an array, and the mobility considerations are
    strings. *)
Definition plain_transfer (context : JsVal) : Prop :=
  primitive (Js.prop context "date") /\
  primitive (Js.prop context "transportType") /\
  primitive (Js.prop context "arrivalTime") /\
  measured (Js.prop context "luggageCount") /\
  absent_or_array (Js.prop context "plannedSegments") /\
  (forall items,
      Js.prop context "mobilityConsiderations" = JArr items ->
      Forall (fun item => exists s, item = JStr s) items).

(** No risk but the mobility considerations, if any. *)
Definition no_other_risk (context : JsVal) : Prop :=
  let luggageCount := Js.prop context "luggageCount" in
  let plannedSegments := Js.prop context "plannedSegments" in
  let departureTime := Js.prop context "departureTime" in
  Js.truthy luggageCount && Js.gt luggageCount (Js.num 3) = false /\
  Js.truthy plannedSegments && Js.gt (Js.prop plannedSegments "length") (Js.num 2)
    = false /\
  (Js.truthy departureTime = false \/
   TransportLogisticsAgent.isEarlyDeparture departureTime = Ok false).

(** X19.  The mitigations are keyed on words, with their case.  On a valid
    context with a destination, whose values are of the kinds that the
    context declares and whose departure time, if any, is written in ASCII,
    and whose only risk is a list of mobility considerations, the Transport
    agent reports the risk, with priority medium, under the heading
    "Mobility considerations: "; but it looks for the word "mobility" in the
    risk, which the heading does not contain.  So wheelchair assistance,
    priority boarding and extra boarding time are proposed only when the
    considerations themselves contain "mobility"; and considerations that
    contain "luggage", "segments" or "Early departure" bring the mitigations
    of those risks. *)
Theorem mobility_mitigations_depend_on_a_word :
  forall (context : JsVal) (w : World) (items : list JsVal)
         (assessment : TransportLogisticsAgent.BufferAssessment),
    BaseAgent.validateContext TransportLogisticsAgent.self context
      ["tripId"; "userId"; "date"; "currentLocation"] = Ok tt ->
    Js.truthy (Js.prop context "nextDestination") = true ->
    TransportLogisticsAgent.assessBuffers context = Ok assessment ->
    plain_transfer context ->
    (Js.prop context "departureTime" = JUndefined \/
     exists time, Js.prop context "departureTime" = JStr time /\ ascii_text time) ->
    no_other_risk context ->
    Js.prop context "mobilityConsiderations" = JArr items -> items <> [] ->
    let text := Js.join ", " items in
    exists r,
      World.result (TransportLogisticsAgent.analyze context) w = Ok r /\
      decision r = "Transport risk factors detected" /\
      priority r = medium /\
      outputActions r =
        List.concat
          [["Risk factors identified:";
            "- Mobility considerations: " ++ text;
            "";
            "Recommended mitigations:"];
           if JsString.includes text "luggage" then luggage_mitigations else [];
           if JsString.includes text "mobility" then mobility_mitigations else [];
           if JsString.includes text "segments" then segment_mitigations else [];
           if JsString.includes text "Early departure" then departure_mitigations
           else []].
Proof.
  intros context w items assessment Hvalid Hnext Hbuffer _ _
         (Hluggage & Hsegments & Hdep) Hitems Hsome text.
  rewrite (transport_analyze_result context w).
  unfold Outcome.transport. rewrite Hvalid. cbn [Js.rbind].
  unfold Outcome.transport_advice. cbv zeta. rewrite Hnext. cbn [negb].
  pose proof (assessBuffers_sufficient context) as Hsufficient.
  rewrite Hbuffer in *. cbn in Hsufficient. cbn [Js.rbind]. rewrite Hsufficient.
  assert (Hrisks : TransportLogisticsAgent.identifyRisks context =
                   Ok ["Mobility considerations: " ++ text]).
  { unfold TransportLogisticsAgent.identifyRisks. cbv zeta.
    rewrite Hluggage, Hsegments, Hitems, (some_items items Hsome).
    cbn [Js.truthy andb Js.as_array Js.rbind].
    destruct Hdep as [Hfalse | Hlate].
    - rewrite Hfalse. reflexivity.
    - destruct (Js.truthy (Js.prop context "departureTime")); [ | reflexivity].
      rewrite Hlate. reflexivity. }
  rewrite Hrisks. cbn [Js.rbind List.length Nat.ltb Nat.leb].
  eexists. split; [reflexivity | ]. split; [reflexivity | ]. split; [reflexivity | ].
  unfold TransportLogisticsAgent.recommendRiskMitigation,
    TransportLogisticsAgent.mentions.
  cbn [outputActions BaseAgent.createRecommendation existsb map].
  rewrite !mobility_heading by (cbn; auto). rewrite !orb_false_r.
  reflexivity.
Qed.

Module Wheelchair.

(** A transfer by car for a traveller in a wheelchair. *)
Definition context : JsVal :=
  JObj (Sample.envelope ++
        [("currentLocation", JStr "Da Nang, Vietnam");
         ("nextDestination", JStr "Hoi An, Vietnam");
         ("transportType", JStr "private_car");
         ("departureTime", JStr "10:00");
         ("mobilityConsiderations", JArr [JStr "wheelchair user"])])%list.

End Wheelchair.

Lemma mobility_mitigations_depend_on_a_word_witness :
  exists r,
    World.result (TransportLogisticsAgent.analyze Wheelchair.context) Sample.still
      = Ok r /\
    outputActions r =
      ["Risk factors identified:";
       "- Mobility considerations: wheelchair user";
       "";
       "Recommended mitigations:"].
Proof.
  destruct (TransportLogisticsAgent.assessBuffers Wheelchair.context)
    as [assessment | e] eqn:Hbuffer; [ | vm_compute in Hbuffer; discriminate].
  destruct (mobility_mitigations_depend_on_a_word Wheelchair.context Sample.still
              [JStr "wheelchair user"] assessment) as (r & Hr & _ & _ & Ha).
  - reflexivity.
  - reflexivity.
  - exact Hbuffer.
  - split; [exact I | ]. split; [exact I | ]. split; [exact I | ].
    split; [left; reflexivity | ]. split; [left; reflexivity | ].
    intros items Hitems. injection Hitems as <-.
    constructor; [eexists; reflexivity | constructor].
  - right. exists "10:00". split; [reflexivity | ].
    unfold ascii_text. cbn [list_ascii_of_string].
    repeat (apply Forall_cons; [cbn; lia | ]). apply Forall_nil.
  - split; [reflexivity | ]. split; [reflexivity | ]. right. reflexivity.
  - reflexivity.
  - discriminate.
  - exists r. split; [exact Hr | ]. rewrite Ha. reflexivity.
Defined.

(** ** A transfer the agent can read *)

(** The three answers of the Transport agent. *)
Definition transport_answer (r : AgentRecommendation) : Prop :=
  (decision r = "No transport scheduled" /\ priority r = low \/
   decision r = "Transport risk factors detected" /\ priority r = medium \/
   decision r = "Transport plan confirmed" /\ priority r = low) /\
  approvalRequired r = false.

Lemma lower_opt_ok (v : JsVal) :
  absent_or_string v -> exists lowered, TransportLogisticsAgent.lower_opt v = Ok lowered.
Proof.
  intros [-> | (s & ->)]; eexists; reflexivity.
Qed.

Lemma assessBuffers_ok (context : JsVal) :
  (exists current, Js.prop context "currentLocation" = JStr current) ->
  absent_or_string (Js.prop context "nextDestination") ->
  exists assessment, TransportLogisticsAgent.assessBuffers context = Ok assessment.
Proof.
  intros (current & Hc) Hn. unfold TransportLogisticsAgent.assessBuffers.
  destruct (_ || _); [eauto | ].
  destruct (lower_opt_ok _ Hn) as [lowered Hl].
  destruct (Js.is_str _ "flight").
  { unfold TransportLogisticsAgent.isInternationalFlight. rewrite Hc, Hl. cbn. eauto. }
  destruct (Js.is_str _ "private_car").
  { unfold TransportLogisticsAgent.isGolfCourseTransfer,
      TransportLogisticsAgent.destination_includes.
    rewrite Hl. cbn [Js.rbind]. destruct (match lowered with Some _ => _ | None => _ end);
      cbn; eauto. }
  cbn. eauto.
Qed.

Lemma identifyRisks_ok (context : JsVal) :
  absent_or_string (Js.prop context "departureTime") ->
  absent_or_array (Js.prop context "mobilityConsiderations") ->
  exists risks, TransportLogisticsAgent.identifyRisks context = Ok risks.
Proof.
  intros Hd Hm. unfold TransportLogisticsAgent.identifyRisks. cbv zeta.
  assert (Hmobility : exists mobility,
             (if Js.truthy (Js.prop context "mobilityConsiderations") &&
                 Js.gt (Js.prop (Js.prop context "mobilityConsiderations") "length")
                       (Js.num 0)
              then Js.rbind (Js.as_array (Js.prop context "mobilityConsiderations") "join")
                     (fun items => Ok ["Mobility considerations: " ++ Js.join ", " items])
              else Ok []) = Ok mobility).
  { destruct Hm as [-> | (items & ->)]; [eexists; reflexivity | ].
    destruct (_ && _); eexists; reflexivity. }
  destruct Hmobility as [mobility ->]. cbn [Js.rbind].
  destruct Hd as [-> | (s & ->)]; [eexists; reflexivity | ].
  destruct (Js.truthy (JStr s)); eexists; reflexivity.
Qed.

(** X20.  The Transport agent throws on a wrong shape only, and has three
    answers.  On a valid context whose current location is a string, whose
    destination and departure time are absent or strings, whose mobility
    considerations are absent or an array of strings and whose other values
    are of the kinds that the context declares, [analyze] returns a
    recommendation; it is "No transport scheduled" or "Transport plan
    confirmed", of priority low, or "Transport risk factors detected", of
    priority medium, and it never requires approval. *)
Theorem transport_agent_has_three_answers :
  forall (context : JsVal) (w : World),
    BaseAgent.validateContext TransportLogisticsAgent.self context
      ["tripId"; "userId"; "date"; "currentLocation"] = Ok tt ->
    (exists current, Js.prop context "currentLocation" = JStr current) ->
    absent_or_string (Js.prop context "nextDestination") ->
    absent_or_string (Js.prop context "departureTime") ->
    absent_or_array (Js.prop context "mobilityConsiderations") ->
    plain_transfer context ->
    exists r,
      World.result (TransportLogisticsAgent.analyze context) w = Ok r /\
      transport_answer r.
Proof.
  intros context w Hvalid Hcurrent Hnext Hdeparture Hmobility _.
  rewrite (transport_analyze_result context w).
  unfold Outcome.transport. rewrite Hvalid. cbn [Js.rbind].
  unfold Outcome.transport_advice. cbv zeta.
  destruct (negb _).
  { eexists. split; [reflexivity | ]. split; [left; split; reflexivity | reflexivity]. }
  destruct (assessBuffers_ok context Hcurrent Hnext) as [assessment Ha].
  pose proof (assessBuffers_sufficient context) as Hsufficient.
  rewrite Ha in *. cbn in Hsufficient. cbn [Js.rbind]. rewrite Hsufficient.
  destruct (identifyRisks_ok context Hdeparture Hmobility) as [risks ->].
  cbn [Js.rbind]. destruct (0 <? _)%nat.
  - eexists. split; [reflexivity | ].
    split; [right; left; split; reflexivity | reflexivity].
  - eexists. split; [reflexivity | ].
    split; [right; right; split; reflexivity | reflexivity].
Qed.

Lemma transport_agent_has_three_answers_witness :
  exists r,
    World.result (TransportLogisticsAgent.analyze DomesticFlight.context) Sample.still
      = Ok r /\
    decision r = "Transport plan confirmed" /\
    transport_answer r.
Proof.
  destruct (transport_agent_has_three_answers DomesticFlight.context Sample.still)
    as (r & Hr & Hanswer).
  - reflexivity.
  - eexists. reflexivity.
  - right. eexists. reflexivity.
  - right. eexists. reflexivity.
  - left. reflexivity.
  - split; [exact I | ]. split; [exact I | ]. split; [exact I | ].
    split; [left; reflexivity | ]. split; [left; reflexivity | ].
    intros items Hitems. discriminate Hitems.
  - exists r. split; [exact Hr | ]. split; [ | exact Hanswer].
    vm_compute in Hr. injection Hr as <-. reflexivity.
Defined.

(** * The console *)

(** What a computation does to the world: it appends [entries] to the
    console, and reads the clock once for each of them, in their order. *)
Definition appends {A} (m : M A) (w : World) (entries : list JsVal) : Prop :=
  snd (m w) =
    {| World.clock := World.clock w;
       World.reads := World.reads w + List.length entries;
       World.console := (World.console w ++ entries)%list |} /\
  forall k entry,
    nth_error entries k = Some entry ->
    Js.prop entry "timestamp" = JStr (World.clock w (World.reads w + k)).

(** [m] only logs. *)
Definition logs {A} (m : M A) : Prop :=
  forall w, exists entries, appends m w entries.

Lemma world_eta (w : World) :
  w = {| World.clock := World.clock w; World.reads := World.reads w;
         World.console := World.console w |}.
Proof. destruct w; reflexivity. Qed.

Section Logs.

Context {A B : Type}.

Lemma appends_nothing (m : M A) (w : World) :
  snd (m w) = w -> appends m w [].
Proof.
  intro H. split.
  - rewrite H. cbn. rewrite Nat.add_0_r, app_nil_r. apply world_eta.
  - intros [ | k] entry E; discriminate E.
Qed.

Lemma logs_ret (a : A) : logs (World.ret a).
Proof. intro w. exists []. now apply appends_nothing. Qed.

Lemma logs_lift (r : Result A) : logs (World.lift r).
Proof. intro w. exists []. now apply appends_nothing. Qed.

Lemma logs_bind (m : M A) (f : A -> M B) :
  logs m -> (forall a, logs (f a)) -> logs (World.bind m f).
Proof.
  intros Hm Hf w. destruct (Hm w) as (entries & Hw & Ht).
  unfold logs, appends, World.bind in *.
  destruct (m w) as [[a | e] w1] eqn:E; cbn [snd] in Hw.
  - destruct (Hf a w1) as (entries' & Hw' & Ht').
    exists (entries ++ entries')%list. split.
    + rewrite Hw'. subst w1. cbn. rewrite length_app, Nat.add_assoc, app_assoc.
      reflexivity.
    + intros k entry Hk.
      destruct (Nat.lt_ge_cases k (List.length entries)) as [Hlt | Hge].
      * rewrite nth_error_app1 in Hk by exact Hlt. now apply Ht.
      * rewrite nth_error_app2 in Hk by exact Hge.
        rewrite (Ht' _ _ Hk). subst w1. cbn. do 2 f_equal. lia.
  - exists entries. split; [exact Hw | exact Ht].
Qed.

Lemma logs_settled (m : M A) : logs m -> logs (World.settled m).
Proof.
  intros Hm w. destruct (Hm w) as (entries & Hw & Ht).
  exists entries. split; [ | exact Ht].
  unfold World.settled. destruct (m w) as [r w1]. exact Hw.
Qed.

Lemma logs_if (b : bool) (m1 m2 : M A) : logs m1 -> logs m2 -> logs (if b then m1 else m2).
Proof. destruct b; auto. Qed.

End Logs.

Lemma logs_log self level message data : logs (BaseAgent.log self level message data).
Proof.
  intro w.
  exists [JObj ([("timestamp", JStr (World.clock w (World.reads w)));
                 ("agent", JStr (BaseAgent.name self));
                 ("level", JStr level);
                 ("message", JStr message)] ++
                (if Js.truthy data then [("data", data)] else []))%list].
  split.
  - cbn. rewrite Nat.add_1_r. reflexivity.
  - intros [ | [ | k]] entry E; try discriminate E.
    injection E as <-. cbn. now rewrite Nat.add_0_r.
Qed.

Ltac logging :=
  repeat first
    [ apply logs_ret
    | apply logs_lift
    | apply logs_log
    | apply logs_settled
    | apply logs_bind; [ | intros ]
    | apply logs_if
    | match goal with
      | |- logs (match ?x with _ => _ end) => destruct x
      end ].

Lemma health_logs context : logs (HealthRecoveryAgent.analyze context).
Proof. unfold HealthRecoveryAgent.analyze. logging. Qed.

Lemma golf_logs context : logs (GolfOperationsAgent.analyze context).
Proof. unfold GolfOperationsAgent.analyze. logging. Qed.

Lemma budget_logs context : logs (BudgetControlAgent.analyze context).
Proof. unfold BudgetControlAgent.analyze. logging. Qed.

Lemma transport_logs context : logs (TransportLogisticsAgent.analyze context).
Proof. unfold TransportLogisticsAgent.analyze. logging. Qed.

Lemma call_logs failed subContext specialist :
  (forall c, logs (specialist c)) ->
  logs (TravelExperienceAgent.call failed subContext specialist).
Proof. intro H. unfold TravelExperienceAgent.call. logging. apply H. Qed.

Lemma resume_logs failed p : logs (TravelExperienceAgent.resume failed p).
Proof. unfold TravelExperienceAgent.resume. logging. Qed.

Lemma orchestrator_logs context : logs (TravelExperienceAgent.analyze context).
Proof.
  unfold TravelExperienceAgent.analyze,
    TravelExperienceAgent.getHealthRecommendation,
    TravelExperienceAgent.getGolfRecommendation,
    TravelExperienceAgent.getBudgetRecommendation,
    TravelExperienceAgent.getTransportRecommendation.
  repeat first
    [ apply call_logs; intros
    | apply resume_logs
    | apply health_logs | apply golf_logs | apply budget_logs | apply transport_logs
    | apply logs_ret | apply logs_lift | apply logs_log
    | apply logs_bind; [ | intros ] ].
Qed.

Lemma silent_validation {A} self context requiredFields (k : unit -> M A) e w :
  BaseAgent.validateContext self context requiredFields = Throw e ->
  snd (World.bind (World.lift (BaseAgent.validateContext self context requiredFields)) k w)
  = w.
Proof. intro H. unfold World.bind, World.lift. rewrite H. reflexivity. Qed.

(** X21.  The agents only append to the console.  Running [analyze] of any of
    the five agents leaves the clock as it is and the earlier entries of the
    console in place; it appends entries and reads the clock once for each,
    so that the k-th entry appended carries, as its timestamp, the k-th
    reading of the clock made by the run.  A context that fails the
    validation of an agent leaves no trace: that agent logs nothing and reads
    no clock. *)
Theorem agents_only_append_to_the_console :
  forall (context : JsVal) (w : World),
    (exists entries, appends (TravelExperienceAgent.analyze context) w entries) /\
    (exists entries, appends (HealthRecoveryAgent.analyze context) w entries) /\
    (exists entries, appends (GolfOperationsAgent.analyze context) w entries) /\
    (exists entries, appends (BudgetControlAgent.analyze context) w entries) /\
    (exists entries, appends (TransportLogisticsAgent.analyze context) w entries) /\
    (forall e,
        (BaseAgent.validateContext TravelExperienceAgent.self context
           ["tripId"; "userId"; "date"; "trip"; "currentItinerary"] = Throw e ->
         snd (TravelExperienceAgent.analyze context w) = w) /\
        (BaseAgent.validateContext HealthRecoveryAgent.self context
           ["tripId"; "userId"; "date"; "consecutiveActiveDays"] = Throw e ->
         snd (HealthRecoveryAgent.analyze context w) = w) /\
        (BaseAgent.validateContext GolfOperationsAgent.self context
           ["tripId"; "userId"; "date"; "location"] = Throw e ->
         snd (GolfOperationsAgent.analyze context w) = w) /\
        (BaseAgent.validateContext BudgetControlAgent.self context
           ["tripId"; "userId"; "date"; "trip"; "categorySpend"] = Throw e ->
         snd (BudgetControlAgent.analyze context w) = w) /\
        (BaseAgent.validateContext TransportLogisticsAgent.self context
           ["tripId"; "userId"; "date"; "currentLocation"] = Throw e ->
         snd (TransportLogisticsAgent.analyze context w) = w)).
Proof.
  intros context w.
  split; [apply orchestrator_logs | ].
  split; [apply health_logs | ].
  split; [apply golf_logs | ].
  split; [apply budget_logs | ].
  split; [apply transport_logs | ].
  intro e. repeat split; intro H; now apply silent_validation with (e := e).
Qed.

Lemma agents_only_append_to_the_console_witness :
  (exists entries,
      appends (TravelExperienceAgent.analyze CultureDay.context) Sample.still entries /\
      List.length entries = 5%nat) /\
  snd (HealthRecoveryAgent.analyze UndefinedField.absent Sample.still) = Sample.still.
Proof.
  destruct (agents_only_append_to_the_console CultureDay.context Sample.still)
    as ((entries & Ha) & _).
  destruct (agents_only_append_to_the_console UndefinedField.absent Sample.still)
    as (_ & _ & _ & _ & _ & Hsilent).
  split.
  - exists entries. split; [exact Ha | ].
    destruct Ha as (Hw & _). apply (f_equal World.reads) in Hw.
    vm_compute in Hw. exact (eq_sym Hw).
  - eapply (proj1 (proj2 (Hsilent _))). vm_compute. reflexivity.
Defined.

(** * The category spend of the orchestrator *)

Lemma set_new_key (k : string) (v : JsVal) (ps : list (string * JsVal)) :
  ~ In k (map fst ps) -> Js.set k v ps = (ps ++ [(k, v)])%list.
Proof.
  induction ps as [ | [k' v'] rest IH]; intro H; [reflexivity | ].
  cbn [Js.set]. destruct (String.eqb k k') eqn:E.
  - apply String.eqb_eq in E. subst k'. exfalso. apply H. now left.
  - cbn [List.app]. f_equal. apply IH. intro Hin. apply H. now right.
Qed.

Lemma categories_in_order (categories acc : list (string * JsVal)) :
  NoDup (map fst acc ++ map fst categories) ->
  fold_left
    (fun acc '(category, planned) =>
       Js.set category
         (JObj [("planned", Js.or_ planned (Js.num 0)); ("actual", Js.num 0)]) acc)
    categories acc
  = (acc ++ map (fun '(category, planned) => (category, unspent planned)) categories)%list.
Proof.
  revert acc. induction categories as [ | [category planned] rest IH]; intros acc H.
  - cbn. now rewrite app_nil_r.
  - cbn [fold_left map]. rewrite set_new_key.
    + rewrite IH.
      * rewrite <- app_assoc. reflexivity.
      * rewrite map_app. cbn [map fst]. rewrite <- app_assoc. exact H.
    + cbn [map fst] in H. apply NoDup_remove_2 in H.
      intro Hin. apply H. apply in_or_app. now left.
Qed.

(** X22.  The category spend the orchestrator builds.  From a trip whose
    budget lists its categories (an object has each key once; none is
    called [__proto__], a name whose assignment sets the prototype), the
    orchestrator builds a category spend with the same categories in the
    same order, each with the planned amount of the budget (0 when that
    amount is undefined, null, zero, NaN, false or an empty string) and an
    actual amount of 0, whatever has been spent on the trip.  A trip
    without a budget, or a budget without categories, makes it throw a
    TypeError. *)
Theorem category_spend_is_the_plan_unspent :
  forall (trip budget : JsVal) (categories : list (string * JsVal)),
    (Js.get trip "budget" = Ok budget ->
     Js.get budget "categories" = Ok (JObj categories) ->
     NoDup (map fst categories) ->
     ~ In "__proto__" (map fst categories) ->
     TravelExperienceAgent.buildCategorySpend trip =
     Ok (JObj (map (fun '(category, planned) => (category, unspent planned))
                   categories))) /\
    (Js.is_nullish trip = true \/
     Js.is_nullish (Js.prop trip "budget") = true \/
     Js.is_nullish (Js.prop (Js.prop trip "budget") "categories") = true ->
     exists message,
       TravelExperienceAgent.buildCategorySpend trip = Throw (TypeError message)).
Proof.
  intros trip budget categories. split.
  - intros Hb Hc Hkeys _. unfold TravelExperienceAgent.buildCategorySpend.
    rewrite Hb. cbn [Js.rbind]. rewrite Hc.
    cbn [Js.rbind Js.entries Js.is_nullish Js.own_props].
    rewrite categories_in_order by exact Hkeys. reflexivity.
  - unfold TravelExperienceAgent.buildCategorySpend, Js.get, Js.entries.
    intros [H | [H | H]].
    + rewrite H. eexists. reflexivity.
    + destruct (Js.is_nullish trip); [eexists; reflexivity | ].
      cbn [Js.rbind]. rewrite H. eexists. reflexivity.
    + destruct (Js.is_nullish trip); [eexists; reflexivity | ].
      cbn [Js.rbind].
      destruct (Js.is_nullish (Js.prop trip "budget")); [eexists; reflexivity | ].
      cbn [Js.rbind]. rewrite H. eexists. reflexivity.
Qed.

Lemma category_spend_is_the_plan_unspent_witness :
  TravelExperienceAgent.buildCategorySpend Sample.trip =
  Ok (JObj [("golf", unspent (Js.num 5000)); ("dining", unspent (Js.num 3000))]).
Proof.
  destruct (category_spend_is_the_plan_unspent Sample.trip
              (Js.prop Sample.trip "budget")
              [("golf", Js.num 5000); ("dining", Js.num 3000)]) as (H & _).
  apply H.
  - reflexivity.
  - reflexivity.
  - repeat constructor; cbn; intuition discriminate.
  - cbn. intuition discriminate.
Defined.

(** * The tools of the MCP server *)

Lemma handler_result {A} (first : Result JsVal) (agent : JsVal -> M AgentRecommendation)
      (outcome : JsVal -> Result AgentRecommendation) (k : AgentRecommendation -> A) :
  (forall c, returns (agent c) (outcome c)) ->
  returns
    (World.bind (World.lift first) (fun v =>
     World.bind (agent v) (fun recommendation => World.ret (k recommendation))))
    (Js.rbind first (fun v =>
     Js.rbind (outcome v) (fun recommendation => Ok (k recommendation)))).
Proof.
  intro H. apply returns_bind; [apply returns_lift | intros v _].
  apply returns_bind; [apply H | intros; apply returns_ret].
Qed.

Lemma guarded_result (handler : M McpServer.ToolResult) (w : World) :
  World.result (McpServer.guarded handler) w =
  Ok match World.result handler w with
     | Ok result => result
     | Throw error =>
         {| McpServer.text := McpServer.Plain ("Error: " ++ JsErrors.message error);
            McpServer.isError := true |}
     end.
Proof.
  unfold World.result, McpServer.guarded. destruct (handler w) as [[result | e] w'];
    reflexivity.
Qed.

(** What a call of a tool gives: the recommendation of the agent, or the
    message of a TypeError raised by the runtime. *)
Definition tool_outcome (handler : M McpServer.ToolResult) (w : World) : Prop :=
  (exists recommendation,
      World.result handler w = Ok (McpServer.answer recommendation) /\
      World.result (McpServer.guarded handler) w = Ok (McpServer.answer recommendation)) \/
  (exists message,
      World.result handler w = Throw (TypeError message) /\
      World.result (McpServer.guarded handler) w =
        Ok {| McpServer.text := McpServer.Plain ("Error: " ++ message);
              McpServer.isError := true |}).

Lemma tool_outcome_of (handler : M McpServer.ToolResult) (w : World)
      (outcome : Result AgentRecommendation) :
  World.result handler w =
    Js.rbind outcome (fun recommendation => Ok (McpServer.answer recommendation)) ->
  no_Error outcome ->
  tool_outcome handler w.
Proof.
  intros H Hno. unfold tool_outcome. rewrite guarded_result, H.
  destruct outcome as [recommendation | [message | message]]; cbn in *.
  - left. eauto.
  - contradiction.
  - right. eauto.
Qed.

Lemma tool_result (first : Result JsVal) (build : JsVal -> JsVal)
      (agent : JsVal -> M AgentRecommendation)
      (outcome : JsVal -> Result AgentRecommendation) (w : World) :
  (forall c, returns (agent c) (outcome c)) ->
  no_Error first ->
  (forall v, no_Error (outcome (build v))) ->
  tool_outcome
    (World.bind (World.lift first) (fun v =>
     World.bind (agent (build v)) (fun recommendation =>
     World.ret (McpServer.answer recommendation)))) w.
Proof.
  intros Hagent Hfirst Hbuild.
  apply tool_outcome_of with (outcome := Js.rbind first (fun v => outcome (build v))).
  - rewrite (handler_result first (fun v => agent (build v))
               (fun v => outcome (build v)) McpServer.answer); [ | intro; apply Hagent].
    now destruct first.
  - apply no_Error_rbind; assumption.
Qed.

(** The keys of the literal contexts of the handlers are all there. *)
Ltac literal_context :=
  intro tripId;
  first
    [ apply orchestrator_no_Error; reflexivity
    | apply specialists_no_Error; reflexivity ].

Lemma health_tool_no_Error (ps : list (string * JsVal)) :
  absent ps ["tripId"; "userId"; "date"; "consecutiveActiveDays"] = [] ->
  no_Error (Outcome.health (JObj ps)).
Proof.
  intro H. unfold Outcome.health. rewrite validateContext_object, H. exact I.
Qed.

(** X23.  Through the tools of the MCP server that run an agent, no agent
    ever reports missing context fields: each handler writes every key the
    agent requires into the context, with the value [undefined] where the
    arguments have none.  A call gives the recommendation, or the message
    of a TypeError of the runtime, flagged as an error. *)
Theorem tools_never_report_missing_fields (args : JsVal) (w : World) :
  tool_outcome (McpServer.handleAnalyzeDailyItinerary args) w /\
  tool_outcome (McpServer.handleHealthRecoveryAnalysis args) w /\
  tool_outcome (McpServer.handleGolfOperationsPlanning args) w /\
  tool_outcome (McpServer.handleBudgetControlCheck args) w /\
  tool_outcome (McpServer.handleTransportLogisticsReview args) w.
Proof.
  repeat split.
  - apply tool_result with (outcome := Outcome.orchestrator);
      [exact orchestrator_analyze_result | apply no_Error_get | literal_context].
  - apply tool_result with (outcome := Outcome.health);
      [exact health_analyze_result | apply no_Error_get | ].
    intro tripId. apply health_tool_no_Error. reflexivity.
  - apply tool_result with (outcome := Outcome.golf);
      [exact golf_analyze_result | apply no_Error_get | literal_context].
  - apply tool_result with (outcome := Outcome.budget);
      [exact budget_analyze_result | apply no_Error_get | literal_context].
  - apply tool_result with (outcome := Outcome.transport);
      [exact transport_analyze_result | apply no_Error_get | literal_context].
Qed.

(** * The route POST /api/analyze-day *)

(** The four fields that the route requires are there and truthy. *)
Definition required_truthy (context : JsVal) : bool :=
  Js.truthy (Js.prop context "tripId") &&
  Js.truthy (Js.prop context "userId") &&
  Js.truthy (Js.prop context "date") &&
  Js.truthy (Js.prop context "currentItinerary").

Definition refused : Server.Response :=
  {| Server.status := 400;
     Server.body :=
       JObj [("success", JBool false);
             ("error",
               JStr "Missing required fields: tripId, userId, date, currentItinerary")] |}.

Definition failure (message : string) : Server.Response :=
  {| Server.status := 500;
     Server.body := JObj [("success", JBool false); ("error", JStr message)] |}.

(** The answer of the route to a context that it hands to the agent. *)
Definition answer_of (context : JsVal) (w : World) : Server.Response :=
  match World.result (TravelExperienceAgent.analyze context) w with
  | Ok recommendation =>
      {| Server.status := 200;
         Server.body := JObj [("success", JBool true);
                              ("data", BaseAgent.to_js recommendation)] |}
  | Throw error => failure (JsErrors.message error)
  end.

Lemma truthy_has_key (k : string) (ps : list (string * JsVal)) :
  Js.truthy (Js.prop (JObj ps) k) = true -> has_key k ps = true.
Proof.
  unfold has_key. cbn [Js.prop]. destruct (Js.lookup k ps); [reflexivity | discriminate].
Qed.

Lemma required_truthy_keys (ps : list (string * JsVal)) :
  required_truthy (JObj ps) = true ->
  has_key "tripId" ps = true /\ has_key "userId" ps = true /\
  has_key "date" ps = true /\ has_key "currentItinerary" ps = true.
Proof.
  unfold required_truthy. rewrite !andb_true_iff.
  intros (((Ht & Hu) & Hd) & Hi). auto using truthy_has_key.
Qed.

Lemma required_truthy_get (context : JsVal) :
  required_truthy context = true ->
  Js.get context "tripId" = Ok (Js.prop context "tripId").
Proof.
  unfold required_truthy, Js.get. destruct context; cbn; try discriminate; reflexivity.
Qed.

Lemma analyzed (context : JsVal) (p : Server.Process) :
  fst (match TravelExperienceAgent.analyze context (Server.world p) with
       | (Ok recommendation, w') =>
           ({| Server.status := 200;
               Server.body := JObj [("success", JBool true);
                                    ("data", BaseAgent.to_js recommendation)] |},
            {| Server.world := w'; Server.stderr := Server.stderr p |})
       | (Throw error, w') =>
           ({| Server.status := 500;
               Server.body := JObj [("success", JBool false);
                                    ("error", JStr (JsErrors.message error))] |},
            Server.console_error [JStr "TXA analysis failed:"; BaseAgent.error_data error]
              {| Server.world := w'; Server.stderr := Server.stderr p |})
       end) = answer_of context (Server.world p).
Proof.
  unfold answer_of, World.result.
  destruct (TravelExperienceAgent.analyze context (Server.world p)) as [[r | e] w'];
    reflexivity.
Qed.

(** The fetch of the client: the request, then the transformation. *)
Definition fetched (client : CarePeersMCPClient.Client)
           (network : CarePeersMCPClient.Network) (userId : JsVal) : Result JsVal :=
  Js.rbind
    (CarePeersMCPClient.mcpRequest client network "wellness.getProfile"
       (JObj [("userId", userId)]))
    CarePeersMCPClient.transformToWellnessProfile.

(** What the route hands to the agent, and what it writes before. *)
Lemma prepare_accepted (client : CarePeersMCPClient.Client)
      (network : CarePeersMCPClient.Network) (ps : list (string * JsVal))
      (p : Server.Process) :
  required_truthy (JObj ps) = true ->
  Server.prepare client network (JObj ps) p =
  if Js.truthy (Js.prop (JObj ps) "wellnessProfile") then (Ok (inr (JObj ps)), p)
  else
    match fetched client network (Js.prop (JObj ps) "userId") with
    | Ok profile =>
        (Ok (inr (JObj (Js.set "wellnessProfile" profile ps))),
         {| Server.world := Server.world p; Server.stderr := Server.stderr p |})
    | Throw error =>
        (Ok (inr (JObj ps)),
         {| Server.world := Server.world p;
            Server.stderr :=
              (Server.stderr p ++
               [[JStr "Failed to fetch wellness profile from CarePeers:";
                 BaseAgent.error_data error];
                [JStr "Could not fetch wellness profile, proceeding without it"]])%list |})
    end.
Proof.
  intro H. unfold Server.prepare. rewrite (required_truthy_get _ H).
  unfold required_truthy in H. rewrite !andb_true_iff in H.
  destruct H as (((-> & ->) & ->) & ->). cbn [negb orb].
  destruct (Js.truthy (Js.prop (JObj ps) "wellnessProfile")); cbn [negb]; [reflexivity | ].
  unfold CarePeersMCPClient.getWellnessProfile, fetched.
  destruct (Js.rbind _ _) as [profile | error]; [reflexivity | ].
  unfold Server.console_error. cbn [Server.world Server.stderr].
  now rewrite <- app_assoc.
Qed.

Lemma missing_trip (ps : list (string * JsVal)) (w : World) :
  has_key "tripId" ps = true -> has_key "userId" ps = true ->
  has_key "date" ps = true -> has_key "currentItinerary" ps = true ->
  has_key "trip" ps = false ->
  answer_of (JObj ps) w =
  failure "Travel Experience Agent (TXA) missing required context fields: trip".
Proof.
  intros Ht Hu Hd Hi Htrip. unfold answer_of.
  rewrite (orchestrator_analyze_result (JObj ps) w).
  unfold Outcome.orchestrator, Outcome.reaches_fan_out.
  rewrite validateContext_object. unfold absent. cbn [filter].
  rewrite Ht, Hu, Hd, Hi, Htrip. reflexivity.
Qed.

(** X24.  The route refuses with status 400 a body in which [tripId],
    [userId], [date] or [currentItinerary] is falsy (0 or an empty string as
    well as missing) and leaves the process as it is.  It does not look at
    [trip]: a body with the four fields and no key [trip] is handed to the
    agent, whose validation fails, and the answer is the status 500 with
    the message of the agent. *)
Theorem route_checks_four_fields_for_truthiness
        (client : CarePeersMCPClient.Client) (network : CarePeersMCPClient.Network)
        (p : Server.Process) :
  (forall context,
     Js.is_nullish context = false -> required_truthy context = false ->
     Server.analyzeDay client network context p = (refused, p)) /\
  (forall ps,
     required_truthy (JObj ps) = true -> has_key "trip" ps = false ->
     fst (Server.analyzeDay client network (JObj ps) p) =
     failure "Travel Experience Agent (TXA) missing required context fields: trip").
Proof.
  split.
  - intros context Hnull H. unfold Server.analyzeDay, Server.prepare, Js.get.
    rewrite Hnull. unfold required_truthy in H.
    destruct (Js.truthy (Js.prop context "tripId")),
      (Js.truthy (Js.prop context "userId")),
      (Js.truthy (Js.prop context "date")),
      (Js.truthy (Js.prop context "currentItinerary")); try discriminate; reflexivity.
  - intros ps H Htrip.
    destruct (required_truthy_keys ps H) as (Ht & Hu & Hd & Hi).
    unfold Server.analyzeDay. rewrite (prepare_accepted client network ps p H).
    destruct (Js.truthy (Js.prop (JObj ps) "wellnessProfile")).
    + rewrite analyzed. now apply missing_trip.
    + destruct (fetched client network _) as [profile | error].
      * rewrite analyzed. cbn [Server.world].
        apply missing_trip; rewrite has_key_set; cbn [String.eqb Ascii.eqb Bool.eqb];
          rewrite ?Ht, ?Hu, ?Hd, ?Hi, ?Htrip; reflexivity.
      * rewrite analyzed. cbn [Server.world]. now apply missing_trip.
Qed.

Module Offline.

Definition client : CarePeersMCPClient.Client :=
  {| CarePeersMCPClient.baseUrl := "http://localhost:5000";
     CarePeersMCPClient.apiKey := "key" |}.

(** No server answers. *)
Definition network : CarePeersMCPClient.Network :=
  fun _ _ _ => CarePeersMCPClient.Unreachable (TypeError "fetch failed").

Definition process : Server.Process :=
  {| Server.world := Sample.still; Server.stderr := [] |}.

(** A body with the four fields that the route requires, and no trip. *)
Definition no_trip : list (string * JsVal) :=
  [("tripId", JStr "trip-1"); ("userId", JStr "user-1"); ("date", JStr "2026-03-02");
   ("currentItinerary", CultureDay.kyoto)].

(** The same body with a trip. *)
Definition body : list (string * JsVal) :=
  Js.set "trip" Sample.trip no_trip.

(** The same body with the number 0 as [tripId]. *)
Definition zero_trip_id : JsVal :=
  JObj (Js.set "tripId" (Js.num 0) no_trip).

End Offline.

Lemma route_checks_four_fields_for_truthiness_witness :
  Server.analyzeDay Offline.client Offline.network Offline.zero_trip_id Offline.process =
    (refused, Offline.process) /\
  fst (Server.analyzeDay Offline.client Offline.network (JObj Offline.no_trip)
         Offline.process) =
    failure "Travel Experience Agent (TXA) missing required context fields: trip".
Proof.
  destruct (route_checks_four_fields_for_truthiness
              Offline.client Offline.network Offline.process) as (H400 & H500).
  split.
  - apply H400; reflexivity.
  - apply H500; reflexivity.
Defined.

(** X25.  The route asks CarePeers for a wellness profile only when the body
    has none: with a truthy [wellnessProfile] the network plays no part.
    When the fetch fails the request does not: the answer is the one of the
    agent on the body as it was sent, and the error stream gets the line of
    the client and the warning of the route.  When the fetch succeeds the
    agent analyzes the body with the profile as [wellnessProfile]. *)
Theorem wellness_fetch_never_fails_the_request
        (client : CarePeersMCPClient.Client) (network : CarePeersMCPClient.Network)
        (ps : list (string * JsVal)) (p : Server.Process) :
  required_truthy (JObj ps) = true ->
  (Js.truthy (Js.prop (JObj ps) "wellnessProfile") = true ->
   forall other : CarePeersMCPClient.Network,
     Server.analyzeDay client other (JObj ps) p =
     Server.analyzeDay client network (JObj ps) p) /\
  (Js.truthy (Js.prop (JObj ps) "wellnessProfile") = false ->
   forall error,
     fetched client network (Js.prop (JObj ps) "userId") = Throw error ->
     fst (Server.analyzeDay client network (JObj ps) p) =
       answer_of (JObj ps) (Server.world p) /\
     exists later,
       Server.stderr (snd (Server.analyzeDay client network (JObj ps) p)) =
       (Server.stderr p ++
        [[JStr "Failed to fetch wellness profile from CarePeers:";
          BaseAgent.error_data error];
         [JStr "Could not fetch wellness profile, proceeding without it"]] ++
        later)%list) /\
  (Js.truthy (Js.prop (JObj ps) "wellnessProfile") = false ->
   forall profile,
     fetched client network (Js.prop (JObj ps) "userId") = Ok profile ->
     fst (Server.analyzeDay client network (JObj ps) p) =
       answer_of (JObj (Js.set "wellnessProfile" profile ps)) (Server.world p)).
Proof.
  intro H. unfold Server.analyzeDay. split; [ | split].
  - intros Hw other. rewrite !(prepare_accepted client _ ps p H), Hw. reflexivity.
  - intros Hw error Hfetched.
    rewrite (prepare_accepted client network ps p H), Hw, Hfetched.
    split; [now rewrite analyzed | ].
    cbn [Server.world Server.stderr].
    destruct (TravelExperienceAgent.analyze (JObj ps) (Server.world p))
      as [[recommendation | e] w'].
    + exists []. cbn [snd Server.stderr]. reflexivity.
    + eexists. cbn [snd Server.stderr Server.console_error].
      rewrite <- app_assoc. reflexivity.
  - intros Hw profile Hfetched.
    rewrite (prepare_accepted client network ps p H), Hw, Hfetched. now rewrite analyzed.
Qed.

Lemma wellness_fetch_never_fails_the_request_witness :
  fst (Server.analyzeDay Offline.client Offline.network (JObj Offline.body)
         Offline.process) =
    answer_of (JObj Offline.body) Sample.still /\
  Server.status (answer_of (JObj Offline.body) Sample.still) = 200%Z /\
  List.length
    (Server.stderr
       (snd (Server.analyzeDay Offline.client Offline.network (JObj Offline.body)
               Offline.process))) = 2%nat.
Proof.
  assert (H : required_truthy (JObj Offline.body) = true) by reflexivity.
  destruct (wellness_fetch_never_fails_the_request
              Offline.client Offline.network Offline.body Offline.process H)
    as (_ & Hfailed & _).
  destruct (Hfailed eq_refl (TypeError "fetch failed") eq_refl) as (Hanswer & _).
  split; [exact Hanswer | ].
  split; vm_compute; reflexivity.
Defined.

(** * The wellness profile of CarePeers *)

(** [Math.round] of a ratio of integers. *)
Lemma round_of_ratio (z : Z) (d : positive) :
  JsMath.round (JsNumber.div (JsNumber.of_Z z) (JsNumber.of_Z (Zpos d))) =
  JsNumber.of_Z ((2 * z + Zpos d) / (2 * Zpos d)).
Proof.
  unfold JsNumber.div, JsNumber.of_Z, JsMath.round.
  assert (Hd : JsNumber.is_zero (inject_Z (Zpos d)) = false) by reflexivity.
  rewrite Hd. unfold JsNumber.of_Z. do 2 f_equal.
  rewrite (Qfloor_comp _ ((2 * z + Zpos d) # (2 * d))).
  - reflexivity.
  - rewrite Qred_correct. unfold Qeq, Qdiv, Qmult, Qplus, Qinv, inject_Z.
    cbn [Qnum Qden]. lia.
Qed.

Lemma lt_of_Z (a b : Z) :
  JsNumber.lt (JsNumber.of_Z a) (JsNumber.of_Z b) = (a <? b)%Z.
Proof.
  unfold JsNumber.lt, JsNumber.of_Z, JsNumber.Qlt_bool, Qle_bool, inject_Z.
  cbn [Qnum Qden]. rewrite !Z.mul_1_r.
  destruct (Z.ltb_spec a b), (Z.leb_spec b a); try reflexivity; exfalso; lia.
Qed.

Lemma min_of_Z (a b : Z) :
  JsMath.min (JsNumber.of_Z a) (JsNumber.of_Z b) = JsNumber.of_Z (Z.min a b).
Proof.
  pose proof (lt_of_Z b a) as H. unfold JsMath.min, JsNumber.of_Z in *.
  rewrite H. destruct (Z.ltb_spec b a); do 2 f_equal; lia.
Qed.

Lemma max_of_Z (a b : Z) :
  JsMath.max (JsNumber.of_Z a) (JsNumber.of_Z b) = JsNumber.of_Z (Z.max a b).
Proof.
  pose proof (lt_of_Z a b) as H. unfold JsMath.max, JsNumber.of_Z in *.
  rewrite H. destruct (Z.ltb_spec a b); do 2 f_equal; lia.
Qed.

(** The rating of a sleep quality that is a whole number. *)
Definition sleep_rating (quality : Z) : Z :=
  if (quality <? 30)%Z then 1
  else if (quality <? 50)%Z then 2
  else if (quality <? 70)%Z then 3
  else if (quality <? 90)%Z then 4
  else 5.

(** The rating of any number but NaN is a whole number from 1 to 5. *)
Lemma rating_of_number (v : JsVal) :
  Js.ToNumber v <> NaN ->
  exists rating : Z,
    (1 <= rating <= 5)%Z /\
    CarePeersMCPClient.mapSleepQuality v = JsNumber.of_Z rating.
Proof.
  intros Hn. unfold CarePeersMCPClient.mapSleepQuality, Js.div.
  change (Js.ToNumber (Js.num 20)) with (JsNumber.of_Z 20).
  destruct (Js.ToNumber v) as [ | | | q]; [contradiction | | | ].
  - exists 5%Z. split; [lia | reflexivity].
  - exists 1%Z. split; [lia | reflexivity].
  - unfold JsNumber.div, JsNumber.of_Z.
    change (JsNumber.is_zero (inject_Z 20)) with false. cbv iota.
    unfold JsMath.round.
    set (k := Qfloor _).
    change (Fin (inject_Z ?z)) with (JsNumber.of_Z z).
    rewrite min_of_Z, max_of_Z.
    exists (Z.max 1 (Z.min 5 k)). split; [lia | reflexivity].
Qed.

(** X26.  [mapSleepQuality] gives a whole rating from 1 to 5 for every
    number but NaN, out of the scale 0-100 too; NaN stays NaN.  On whole
    numbers the rating changes at 30, 50, 70 and 90. *)
Theorem sleep_quality_is_rated_one_to_five :
  (forall n : number, n <> NaN ->
     exists rating : Z,
       (1 <= rating <= 5)%Z /\
       CarePeersMCPClient.mapSleepQuality (JNum n) = JsNumber.of_Z rating) /\
  CarePeersMCPClient.mapSleepQuality (JNum NaN) = NaN /\
  (forall quality : Z,
     CarePeersMCPClient.mapSleepQuality (Js.num quality) =
     JsNumber.of_Z (sleep_rating quality)).
Proof.
  split; [ | split].
  - intros n Hn. apply rating_of_number. exact Hn.
  - reflexivity.
  - intro quality. unfold CarePeersMCPClient.mapSleepQuality, Js.div, Js.num.
    change (Js.ToNumber (JNum ?n)) with n.
    rewrite (round_of_ratio quality 20), min_of_Z, max_of_Z. f_equal.
    unfold sleep_rating.
    repeat match goal with
           | |- context [(?a <? ?b)%Z] => destruct (Z.ltb_spec a b)
           end;
      Z.to_euclidean_division_equations; lia.
Qed.

Lemma sleep_quality_is_rated_one_to_five_witness :
  exists rating : Z,
    (1 <= rating <= 5)%Z /\
    CarePeersMCPClient.mapSleepQuality (JNum (Fin 250)) = JsNumber.of_Z rating.
Proof.
  destruct sleep_quality_is_rated_one_to_five as (H & _).
  apply (H (Fin 250)). discriminate.
Defined.

(** The steps target of a movement pillar whose activity level is a whole
    number. *)
Definition steps_for (mobility : JsVal) (activityLevel : Z) : Z :=
  if Js.is_str mobility "limited" then 5000
  else if Js.is_str mobility "moderate" then 6500
  else 5600 + 24 * activityLevel.

Lemma round_steps (activityLevel : Z) :
  JsMath.round
    (JsNumber.mul (JsNumber.of_Z 8000)
       (JsNumber.add (Fin 0.7)
          (JsNumber.mul (Fin 0.3)
             (JsNumber.div (JsNumber.of_Z activityLevel) (JsNumber.of_Z 100))))) =
  JsNumber.of_Z (5600 + 24 * activityLevel).
Proof.
  unfold JsNumber.div, JsNumber.of_Z.
  change (JsNumber.is_zero (inject_Z 100)) with false. cbv iota.
  unfold JsNumber.mul, JsNumber.add, JsMath.round. do 2 f_equal.
  rewrite (Qfloor_comp _ ((2 * (5600 + 24 * activityLevel) + 1) # 2)).
  - unfold Qfloor. Z.to_euclidean_division_equations; lia.
  - rewrite !Qred_correct.
    unfold Qeq, Qdiv, Qmult, Qplus, Qinv, inject_Z. cbn [Qnum Qden]. lia.
Qed.

(** X27.  For an activity level that is a whole number, at most a million
    in absolute value, the steps target is 5000 for the mobility "limited",
    6500 for "moderate", both compared exactly, and otherwise 5600 plus 24
    steps for each point of the activity level; it lies between 5000 and
    8000 on the scale 0-100. *)
Theorem steps_target_of_activity_level (movement : JsVal) (activityLevel : Z) :
  Js.get movement "activityLevel" = Ok (Js.num activityLevel) ->
  (Z.abs activityLevel <= 1000000)%Z ->
  CarePeersMCPClient.calculateStepsTarget movement =
    Ok (JsNumber.of_Z (steps_for (Js.prop movement "mobility") activityLevel)) /\
  ((0 <= activityLevel <= 100)%Z ->
   (5000 <= steps_for (Js.prop movement "mobility") activityLevel <= 8000)%Z).
Proof.
  intros H _. split.
  - unfold CarePeersMCPClient.calculateStepsTarget, steps_for. rewrite H.
    cbn [Js.rbind].
    destruct (Js.is_str _ "limited"); [reflexivity | ].
    destruct (Js.is_str _ "moderate"); [reflexivity | ].
    unfold Js.div, Js.num. change (Js.ToNumber (JNum ?n)) with n.
    now rewrite round_steps.
  - intro Hrange. unfold steps_for.
    destruct (Js.is_str _ "limited"); [lia | ].
    destruct (Js.is_str _ "moderate"); lia.
Qed.

Lemma steps_target_of_activity_level_witness :
  CarePeersMCPClient.calculateStepsTarget
    (JObj [("activityLevel", Js.num 75); ("mobility", JStr "Limited")]) =
  Ok (JsNumber.of_Z 7400).
Proof.
  apply (steps_target_of_activity_level
           (JObj [("activityLevel", Js.num 75); ("mobility", JStr "Limited")]) 75).
  - reflexivity.
  - lia.
Defined.

(** A string out of a list. *)
Definition one_of (options : list string) (v : JsVal) : Prop :=
  exists s, v = JStr s /\ In s options.

(** NaN, or a whole number from 1 to 5. *)
Definition nan_or_rating (v : JsVal) : Prop :=
  v = JNum NaN \/ exists rating : Z, (1 <= rating <= 5)%Z /\ v = Js.num rating.

(** X28.  Whatever CarePeers sends, a profile that [transformToWellnessProfile]
    returns has the energy level "low", "medium" or "high", the mobility
    level "full", "moderate" or "limited", no medical condition, a steps
    target that is a number, the user id and the WHO-5 score that were
    sent, and a sleep quality that is NaN or a whole number from 1 to 5. *)
Theorem transformed_profile_is_in_range (data profile : JsVal) :
  CarePeersMCPClient.transformToWellnessProfile data = Ok profile ->
  one_of ["low"; "medium"; "high"] (Js.prop profile "energyLevel") /\
  one_of ["full"; "moderate"; "limited"] (Js.prop profile "mobilityLevel") /\
  Js.prop profile "medicalConditions" = JArr [] /\
  (exists steps, Js.prop profile "stepsTarget" = JNum steps) /\
  nan_or_rating (Js.prop profile "sleepQuality") /\
  Js.prop profile "userId" = Js.prop data "userId" /\
  Js.prop profile "who5Score" = Js.prop data "who5Score".
Proof.
  unfold CarePeersMCPClient.transformToWellnessProfile. intro H.
  destruct (Js.get data "userId") as [userId | ] eqn:Hu; [ | discriminate].
  cbn [Js.rbind] in H.
  destruct (Js.get _ "sleep") as [sleep | ]; [ | discriminate]. cbn [Js.rbind] in H.
  destruct (Js.get sleep "quality") as [quality | ]; [ | discriminate].
  cbn [Js.rbind] in H.
  destruct (CarePeersMCPClient.calculateStepsTarget _) as [steps | ]; [ | discriminate].
  cbn [Js.rbind] in H.
  destruct (CarePeersMCPClient.extractDietaryRestrictions _) as [diet | ];
    [ | discriminate].
  cbn [Js.rbind] in H.
  destruct (CarePeersMCPClient.mapMobilityLevel _) as [level | ] eqn:Hlevel;
    [ | discriminate].
  cbn [Js.rbind] in H.
  destruct (CarePeersMCPClient.extractMedicationSchedule _) as [schedule | ];
    [ | discriminate].
  cbn [Js.rbind] in H. injection H as <-.
  change (Js.prop (JObj ?ps) "energyLevel")
    with (JStr (CarePeersMCPClient.mapEnergyLevel (Js.prop data "who5Score"))).
  change (Js.prop (JObj ?ps) "mobilityLevel") with (JStr level).
  change (Js.prop (JObj ?ps) "medicalConditions") with (JArr []).
  change (Js.prop (JObj ?ps) "stepsTarget") with (JNum steps).
  change (Js.prop (JObj ?ps) "sleepQuality")
    with (JNum (CarePeersMCPClient.mapSleepQuality quality)).
  change (Js.prop (JObj ?ps) "userId") with userId.
  change (Js.prop (JObj ?ps) "who5Score") with (Js.prop data "who5Score").
  repeat split.
  - eexists. split; [reflexivity | ]. unfold CarePeersMCPClient.mapEnergyLevel.
    destruct (Js.lt _ (Js.num 35)); [cbn; auto | ].
    destruct (Js.lt _ (Js.num 70)); cbn; auto.
  - eexists. split; [reflexivity | ].
    unfold CarePeersMCPClient.mapMobilityLevel in Hlevel.
    destruct (Js.as_string _ _) as [s | ]; [ | discriminate].
    cbn [Js.rbind] in Hlevel. injection Hlevel as <-.
    destruct (_ || _); [cbn; auto | ].
    destruct (_ || _); cbn; auto.
  - eauto.
  - unfold nan_or_rating.
    destruct (Js.ToNumber quality) as [ | | | q] eqn:Hq.
    + left. unfold CarePeersMCPClient.mapSleepQuality, Js.div. now rewrite Hq.
    + right. destruct (rating_of_number quality) as (k & Hk & ->); [congruence | eauto].
    + right. destruct (rating_of_number quality) as (k & Hk & ->); [congruence | eauto].
    + right. destruct (rating_of_number quality) as (k & Hk & ->); [congruence | eauto].
  - unfold Js.get in Hu. destruct (Js.is_nullish data); [discriminate | ].
    now injection Hu as <-.
Qed.

Module Maria.

(** A reply of CarePeers, with a sleep quality out of the scale. *)
Definition data : JsVal :=
  JObj [("userId", JStr "maria");
        ("who5Score", Js.num 68);
        ("lifestylePillars",
          JObj [("sleep", JObj [("quality", Js.num 120)]);
                ("movement", JObj [("activityLevel", Js.num 50);
                                   ("mobility", JStr "Unrestricted")]);
                ("nutrition", JObj [("dietPattern", JStr "mostly vegetarian")]);
                ("substanceUse", JObj [("medications", JArr [JStr "aspirin"])])])].

Definition profile : JsVal :=
  JObj [("userId", JStr "maria");
        ("who5Score", Js.num 68);
        ("sleepQuality", Js.num 5);
        ("energyLevel", JStr "medium");
        ("stepsTarget", Js.num 6800);
        ("dietaryRestrictions", JArr [JStr "vegetarian"]);
        ("medicalConditions", JArr []);
        ("mobilityLevel", JStr "limited");
        ("medicationSchedule",
          JArr [JObj [("name", JStr "aspirin");
                      ("frequency", JStr "daily");
                      ("timing", JStr "morning")]])].

End Maria.

Lemma transformed_profile_is_in_range_witness :
  CarePeersMCPClient.transformToWellnessProfile Maria.data = Ok Maria.profile /\
  one_of ["full"; "moderate"; "limited"] (Js.prop Maria.profile "mobilityLevel") /\
  nan_or_rating (Js.prop Maria.profile "sleepQuality").
Proof.
  assert (H : CarePeersMCPClient.transformToWellnessProfile Maria.data =
              Ok Maria.profile) by (vm_compute; reflexivity).
  split; [exact H | ].
  destruct (transformed_profile_is_in_range Maria.data Maria.profile H)
    as (_ & Hm & _ & _ & Hs & _).
  split; assumption.
Defined.
